(** * Khasmak: the deduction-report server actions

    A shallow embedding of [src/app/deductions/actions.ts] (the server
    actions of the deduction-report application) and the properties of the
    row/report mapper, the status update, the login checks and the error
    handling that its specification states.

    Layout: the JavaScript values and built-ins the actions rely on, the
    data model, the mapper ([rowsToAppend], [parseSubmissionsFromRows]), the
    effectful operations over the spreadsheet store, the entry form, the login
    form and the session store that call them, then the theorems: the facts
    on the built-ins, the mapper and the runs of the actions, then the
    reconstruction and the runs in detail. *)

From Stdlib Require Import ZArith NArith List String Ascii Bool Lia.
From Stdlib Require Import Permutation Sorted.
From Stdlib Require Import DecimalString.
From Stdlib Require Import Floats.PrimFloat Floats.SpecFloat Floats.FloatOps Floats.FloatAxioms.
Import ListNotations.

Local Open Scope string_scope.
Local Open Scope list_scope.

(** ** JavaScript strings

    A JavaScript string is modelled by its UTF-8 bytes ([String.string]).
    Equality, concatenation, [startsWith] and splitting on the ASCII space are
    the same on UTF-8 bytes as on UTF-16 code units.  The ordering [<]
    compares UTF-16 code units, and [toLowerCase] follows the Unicode case
    mapping: both are modelled as such (see [str_lt] and [toLowerCase]). *)

Module JS.

(** The UTF-8 encodings of the characters that [\s] and [trim] treat as white
    space (ECMAScript WhiteSpace and LineTerminator): TAB, LF, VT, FF, CR, SP,
    U+00A0, U+1680, U+2000..U+200A, U+2028, U+2029, U+202F, U+205F, U+3000,
    U+FEFF. *)
Definition whitespace_encodings : list (list N) :=
  [ [9]; [10]; [11]; [12]; [13]; [32]; [194; 160]; [225; 154; 128];
    [226; 128; 128]; [226; 128; 129]; [226; 128; 130]; [226; 128; 131];
    [226; 128; 132]; [226; 128; 133]; [226; 128; 134]; [226; 128; 135];
    [226; 128; 136]; [226; 128; 137]; [226; 128; 138];
    [226; 128; 168]; [226; 128; 169]; [226; 128; 175]; [226; 129; 159];
    [227; 128; 128]; [239; 187; 191] ]%N.

Fixpoint bytes_prefix (enc : list N) (l : list ascii) : bool :=
  match enc, l with
  | [], _ => true
  | b :: enc', c :: l' => (N_of_ascii c =? b)%N && bytes_prefix enc' l'
  | _ :: _, [] => false
  end.

(** [ws_len l] is the number of bytes of the white-space character that [l]
    starts with, [0] when it starts with none. *)
Definition ws_len (l : list ascii) : nat :=
  match find (fun enc => bytes_prefix enc l) whitespace_encodings with
  | Some enc => List.length enc
  | None => 0
  end.

(** The same, for a reversed byte list (used to trim the end). *)
Definition ws_len_rev (l : list ascii) : nat :=
  match find (fun enc => bytes_prefix (rev enc) l) whitespace_encodings with
  | Some enc => List.length enc
  | None => 0
  end.

Fixpoint drop_ws (wl : list ascii -> nat) (skip : nat) (l : list ascii) : list ascii :=
  match l with
  | [] => []
  | _ :: rest =>
      match skip with
      | S k => drop_ws wl k rest
      | O => match wl l with
             | S k => drop_ws wl k rest
             | O => l
             end
      end
  end.

Definition trimStart (s : string) : string :=
  string_of_list_ascii (drop_ws ws_len 0 (list_ascii_of_string s)).

Definition trimEnd (s : string) : string :=
  string_of_list_ascii (rev (drop_ws ws_len_rev 0 (rev (list_ascii_of_string s)))).

(** [String.prototype.trim]. *)
Definition trim (s : string) : string := trimEnd (trimStart s).

(** [String.prototype.toLowerCase].  In a string of ASCII characters it
    changes the letters [A] to [Z] and nothing else.  For a string with any
    other character it follows the case mapping of the Unicode Character
    Database that the engine carries, which is not written out here:
    [unicode_lower] stands for the result, and nothing is assumed of it. *)
Definition lower_ascii (c : ascii) : ascii :=
  let n := N_of_ascii c in
  if ((65 <=? n) && (n <=? 90))%N then ascii_of_N (n + 32) else c.

Fixpoint lower_ascii_letters (s : string) : string :=
  match s with
  | EmptyString => EmptyString
  | String c rest => String (lower_ascii c) (lower_ascii_letters rest)
  end.

Fixpoint is_ascii (s : string) : bool :=
  match s with
  | EmptyString => true
  | String c rest => (N_of_ascii c <? 128)%N && is_ascii rest
  end.

Definition toLowerCase (unicode_lower : string -> string) (s : string) : string :=
  if is_ascii s then lower_ascii_letters s else unicode_lower s.

(** [s.replace(/\s|:/g, '-')]: every white-space character and every colon
    becomes one hyphen. *)
Fixpoint replace_ws_colon (skip : nat) (l : list ascii) : list ascii :=
  match l with
  | [] => []
  | c :: rest =>
      match skip with
      | S k => replace_ws_colon k rest
      | O => match ws_len l with
             | S k => "-"%char :: replace_ws_colon k rest
             | O => (if Ascii.eqb c ":" then "-"%char else c) :: replace_ws_colon 0 rest
             end
      end
  end.

Definition replace_space_colon (s : string) : string :=
  string_of_list_ascii (replace_ws_colon 0 (list_ascii_of_string s)).

(** [String.prototype.startsWith]. *)
Definition startsWith (s prefix : string) : bool := String.prefix prefix s.

(** [s.split(sep)] for a one-character separator: never empty. *)
Fixpoint split (sep : ascii) (s : string) : list string :=
  match s with
  | EmptyString => [EmptyString]
  | String c rest =>
      if Ascii.eqb c sep then EmptyString :: split sep rest
      else match split sep rest with
           | [] => [String c EmptyString]
           | piece :: pieces => String c piece :: pieces
           end
  end.

(** [String.prototype.endsWith]. *)
Definition endsWith (s suffix : string) : bool :=
  bytes_prefix (map N_of_ascii (rev (list_ascii_of_string suffix)))
               (rev (list_ascii_of_string s)).

(** [/^\d{4}-\d{2}-\d{2}$/.test(s)]. *)
Definition is_iso_date (s : string) : bool :=
  let digit c := let n := N_of_ascii c in ((48 <=? n) && (n <=? 57))%N in
  match list_ascii_of_string s with
  | [y1; y2; y3; y4; h1; m1; m2; h2; d1; d2] =>
      digit y1 && digit y2 && digit y3 && digit y4 && Ascii.eqb h1 "-"
      && digit m1 && digit m2 && Ascii.eqb h2 "-" && digit d1 && digit d2
  | _ => false
  end.

(** [a < b] on strings compares the UTF-16 code units of [a] and [b], the
    first difference deciding.  On UTF-8 bytes this is the byte-wise
    comparison but for one point: a character beyond the Basic Multilingual
    Plane (lead byte [F0] to [F4]) is written in UTF-16 with a surrogate
    pair, whose first unit, between [D800] and [DBFF], is below the unit of
    every character from U+E000 to U+FFFF (lead bytes [EE] and [EF]), while
    its bytes are above theirs.  [code_unit_rank] puts the bytes [EE] and
    [EF] above the other bytes; continuation bytes and the other lead bytes
    keep their order, which is the order of the code units they stand for. *)
Definition code_unit_rank (c : ascii) : N :=
  let n := N_of_ascii c in
  if ((238 <=? n) && (n <=? 239))%N then (n + 256)%N else n.

Fixpoint compare_code_units (a b : string) : comparison :=
  match a, b with
  | EmptyString, EmptyString => Eq
  | EmptyString, String _ _ => Lt
  | String _ _, EmptyString => Gt
  | String c a', String d b' =>
      match (code_unit_rank c ?= code_unit_rank d)%N with
      | Eq => compare_code_units a' b'
      | Lt => Lt
      | Gt => Gt
      end
  end.

Definition str_lt (a b : string) : bool :=
  match compare_code_units a b with
  | Lt => true
  | _ => false
  end.

(** ** JavaScript numbers

    IEEE 754 binary64, as Rocq's primitive floats; [+], [*] are
    [PrimFloat.add] and [PrimFloat.mul]. *)

(** The double nearest to [m * 10^e10] (ties to even), with the sign [neg]:
    the value of a decimal literal. *)
Definition dec2float (neg : bool) (m : Z) (e10 : Z) : float :=
  match m with
  | Zpos p =>
      if (0 <=? e10)%Z
      then SF2Prim (binary_normalize prec emax (cond_Zopp neg (m * 10 ^ e10)) 0 neg)
      else SF2Prim (SFdiv prec emax (S754_finite neg p 0)
                          (S754_finite false (Z.to_pos (10 ^ (- e10))) 0))
  | _ => if neg then neg_zero else zero
  end.

Definition digit_of (base : N) (c : ascii) : option Z :=
  let n := N_of_ascii c in
  let d := if ((48 <=? n) && (n <=? 57))%N then Some (n - 48)%N
           else if ((97 <=? n) && (n <=? 102))%N then Some (n - 87)%N
           else if ((65 <=? n) && (n <=? 70))%N then Some (n - 55)%N
           else None in
  match d with
  | Some v => if (v <? base)%N then Some (Z.of_N v) else None
  | None => None
  end.

(** Reads the longest run of digits of [s] in base [base] on top of [acc]:
    the number read, how many digits it had, and the rest of [s]. *)
Fixpoint read_digits (base : N) (s : string) (acc : Z) (count : Z) : Z * Z * string :=
  match s with
  | String c rest =>
      match digit_of base c with
      | Some d => read_digits base rest (acc * Z.of_N base + d) (count + 1)
      | None => (acc, count, s)
      end
  | EmptyString => (acc, count, s)
  end.

Definition read_sign (s : string) : bool * string :=
  match s with
  | String "-" r => (true, r)
  | String "+" r => (false, r)
  | _ => (false, s)
  end.

(** An ExponentPart at the start of [s], when there is a complete one. *)
Definition read_exponent (s : string) : Z * string :=
  match s with
  | String c rest =>
      if Ascii.eqb c "e" || Ascii.eqb c "E" then
        let '(neg, digits) := read_sign rest in
        let '(e, n, r) := read_digits 10 digits 0 0 in
        if (n =? 0)%Z then (0, s)%Z else ((if neg then - e else e)%Z, r)
      else (0%Z, s)
  | EmptyString => (0%Z, s)
  end.

(** The longest prefix of [s] that is a StrDecimalLiteral: its value and the
    rest of [s]; [None] when no prefix is one. *)
Definition read_decimal (s : string) : option (float * string) :=
  let '(neg, u) := read_sign s in
  if String.prefix "Infinity" u
  then Some (if neg then neg_infinity else infinity, substring 8 (String.length u - 8) u)
  else
    let '(ip, ni, r1) := read_digits 10 u 0 0 in
    let '(m, nf, r2) := match r1 with
                        | String "." r => read_digits 10 r ip 0
                        | _ => (ip, 0%Z, r1)
                        end in
    if ((ni =? 0) && (nf =? 0))%Z then None
    else let '(e, r3) := read_exponent r2 in
         Some (dec2float neg m (e - nf), r3).

(** [parseFloat] of a string. *)
Definition parseFloat_string (s : string) : float :=
  match read_decimal (trimStart s) with
  | Some (x, _) => x
  | None => nan
  end.

Definition read_radix (base : N) (digits : string) : float :=
  let '(m, n, r) := read_digits base digits 0 0 in
  if ((0 <? n)%Z && (r =? ""))%bool then dec2float false m 0 else nan.

(** [Number] of a string (StringToNumber). *)
Definition StringToNumber (s : string) : float :=
  let t := trim s in
  match t with
  | EmptyString => zero
  | String "0" (String "x" r) | String "0" (String "X" r) => read_radix 16 r
  | String "0" (String "o" r) | String "0" (String "O" r) => read_radix 8 r
  | String "0" (String "b" r) | String "0" (String "B" r) => read_radix 2 r
  | _ => match read_decimal t with
         | Some (x, EmptyString) => x
         | _ => nan
         end
  end.

Definition Z_to_string (z : Z) : string := NilZero.string_of_int (Z.to_int z).

Definition zeros (n : Z) : string :=
  string_of_list_ascii (repeat "0"%char (Z.to_nat n)).

(** [scale10 (n, d) p] is the fraction [n/d * 10^p]. *)
Definition scale10 (nd : Z * Z) (p : Z) : Z * Z :=
  let '(n, d) := nd in
  if (0 <=? p)%Z then (n * 10 ^ p, d)%Z else (n, d * 10 ^ (- p))%Z.

Fixpoint find_exp10 (fuel : nat) (nd : Z * Z) (n : Z) : Z :=
  match fuel with
  | O => n
  | S f => let '(a, b) := scale10 nd (- n) in
           if (a <? b)%Z then n else find_exp10 f nd (n + 1)%Z
  end.

(** The least [n] with [num/den < 10^n]. *)
Definition exp10 (nd : Z * Z) : Z :=
  let '(n, d) := nd in
  find_exp10 8 nd ((Z.log2 n - Z.log2 d - 1) * 30103 / 100000 - 2)%Z.

(** The [k]-digit decimal [s * 10^(n0-k)] that reads back as [x], the nearest
    to [x] when there are two (the even one on a tie). *)
Definition digits_candidate (x : float) (nd : Z * Z) (n0 k : Z) : option Z :=
  let '(a, b) := scale10 nd (k - n0) in
  let f := (a / b)%Z in
  let r := (a mod b)%Z in
  let reads_back s := (dec2float false s (n0 - k) =? x)%float in
  match reads_back f, reads_back (f + 1)%Z with
  | true, true =>
      Some (match (2 * r ?= b)%Z with
            | Lt => f
            | Gt => (f + 1)%Z
            | Eq => if Z.even f then f else (f + 1)%Z
            end)
  | true, false => Some f
  | false, true => Some (f + 1)%Z
  | false, false => None
  end.

Fixpoint shortest_digits (fuel : nat) (x : float) (nd : Z * Z) (n0 k : Z) : Z * Z :=
  match fuel with
  | O => (0, k)%Z
  | S f => match digits_candidate x nd n0 k with
           | Some s => (s, k)
           | None => shortest_digits f x nd n0 (k + 1)%Z
           end
  end.

Fixpoint strip_zeros_rev (l : list ascii) : list ascii :=
  match l with
  | c :: rest => if Ascii.eqb c "0" then strip_zeros_rev rest else l
  | [] => []
  end.

(** The digits and the exponent [n] of ECMAScript's Number::toString for a
    positive finite [x = m * 2^e]. *)
Definition shortest_decimal (x : float) (m : positive) (e : Z) : string * Z :=
  let nd := if (0 <=? e)%Z then (Zpos m * 2 ^ e, 1)%Z else (Zpos m, 2 ^ (- e))%Z in
  let n0 := exp10 nd in
  let '(s, k) := shortest_digits 17 x nd n0 1 in
  let ds := Z_to_string s in
  (string_of_list_ascii (rev (strip_zeros_rev (rev (list_ascii_of_string ds)))),
   (n0 + (Z.of_nat (String.length ds) - k))%Z).

Definition format_decimal (ds : string) (n : Z) : string :=
  let k := Z.of_nat (String.length ds) in
  (if ((k <=? n) && (n <=? 21))%Z then ds ++ zeros (n - k)
   else if ((0 <? n) && (n <=? 21))%Z
        then substring 0 (Z.to_nat n) ds ++ "." ++ substring (Z.to_nat n) (Z.to_nat (k - n)) ds
   else if ((-6 <? n) && (n <=? 0))%Z then "0." ++ zeros (- n) ++ ds
   else let e := (n - 1)%Z in
        let es := (if (e <? 0)%Z then "-" else "+") ++ Z_to_string (Z.abs e) in
        if (k =? 1)%Z then ds ++ "e" ++ es
        else substring 0 1 ds ++ "." ++ substring 1 (Z.to_nat (k - 1)) ds ++ "e" ++ es)%string.

(** [String(x)] of a number (Number::toString, radix 10). *)
Definition Number_toString (x : float) : string :=
  match Prim2SF x with
  | S754_nan => "NaN"
  | S754_zero _ => "0"
  | S754_infinity neg => if neg then "-Infinity" else "Infinity"
  | S754_finite neg m e =>
      let '(ds, n) := shortest_decimal (abs x) m e in
      ((if neg then "-" else "") ++ format_decimal ds n)%string
  end.

(** ** JavaScript values

    The values a spreadsheet cell or a field of the payload can hold:
    [undefined] (a missing cell), a string, or a number. *)
Inductive value : Type :=
  | VUndef
  | VStr (s : string)
  | VNum (x : float).

(** ToBoolean. *)
Definition truthy (v : value) : bool :=
  match v with
  | VUndef => false
  | VStr s => negb (s =? "")
  | VNum x => negb (is_zero x || is_nan x)
  end.

(** [v || d]. *)
Definition or_else (v d : value) : value := if truthy v then v else d.

(** ToString, as a template literal or a property key applies it. *)
Definition ToString (v : value) : string :=
  match v with
  | VUndef => "undefined"
  | VStr s => s
  | VNum x => Number_toString x
  end.

(** [Number(v)]. *)
Definition Number (v : value) : float :=
  match v with
  | VUndef => nan
  | VStr s => StringToNumber s
  | VNum x => x
  end.

(** [Number(v) || 0]. *)
Definition Number_or_0 (v : value) : float :=
  let x := Number v in if is_zero x || is_nan x then zero else x.

(** [parseFloat(v)] is [parseFloat_string (ToString v)].  For a number
    argument Number::toString prints the shortest decimal that reads back as
    the same double (["0"] for either zero, ["Infinity"], ["NaN"]), so the
    result is the argument itself, the negative zero becoming [+0]. *)
Definition parseFloat (v : value) : float :=
  match v with
  | VUndef => nan
  | VStr s => parseFloat_string s
  | VNum x => if is_zero x then zero else x
  end.

(** [a === b] on numbers, extended to hold between two NaNs: the two
    numbers print the same. *)
Definition same_number (a b : float) : bool :=
  (a =? b)%float || (is_nan a && is_nan b).

(** ** Plain objects used as dictionaries

    An object created by [{}] and indexed by strings: its own properties in
    the order they were created, on top of what it inherits from
    [Object.prototype]. *)
Definition obj (V : Type) : Type := list (string * V).

(** The property names every plain object inherits: reading one of them from
    an object that has no own property of that name yields a function (or,
    for [__proto__], the prototype object), never [undefined]. *)
Definition Object_prototype_names : list string :=
  [ "constructor"; "__defineGetter__"; "__defineSetter__"; "hasOwnProperty";
    "__lookupGetter__"; "__lookupSetter__"; "isPrototypeOf";
    "propertyIsEnumerable"; "toString"; "valueOf"; "__proto__";
    "toLocaleString" ].

Definition inherited (k : string) : bool :=
  existsb (String.eqb k) Object_prototype_names.

Inductive property (V : Type) : Type :=
  | Own (v : V)
  | Inherited
  | Absent.
Arguments Own {V} v.
Arguments Inherited {V}.
Arguments Absent {V}.

Fixpoint own {V : Type} (o : obj V) (k : string) : option V :=
  match o with
  | [] => None
  | (k', v) :: rest => if (k' =? k)%string then Some v else own rest k
  end.

(** [o[k]]. *)
Definition get_property {V : Type} (o : obj V) (k : string) : property V :=
  match own o k with
  | Some v => Own v
  | None => if inherited k then Inherited else Absent
  end.

(** [o[k] = v] for a key that [get_property] finds [Absent] (a new own
    property, created last) or [Own] (overwritten in place; also the effect
    of mutating the object or array stored there). *)
Fixpoint set_property {V : Type} (o : obj V) (k : string) (v : V) : obj V :=
  match o with
  | [] => [(k, v)]
  | (k', v') :: rest =>
      if (k' =? k)%string then (k, v) :: rest else (k', v') :: set_property rest k v
  end.

(** A key is an array index when it is the canonical decimal form of an
    integer below [2^32 - 1]. *)
Definition array_index (k : string) : option Z :=
  let '(v, n, rest) := read_digits 10 k 0 0 in
  if ((0 <? n)%Z && (rest =? "")%string && (Z_to_string v =? k)%string
      && (v <? 4294967295)%Z)%bool
  then Some v else None.

Fixpoint insert_by_index {V : Type} (e : Z * (string * V)) (l : list (Z * (string * V)))
  : list (Z * (string * V)) :=
  match l with
  | [] => [e]
  | e' :: rest => if (fst e <? fst e')%Z then e :: l else e' :: insert_by_index e rest
  end.

Fixpoint index_entries {V : Type} (o : obj V) : list (Z * (string * V)) :=
  match o with
  | [] => []
  | (k, v) :: rest =>
      match array_index k with
      | Some i => insert_by_index (i, (k, v)) (index_entries rest)
      | None => index_entries rest
      end
  end.

(** [Object.entries(o)]: the array-index keys in ascending numeric order,
    then the other keys in creation order. *)
Definition Object_entries {V : Type} (o : obj V) : list (string * V) :=
  map snd (index_entries o)
  ++ filter (fun kv => match array_index (fst kv) with Some _ => false | None => true end) o.

(** [Object.values(o)]. *)
Definition Object_values {V : Type} (o : obj V) : list V :=
  map snd (Object_entries o).

(** ** Exceptions *)

Record JsError : Type := mkError {
  message : string;
  code : option Z
}.

(** The result of running code that can throw. *)
Inductive outcome (A : Type) : Type :=
  | Returned (a : A)
  | Thrown (e : JsError).
Arguments Returned {A} a.
Arguments Thrown {A} e.

Definition bind {A B : Type} (m : outcome A) (k : A -> outcome B) : outcome B :=
  match m with
  | Returned a => k a
  | Thrown e => Thrown e
  end.

Definition is_thrown {A : Type} (o : outcome A) : bool :=
  match o with
  | Returned _ => false
  | Thrown _ => true
  end.

(** The engine's [TypeError] for calling a method on a value that lacks it. *)
Definition TypeError (what : string) : JsError :=
  mkError ("TypeError: " ++ what)%string None.

(** [new Error(msg)]. *)
Definition Error (msg : string) : JsError := mkError msg None.

(** [l.reduce(f, a)] for a callback that can throw. *)
Fixpoint reduce {A B : Type} (f : A -> B -> outcome A) (l : list B) (a : A) : outcome A :=
  match l with
  | [] => Returned a
  | x :: rest => bind (f a x) (reduce f rest)
  end.

(** [Array.prototype.sort] with a comparator: a stable sort; [x] goes after
    [y] exactly when [cmp x y > 0]. *)
Fixpoint sort_insert {A : Type} (cmp : A -> A -> float) (x : A) (l : list A) : list A :=
  match l with
  | [] => [x]
  | y :: rest => if (0 <? cmp x y)%float then y :: sort_insert cmp x rest else x :: l
  end.

Definition Array_sort {A : Type} (cmp : A -> A -> float) (l : list A) : list A :=
  fold_right (sort_insert cmp) [] l.

(** SameValueZero, the equality of [Set] and [includes]. *)
Definition same_value_zero (a b : value) : bool :=
  match a, b with
  | VUndef, VUndef => true
  | VStr s, VStr t => (s =? t)%string
  | VNum x, VNum y => same_number x y
  | _, _ => false
  end.

(** [[...new Set(l)]]: the first occurrence of every element, in order. *)
Fixpoint unique (l : list value) : list value :=
  match l with
  | [] => []
  | v :: rest => v :: filter (fun u => negb (same_value_zero v u)) (unique rest)
  end.

End JS.

Import JS.

Declare Scope js_scope.
Delimit Scope js_scope with js.
Notation "x <- m ;; k" := (bind m (fun x => k))
  (at level 61, m at next level, right associativity) : js_scope.
Local Open Scope js_scope.

(** ** Data model

    [Company], [Deduction] and [Contractor] are declared by the form store
    ([@/stores/deductions-store]); their shapes are the ones [actions.ts] and
    the forms read and write.  A field holds whatever the code stores in it:
    a cell of a spreadsheet row goes into a report unchanged, so a text field
    is a [value] (a missing cell is [undefined]). *)

Inductive Company : Type := DMC | CURVE.

Definition company_name (c : Company) : string :=
  match c with
  | DMC => "DMC"
  | CURVE => "CURVE"
  end.

Record Deduction : Type := mkDeduction {
  d_id : string;
  contractName : value;
  itemName : value;
  workDescription : value;
  meterEquivalentValue : value;
  meterEquivalentUnit : value;
  quantity : value;
  unitPrice : value;
  personName : value
}.

Record Contractor : Type := mkContractor {
  c_id : string;
  contractorName : value;
  notes : value;
  deductions : list Deduction
}.

Record Submission : Type := mkSubmission {
  reportId : string;
  timestamp : string;
  userEmail : value;
  status : value;
  company : value;
  contractors : list Contractor;
  grandTotal : float
}.

Record SubmitDeductionsPayload : Type := mkPayload {
  p_company : Company;
  p_contractors : list Contractor;
  p_userEmail : string
}.

(** A spreadsheet row: an array of cells; [row[i]] is [undefined] past its
    end (the store drops the empty cells at the end of a row). *)
Definition row : Type := list value.

Definition cell (r : row) (i : nat) : value := nth i r VUndef.

(** The pending-review status label. *)
Definition PENDING : string := "قيد المراجعة".

(** ** The row/report mapper *)

(** [(Number(d.quantity) || 0) * (Number(d.unitPrice) || 0)]: the total of
    one line item ([calculateTotal] in the forms). *)
Definition calculateTotal (d : Deduction) : float :=
  (Number_or_0 (quantity d) * Number_or_0 (unitPrice d))%float.

(** The grand total that [submitDeductions] computes for a payload. *)
Definition payload_grandTotal (cs : list Contractor) : float :=
  fold_left (fun total contractor =>
               (total + fold_left (fun deductionTotal deduction =>
                                     deductionTotal + calculateTotal deduction)
                                  (deductions contractor) 0)%float)
            cs 0%float.

(** The row [submitDeductions] builds for one line item of a contractor
    (the callback of [contractor.deductions.map]), [date] and [time] being
    the Cairo date and time read once before the rows are built. *)
Definition row_of_deduction (date time : string) (payload : SubmitDeductionsPayload)
    (contractor : Contractor) (deduction : Deduction) : row :=
  let meterEquivalent :=
    if truthy (meterEquivalentValue deduction)
    then (ToString (meterEquivalentValue deduction) ++ " "
          ++ ToString (meterEquivalentUnit deduction))%string
    else "" in
  let quantity := Number_or_0 (quantity deduction) in
  let unitPrice := Number_or_0 (unitPrice deduction) in
  let total := (quantity * unitPrice)%float in
  [ VStr date;
    VStr time;
    VStr (p_userEmail payload);
    VStr (company_name (p_company payload));
    contractorName contractor;
    or_else (contractName deduction) (VStr "");
    or_else (itemName deduction) (VStr "");
    or_else (workDescription deduction) (VStr "");
    VStr meterEquivalent;
    VNum quantity;
    VNum unitPrice;
    VNum total;
    or_else (personName deduction) (VStr "");
    or_else (notes contractor) (VStr "");
    VStr PENDING ].

(** [rowsToAppend]: one row per line item, contractor by contractor. *)
Definition rowsToAppend (date time : string) (payload : SubmitDeductionsPayload) : list row :=
  flat_map (fun contractor =>
              map (row_of_deduction date time payload contractor) (deductions contractor))
           (p_contractors payload).

(** [`${row[0]} ${row[1]}`]. *)
Definition timestampKey (r : row) : string :=
  (ToString (cell r 0) ++ " " ++ ToString (cell r 1))%string.

(** The callback of [rows.reduce] that builds [groupedByTimestamp]. *)
Definition group_step (acc : obj (list row)) (r : row) : outcome (obj (list row)) :=
  let k := timestampKey r in
  let acc1 := match get_property acc k with
              | Absent => set_property acc k []
              | _ => acc
              end in
  match get_property acc1 k with
  | Own g => Returned (set_property acc1 k (g ++ [r]))
  | _ => Thrown (TypeError "acc[timestampKey].push is not a function")
  end.

Definition groupedByTimestamp (rows : list row) : outcome (obj (list row)) :=
  reduce group_step rows [].

(** The [Deduction] built from one row; [uuid] is what [randomUUID()] returns
    for it. *)
Definition new_deduction (uuid : string) (r : row) : outcome Deduction :=
  match or_else (cell r 8) (VStr "") with
  | VStr s =>
      let parts := split " " s in
      let meterValue := nth 0 parts "" in
      let meterUnit := match parts with
                       | _ :: u :: _ => VStr u
                       | _ => VUndef
                       end in
      Returned
        {| d_id := ("deduction-" ++ uuid)%string;
           contractName := cell r 5;
           itemName := cell r 6;
           workDescription := cell r 7;
           meterEquivalentValue :=
             if truthy (VStr meterValue) then VNum (parseFloat (VStr meterValue))
             else VStr "";
           meterEquivalentUnit := or_else meterUnit (VStr "");
           quantity := VNum (parseFloat (cell r 9));
           unitPrice := VNum (parseFloat (cell r 10));
           personName := cell r 12 |}
  | _ => Thrown (TypeError "(row[8] || '').split is not a function")
  end.

Definition push_deduction (c : Contractor) (d : Deduction) : Contractor :=
  {| c_id := c_id c;
     contractorName := contractorName c;
     notes := notes c;
     deductions := deductions c ++ [d] |}.

(** The callback of [rows.forEach] that fills [contractorsMap]. *)
Definition contractor_step (uuid : string) (contractorsMap : obj Contractor) (r : row)
  : outcome (obj Contractor) :=
  let name := cell r 4 in
  let k := ToString name in
  let map1 :=
    match get_property contractorsMap k with
    | Absent =>
        set_property contractorsMap k
          {| c_id := ("contractor-" ++ k)%string;
             contractorName := name;
             notes := or_else (cell r 13) (VStr "");
             deductions := [] |}
    | _ => contractorsMap
    end in
  deduction <- new_deduction uuid r ;;
  match get_property map1 k with
  | Own c => Returned (set_property map1 k (push_deduction c deduction))
  | _ => Thrown (TypeError "Cannot read properties of undefined (reading 'push')")
  end.

(** [rows.forEach(...)]: the [j]-th row of the group draws [fresh (n + j)]
    from [randomUUID]. *)
Fixpoint fill_contractors (fresh : nat -> string) (n : nat) (rows : list row)
    (contractorsMap : obj Contractor) : outcome (obj Contractor) :=
  match rows with
  | [] => Returned contractorsMap
  | r :: rest =>
      map1 <- contractor_step (fresh n) contractorsMap r ;;
      fill_contractors fresh (S n) rest map1
  end.

(** The grand total of a reconstructed report:
    [Number(d.quantity) * Number(d.unitPrice)] summed per contractor, then
    over the contractors. *)
Definition report_grandTotal (cs : list Contractor) : float :=
  fold_left (fun total c =>
               (total + fold_left (fun subTotal d =>
                                     subTotal + Number (quantity d) * Number (unitPrice d))
                                  (deductions c) 0)%float)
            cs 0%float.

(** The callback of [Object.entries(groupedByTimestamp).map]. *)
Definition build_submission (fresh : nat -> string) (n : nat) (entry : string * list row)
  : outcome Submission :=
  let '(timestampKey, rows) := entry in
  match rows with
  | [] => Thrown (TypeError "Cannot read properties of undefined (reading '3')")
  | firstRow :: _ =>
      contractorsMap <- fill_contractors fresh n rows [] ;;
      let contractors := Object_values contractorsMap in
      Returned
        {| reportId := ("report-" ++ replace_space_colon timestampKey)%string;
           timestamp := timestampKey;
           userEmail := cell firstRow 2;
           status := or_else (cell firstRow 14) (VStr PENDING);
           company := cell firstRow 3;
           contractors := contractors;
           grandTotal := report_grandTotal contractors |}
  end.

Fixpoint build_submissions (fresh : nat -> string) (n : nat)
    (entries : list (string * list row)) : outcome (list Submission) :=
  match entries with
  | [] => Returned []
  | entry :: rest =>
      s <- build_submission fresh n entry ;;
      ss <- build_submissions fresh (n + List.length (snd entry)) rest ;;
      Returned (s :: ss)
  end.

(** The comparator of the final [sort]. *)
Definition compare_submissions (a b : Submission) : float :=
  if str_lt (timestamp a) (timestamp b) then 1%float
  else if str_lt (timestamp b) (timestamp a) then (-1)%float
  else 0%float.

(** [parseSubmissionsFromRows(rows)]; [fresh k] is the value of the [k]-th
    call of [randomUUID] it makes. *)
Definition parseSubmissionsFromRows (fresh : nat -> string) (rows : list row)
  : outcome (list Submission) :=
  grouped <- groupedByTimestamp rows ;;
  submissions <- build_submissions fresh 0 (Object_entries grouped) ;;
  Returned (Array_sort compare_submissions submissions).

(** ** The spreadsheet store and the server process

    The store is the remote spreadsheet reached through
    [sheets.spreadsheets]; what it answers is not the program's to decide, so
    each of its calls is an oracle that sees the calls made before it.  The
    process state is the in-memory list [mockSubmissions] and a journal of
    what the process did, in order. *)

Inductive request : Type :=
  | SpreadsheetsGet
  | AddSheet (title : string)
  | ValuesUpdate (range : string) (values : list row)
  | ValuesGet (range : string)
  | ValuesAppend (range : string) (values : list row)
  | ValuesBatchUpdate (data : list (string * list row)).

(** What the journal keeps: a report pushed on [mockSubmissions], or a call
    of the store with whether it failed. *)
Inductive event : Type :=
  | Pushed (s : Submission)
  | Called (r : request) (failed : bool).

Record Store : Type := mkStore {
  spreadsheets_get : list event -> outcome (list string);
  spreadsheets_batchUpdate : list event -> string -> outcome unit;
  values_get : list event -> string -> outcome (option (list row));
  values_update : list event -> string -> list row -> outcome unit;
  values_append : list event -> string -> list row -> outcome unit;
  values_batchUpdate : list event -> list (string * list row) -> outcome unit
}.

(** What the process reads from its environment: the two configuration
    variables, whether the service-account key parses into credentials, the
    store, [randomUUID], the clock ([new Date()] as an ISO string and as the
    Cairo date and time), the date functions the in-memory history uses
    ([new Date(s).getTime()], the day-interval test of [date-fns], and a
    [JSON.parse(JSON.stringify(...))] copy), and the Unicode case mapping of
    the engine ([toLowerCase] of a string that is not all ASCII). *)
Record Runtime : Type := mkRuntime {
  GOOGLE_SHEET_ID : option string;
  GOOGLE_SERVICE_ACCOUNT_KEY : option string;
  credentials_ok : string -> bool;
  store : Store;
  uuid_stream : nat -> string;
  toISOString_at : nat -> string;
  cairo_at : nat -> string * string;
  Date_getTime : string -> float;
  isWithinDays : string -> string -> string -> outcome bool;
  JSON_copy : list Submission -> list Submission;
  unicode_lower : string -> string
}.

Record world : Type := mkWorld {
  mockSubmissions : list Submission;
  journal : list event;
  uuids_drawn : nat;
  clock_reads : nat
}.

(** A computation of the server: it reads and updates the process state and
    returns or throws. *)
Definition M (A : Type) : Type := world -> outcome A * world.

Definition ret {A : Type} (a : A) : M A := fun w => (Returned a, w).

Definition throw {A : Type} (e : JsError) : M A := fun w => (Thrown e, w).

Definition mbind {A B : Type} (m : M A) (k : A -> M B) : M B :=
  fun w => match m w with
           | (Returned a, w') => k a w'
           | (Thrown e, w') => (Thrown e, w')
           end.

(** [try { m } catch (e) { handler e }]. *)
Definition try_catch {A : Type} (m : M A) (handler : JsError -> M A) : M A :=
  fun w => match m w with
           | (Returned a, w') => (Returned a, w')
           | (Thrown e, w') => handler e w'
           end.

Definition lift {A : Type} (o : outcome A) : M A := fun w => (o, w).

Declare Scope action_scope.
Delimit Scope action_scope with action.
Notation "x <-- m ;; k" := (mbind m (fun x => k))
  (at level 61, m at next level, right associativity) : action_scope.
Notation "m ;;; k" := (mbind m (fun _ => k))
  (at level 61, right associativity) : action_scope.

Definition record (e : event) (w : world) : world :=
  {| mockSubmissions := mockSubmissions w;
     journal := journal w ++ [e];
     uuids_drawn := uuids_drawn w;
     clock_reads := clock_reads w |}.

Definition set_mock (l : list Submission) (w : world) : world :=
  {| mockSubmissions := l;
     journal := journal w;
     uuids_drawn := uuids_drawn w;
     clock_reads := clock_reads w |}.

Record ActionResult : Type := mkResult {
  success : bool;
  result_message : string
}.

Inductive UserRole : Type := user | admin.

Definition role_name (r : UserRole) : string :=
  match r with
  | user => "user"
  | admin => "admin"
  end.

Record Validation : Type := mkValidation {
  isValid : bool;
  role : option UserRole
}.

Inductive Decision : Type := Approved | Rejected.

Definition decision_label (d : Decision) : string :=
  match d with
  | Approved => "موافقة"
  | Rejected => "مرفوض"
  end.

Definition USERS_SHEET_NAME : string := "Users".
Definition CONTRACTORS_SHEET_NAME : string := "Contractors".

Definition SUBMISSION_HEADERS : list string :=
  [ "التاريخ"; "الوقت"; "المهندس /المشرف"; "الشركة"; "اسم المقاول"; "اسم العقد";
    "بند العمل"; "بيان العمل"; "مايوازي بالمتر"; "عدد اليوميات"; "الفئه";
    "الاجمالي"; "بالخصم علي"; "ملحوظه"; "الحالة";
    "تاريخ التأكيد"; "وقت التأكيد"; "المؤكد بواسطة" ].

Definition USER_HEADERS : list string := ["Email"; "Password"; "Role"].
Definition DATA_HEADERS : list string := ["Contract Name"; "Work Item"].
Definition CONTRACTOR_LIST_HEADERS : list string := ["Contractor Name"].

(** The double-quote character. *)
Definition dquote : string := String (ascii_of_nat 34) EmptyString.

(** ** The server actions *)

Section Actions.

Variable rt : Runtime.

Local Open Scope action_scope.

(** One call of the store client: the store answers, the call is
    journalled. *)
Definition call_store {A : Type} (r : request) (answer : list event -> outcome A) : M A :=
  fun w => (answer (journal w), record (Called r (is_thrown (answer (journal w)))) w).

Definition sheets_get : M (list string) :=
  call_store SpreadsheetsGet (spreadsheets_get (store rt)).

Definition sheets_addSheet (title : string) : M unit :=
  call_store (AddSheet title) (fun j => spreadsheets_batchUpdate (store rt) j title).

Definition sheets_values_get (range : string) : M (option (list row)) :=
  call_store (ValuesGet range) (fun j => values_get (store rt) j range).

Definition sheets_values_update (range : string) (values : list row) : M unit :=
  call_store (ValuesUpdate range values) (fun j => values_update (store rt) j range values).

Definition sheets_values_append (range : string) (values : list row) : M unit :=
  call_store (ValuesAppend range values) (fun j => values_append (store rt) j range values).

Definition sheets_values_batchUpdate (data : list (string * list row)) : M unit :=
  call_store (ValuesBatchUpdate data) (fun j => values_batchUpdate (store rt) j data).

(** [randomUUID()]. *)
Definition randomUUID : M string :=
  fun w => (Returned (uuid_stream rt (uuids_drawn w)),
            {| mockSubmissions := mockSubmissions w;
               journal := journal w;
               uuids_drawn := S (uuids_drawn w);
               clock_reads := clock_reads w |}).

Definition tick (w : world) : world :=
  {| mockSubmissions := mockSubmissions w;
     journal := journal w;
     uuids_drawn := uuids_drawn w;
     clock_reads := S (clock_reads w) |}.

(** [new Date().toISOString()]. *)
Definition now_toISOString : M string :=
  fun w => (Returned (toISOString_at rt (clock_reads w)), tick w).

(** The Cairo date ([YYYY-MM-DD]) and time ([HH:MM]) of one [new Date()]. *)
Definition now_in_cairo : M (string * string) :=
  fun w => (Returned (cairo_at rt (clock_reads w)), tick w).

(** [getSheetsApi()]: the spreadsheet id when the store is configured,
    [null] otherwise; it never throws. *)
Definition getSheetsApi : option string :=
  match GOOGLE_SERVICE_ACCOUNT_KEY rt, GOOGLE_SHEET_ID rt with
  | Some key, Some sheetId =>
      if (key =? "")%string || (sheetId =? "")%string then None
      else if credentials_ok rt key then Some sheetId else None
  | _, _ => None
  end.

Definition header_row (headers : list string) : row := map VStr headers.

(** [ensureSheetAndHeaders(sheets, auth, spreadsheetId, sheetName, headers)]. *)
Definition ensureSheetAndHeaders (sheetName : string) (headers : list string) : M unit :=
  try_catch
    (titles <-- sheets_get ;;
     if negb (existsb (String.eqb sheetName) titles) then
       sheets_addSheet sheetName ;;;
       sheets_values_update (sheetName ++ "!A1")%string [header_row headers] ;;;
       ret tt
     else if endsWith sheetName "REQUEST" then
       values <-- sheets_values_get (sheetName ++ "!1:1")%string ;;
       currentHeaders <--
         match values with
         | None => ret []
         | Some (first :: _) => ret first
         | Some [] => throw (TypeError "Cannot read properties of undefined (reading 'length')")
         end ;;
       let requiredHeaders := SUBMISSION_HEADERS in
       if (List.length currentHeaders <? List.length requiredHeaders)%nat
          || negb (forallb (fun h => existsb (same_value_zero (VStr h)) currentHeaders)
                           requiredHeaders)
       then sheets_values_update (sheetName ++ "!A1")%string [header_row requiredHeaders]
       else ret tt
     else ret tt)
    (fun _ => throw (Error ("Failed to initialize sheet: " ++ sheetName ++ ".")%string)).

(** The body shared by the three reference-list reads: the first column of
    [range], empty cells dropped, duplicates removed. *)
Definition first_column (values : option (list row)) : list value :=
  match values with
  | Some (r :: rest) => unique (filter truthy (map (fun r => cell r 0) (r :: rest)))
  | _ => []
  end.

(** [getContractorList()]. *)
Definition getContractorList : M (list value) :=
  match getSheetsApi with
  | None =>
      ret (map VStr ["شركة البناء الحديثة"; "مقاولات الخليج"; "هندسة المستقبل";
                     "مجموعة التعمير"])
  | Some _ =>
      try_catch
        (ensureSheetAndHeaders CONTRACTORS_SHEET_NAME CONTRACTOR_LIST_HEADERS ;;;
         values <-- sheets_values_get (CONTRACTORS_SHEET_NAME ++ "!A2:A")%string ;;
         ret (first_column values))
        (fun _ => throw (Error ("Failed to fetch contractor list from "
                                ++ CONTRACTORS_SHEET_NAME ++ ".")%string))
  end.

(** [getContractList(company)]. *)
Definition getContractList (company : Company) : M (list value) :=
  let dataSheetName := (company_name company ++ " DATA")%string in
  match getSheetsApi with
  | None => ret (map VStr ["عقد مشروع A"; "عقد مشروع B"; "عقد صيانة"])
  | Some _ =>
      try_catch
        (ensureSheetAndHeaders dataSheetName DATA_HEADERS ;;;
         values <-- sheets_values_get (dataSheetName ++ "!A2:A")%string ;;
         ret (first_column values))
        (fun _ => throw (Error ("Failed to fetch contract list from "
                                ++ dataSheetName ++ ".")%string))
  end.

(** [getWorkItemList(company)]. *)
Definition getWorkItemList (company : Company) : M (list value) :=
  let dataSheetName := (company_name company ++ " DATA")%string in
  match getSheetsApi with
  | None => ret (map VStr ["بند 1"; "بند 2"; "بند 3"])
  | Some _ =>
      try_catch
        (ensureSheetAndHeaders dataSheetName DATA_HEADERS ;;;
         values <-- sheets_values_get (dataSheetName ++ "!B2:B")%string ;;
         ret (first_column values))
        (fun _ => throw (Error ("Failed to fetch work item list from "
                                ++ dataSheetName ++ ".")%string))
  end.

(** [mockSubmissions.push(s)]. *)
Definition push_mock (s : Submission) : M unit :=
  fun w => (Returned tt, record (Pushed s) (set_mock (mockSubmissions w ++ [s]) w)).

(** The message [submitDeductions] throws for a failure of the store. *)
Definition friendlyMessage (error : JsError) : string :=
  match code error with
  | Some 403%Z =>
      ("تم رفض الإذن. يرجى التأكد من أن بريد حساب الخدمة لديه صلاحية "
       ++ dquote ++ "Editor" ++ dquote ++ " على ملف Google Sheet.")%string
  | Some 404%Z =>
      "لم يتم العثور على الملف. يرجى التحقق مرة أخرى من GOOGLE_SHEET_ID في ملف .env.local الخاص بك."
  | _ => "فشل إرسال البيانات إلى Google Sheets."
  end.

(** [submitDeductions(payload)]. *)
Definition submitDeductions (payload : SubmitDeductionsPayload) : M ActionResult :=
  let grandTotal := payload_grandTotal (p_contractors payload) in
  uuid <-- randomUUID ;;
  now <-- now_toISOString ;;
  let newSubmission :=
    {| reportId := uuid;
       timestamp := now;
       userEmail := VStr (p_userEmail payload);
       status := VStr PENDING;
       company := VStr (company_name (p_company payload));
       contractors := p_contractors payload;
       grandTotal := grandTotal |} in
  push_mock newSubmission ;;;
  match getSheetsApi with
  | None =>
      ret (mkResult true "تم حفظ التقرير محلياً. لم يتم الإرسال لعدم وجود اتصال بـ Google.")
  | Some _ =>
      let submissionsSheetName := (company_name (p_company payload) ++ " REQUEST")%string in
      try_catch
        (ensureSheetAndHeaders submissionsSheetName SUBMISSION_HEADERS ;;;
         now <-- now_in_cairo ;;
         let '(date, time) := now in
         let rows := rowsToAppend date time payload in
         (if (0 <? List.length rows)%nat
          then sheets_values_append (submissionsSheetName ++ "!A1")%string rows
          else ret tt) ;;;
         ret (mkResult true "تم إرسال التقرير بنجاح للمراجعة."))
        (fun error => throw (Error (friendlyMessage error)))
  end.

(** [(v || d).trim()] needs a string: a number cell has no [trim]. *)
Definition text_or (v : value) (d : string) : outcome string :=
  match or_else v (VStr d) with
  | VStr s => Returned s
  | _ => Thrown (TypeError "(intermediate value).trim is not a function")
  end.

(** The loop of [getUserRoleByEmail] over the rows of the user table. *)
Fixpoint find_role (email : string) (rows : list row) : outcome (option UserRole) :=
  match rows with
  | [] => Returned None
  | r :: rest =>
      (e <- text_or (cell r 0) "" ;;
       let sheetEmail := toLowerCase (unicode_lower rt) (trim e) in
       if (sheetEmail =? toLowerCase (unicode_lower rt) (trim email))%string then
         ro <- text_or (cell r 2) "user" ;;
         let role := toLowerCase (unicode_lower rt) (trim ro) in
         Returned (Some (if (role =? "admin")%string then admin else user))
       else find_role email rest)%js
  end.

(** [getUserRoleByEmail(email)]. *)
Definition getUserRoleByEmail (email : string) : M (option UserRole) :=
  if (email =? "")%string then ret None
  else
    match getSheetsApi with
    | None =>
        if (trim (toLowerCase (unicode_lower rt) email) =? "admin@test.com")%string
        then ret (Some admin)
        else if (trim (toLowerCase (unicode_lower rt) email) =? "user@test.com")%string
        then ret (Some user)
        else ret None
    | Some _ =>
        try_catch
          (ensureSheetAndHeaders USERS_SHEET_NAME USER_HEADERS ;;;
           rows <-- sheets_values_get (USERS_SHEET_NAME ++ "!A2:C")%string ;;
           match rows with
           | Some (r :: rest) => lift (find_role email (r :: rest))
           | _ => ret None
           end)
          (fun _ => ret None)
    end.

(** The test [validateUser] applies to one row of the user table. *)
Definition row_validates (email password_provided : string) (expectedRole : UserRole)
    (r : row) : outcome bool :=
  (e <- text_or (cell r 0) "" ;;
   let sheetEmail := toLowerCase (unicode_lower rt) (trim e) in
   p <- text_or (cell r 1) "" ;;
   let sheetPassword := trim p in
   ro <- text_or (cell r 2) "user" ;;
   let sheetRole := toLowerCase (unicode_lower rt) (trim ro) in
   Returned ((sheetEmail =? toLowerCase (unicode_lower rt) (trim email))%string
             && (sheetPassword =? trim password_provided)%string
             && (sheetRole =? role_name expectedRole)%string))%js.

(** The loop of [validateUser] over the rows of the user table. *)
Fixpoint find_valid (email password_provided : string) (expectedRole : UserRole)
    (rows : list row) : outcome Validation :=
  match rows with
  | [] => Returned (mkValidation false None)
  | r :: rest =>
      (ok <- row_validates email password_provided expectedRole r ;;
       if ok then Returned (mkValidation true (Some expectedRole))
       else find_valid email password_provided expectedRole rest)%js
  end.

Definition role_eqb (a b : UserRole) : bool :=
  match a, b with
  | user, user | admin, admin => true
  | _, _ => false
  end.

(** [validateUser(email, password_provided, expectedRole)]. *)
Definition validateUser (email password_provided : string) (expectedRole : UserRole)
  : M Validation :=
  match getSheetsApi with
  | None =>
      if (email =? "admin@test.com")%string && (password_provided =? "123")%string
         && role_eqb expectedRole admin
      then ret (mkValidation true (Some admin))
      else if (email =? "user@test.com")%string && (password_provided =? "123")%string
              && role_eqb expectedRole user
      then ret (mkValidation true (Some user))
      else ret (mkValidation false None)
  | Some _ =>
      try_catch
        (ensureSheetAndHeaders USERS_SHEET_NAME USER_HEADERS ;;;
         rows <-- sheets_values_get (USERS_SHEET_NAME ++ "!A2:C")%string ;;
         match rows with
         | Some (r :: rest) => lift (find_valid email password_provided expectedRole (r :: rest))
         | _ => ret (mkValidation false None)
         end)
        (fun _ => ret (mkValidation false None))
  end.

Record GetHistoryParams : Type := mkHistoryParams {
  h_userEmail : string;
  startDate : option string;
  endDate : option string
}.

(** [startDate && endDate]: both given and not empty. *)
Definition date_range (params : GetHistoryParams) : option (string * string) :=
  match startDate params, endDate params with
  | Some a, Some b => if (a =? "")%string || (b =? "")%string then None else Some (a, b)
  | _, _ => None
  end.

(** [v === s] for a string [s]. *)
Definition is_string (v : value) (s : string) : bool :=
  match v with
  | VStr t => (t =? s)%string
  | _ => false
  end.

(** [parseSubmissionsFromRows(rows)] in the process: every row draws one
    value from [randomUUID]. *)
Definition parse_rows (rows : list row) : M (list Submission) :=
  fun w => (parseSubmissionsFromRows (fun k => uuid_stream rt (uuids_drawn w + k)) rows,
            {| mockSubmissions := mockSubmissions w;
               journal := journal w;
               uuids_drawn := uuids_drawn w + List.length rows;
               clock_reads := clock_reads w |}).

(** One turn of the loop over the company tables of the two history reads:
    the kept rows of the table are added to [allRows]; a table that cannot be
    read is skipped. *)
Definition read_company_rows (keep : row -> bool) (allRows : list row) (company : Company)
  : M (list row) :=
  let sheetName := (company_name company ++ " REQUEST")%string in
  try_catch
    (ensureSheetAndHeaders sheetName SUBMISSION_HEADERS ;;;
     values <-- sheets_values_get (sheetName ++ "!A2:Z")%string ;;
     match values with
     | Some rows => ret (allRows ++ filter keep rows)
     | None => ret allRows
     end)
    (fun _ => ret allRows).

Fixpoint for_companies (keep : row -> bool) (companies : list Company) (allRows : list row)
  : M (list row) :=
  match companies with
  | [] => ret allRows
  | company :: rest =>
      rows <-- read_company_rows keep allRows company ;;
      for_companies keep rest rows
  end.

(** The comparator of the in-memory history: newest first. *)
Definition compare_by_time (a b : Submission) : float :=
  (Date_getTime rt (timestamp b) - Date_getTime rt (timestamp a))%float.

Fixpoint filter_within (start stop : string) (l : list Submission)
  : outcome (list Submission) :=
  match l with
  | [] => Returned []
  | s :: rest =>
      (keep <- isWithinDays rt (timestamp s) start stop ;;
       kept <- filter_within start stop rest ;;
       Returned (if keep then s :: kept else kept))%js
  end.

(** The date filter of [getSubmissionHistory] on the rows of the store. *)
Definition in_date_range (startDate endDate : string) (r : row) : bool :=
  match cell r 0 with
  | VStr rowDate =>
      is_iso_date rowDate && negb (str_lt rowDate startDate) && negb (str_lt endDate rowDate)
  | _ => false
  end.

(** [getSubmissionHistory({ userEmail, startDate, endDate })]. *)
Definition getSubmissionHistory (params : GetHistoryParams) : M (list Submission) :=
  match getSheetsApi with
  | None =>
      fun w =>
        let localHistory :=
          filter (fun s => is_string (userEmail s) (h_userEmail params)) (mockSubmissions w) in
        match date_range params with
        | Some (a, b) =>
            (bind (filter_within a b localHistory)
                  (fun kept => Returned (Array_sort compare_by_time kept)), w)
        | None => (Returned (JSON_copy rt (Array_sort compare_by_time localHistory)), w)
        end
  | Some _ =>
      try_catch
        (allUserRows <-- for_companies (fun r => is_string (cell r 2) (h_userEmail params))
                                       [DMC; CURVE] [] ;;
         let filteredRows :=
           match date_range params with
           | Some (a, b) => filter (in_date_range a b) allUserRows
           | None => allUserRows
           end in
         parse_rows filteredRows)
        (fun _ => throw (Error "فشل في جلب سجل التقارير من Google Sheets."))
  end.

(** [getAllSubmissions()]. *)
Definition getAllSubmissions : M (list Submission) :=
  match getSheetsApi with
  | None =>
      fun w =>
        let sorted := Array_sort compare_by_time (mockSubmissions w) in
        (Returned (JSON_copy rt sorted), set_mock sorted w)
  | Some _ =>
      try_catch
        (allRows <-- for_companies (fun _ => true) [DMC; CURVE] [] ;;
         parse_rows allRows)
        (fun _ => throw (Error "فشل في جلب كل التقارير من Google Sheets."))
  end.

(** [`report-${row[0]}-${row[1]}`.replace(/\s|:/g, '-')]. *)
Definition comparableRowId (r : row) : string :=
  replace_space_colon ("report-" ++ ToString (cell r 0) ++ "-" ++ ToString (cell r 1))%string.

(** The sheet row numbers [updateReportStatus] collects: the row at [index]
    of the data read from [A2] is sheet row [index + 2]. *)
Fixpoint rowIndicesToUpdate (reportId : string) (index : nat) (rows : list row) : list nat :=
  match rows with
  | [] => []
  | r :: rest =>
      (if startsWith (comparableRowId r) reportId then [index + 2] else [])
      ++ rowIndicesToUpdate reportId (S index) rest
  end.

Definition nat_to_string (n : nat) : string := Z_to_string (Z.of_nat n).

(** The entry of the batch update for one sheet row: columns O to R. *)
Definition status_request (sheetName : string) (newStatus : Decision)
    (approvalDate approvalTime adminEmail : string) (rowIndex : nat) : string * list row :=
  ((sheetName ++ "!O" ++ nat_to_string rowIndex ++ ":R" ++ nat_to_string rowIndex)%string,
   [[VStr (decision_label newStatus); VStr approvalDate; VStr approvalTime; VStr adminEmail]]).

Fixpoint set_first_status (id : string) (newStatus : Decision) (l : list Submission)
  : option (list Submission) :=
  match l with
  | [] => None
  | s :: rest =>
      if (reportId s =? id)%string
      then Some ({| reportId := reportId s;
                    timestamp := timestamp s;
                    userEmail := userEmail s;
                    status := VStr (decision_label newStatus);
                    company := company s;
                    contractors := contractors s;
                    grandTotal := grandTotal s |} :: rest)
      else option_map (cons s) (set_first_status id newStatus rest)
  end.

(** [updateReportStatus(reportId, company, newStatus, adminEmail)]. *)
Definition updateReportStatus (id : string) (company : Company) (newStatus : Decision)
    (adminEmail : string) : M ActionResult :=
  match getSheetsApi with
  | None =>
      fun w =>
        match set_first_status id newStatus (mockSubmissions w) with
        | Some updated =>
            (Returned (mkResult true "تم تحديث الحالة محلياً بنجاح."), set_mock updated w)
        | None => (Returned (mkResult false "Google Sheets API is not configured."), w)
        end
  | Some _ =>
      let sheetName := (company_name company ++ " REQUEST")%string in
      try_catch
        (response <-- sheets_values_get (sheetName ++ "!A2:Z")%string ;;
         match response with
         | None => throw (Error ("No data found in sheet: " ++ sheetName)%string)
         | Some rows =>
             let indices := rowIndicesToUpdate id 0 rows in
             match indices with
             | [] => throw (Error ("لم يتم العثور على التقرير بالمعرف: " ++ id)%string)
             | _ :: _ =>
                 now <-- now_in_cairo ;;
                 let '(approvalDate, approvalTime) := now in
                 let requests :=
                   map (status_request sheetName newStatus approvalDate approvalTime adminEmail)
                       indices in
                 sheets_values_batchUpdate requests ;;;
                 ret (mkResult true
                        ("تم تحديث حالة التقرير إلى " ++ dquote ++ decision_label newStatus
                         ++ dquote ++ " بنجاح.")%string)
             end
         end)
        (fun error => throw (Error (message error)))
  end.

End Actions.

(** ** Notions used by the statements *)

(** The string has an ASCII space. *)
Fixpoint has_space (s : string) : bool :=
  match s with
  | EmptyString => false
  | String c rest => Ascii.eqb c " " || has_space rest
  end.

(** The contractor that the first row of a name creates. *)
Definition new_contractor (r : row) : Contractor :=
  {| c_id := ("contractor-" ++ ToString (cell r 4))%string;
     contractorName := cell r 4;
     notes := or_else (cell r 13) (VStr "");
     deductions := [] |}.

(** The rows of the group of key [k]. *)
Definition rows_of_key (k : string) (rows : list row) : list row :=
  filter (fun r => (timestampKey r =? k)%string) rows.

(** The rows whose contractor-name cell reads [k]. *)
Definition rows_of_name (k : string) (rows : list row) : list row :=
  filter (fun r => (ToString (cell r 4) =? k)%string) rows.

(** [d] is the line item built from the row [r]. *)
Definition item_of_row (r : row) (d : Deduction) : Prop :=
  exists uuid, new_deduction uuid r = Returned d.

(** [c] is the contractor built from the rows [mine], the rows of one name
    in one group: the first row gives the name and the notes, every row
    gives one line item, in order. *)
Definition built_from (mine : list row) (c : Contractor) : Prop :=
  match mine with
  | [] => False
  | first :: _ =>
      c_id c = ("contractor-" ++ ToString (cell first 4))%string
      /\ contractorName c = cell first 4
      /\ notes c = or_else (cell first 13) (VStr "")
      /\ Forall2 item_of_row mine (deductions c)
  end.

(** *** Sample rows

    Rows as the store returns them (every cell a string), used to evaluate
    the mapper. *)

Definition text_cells (cells : list string) : row := map VStr cells.

(** Two line items of one contractor in the report of 2024-05-01 09:00; the
    second has no number in its quantity cell, and other notes. *)
Definition may_row_1 : row :=
  text_cells ["2024-05-01"; "09:00"; "eng@site.com"; "DMC"; "مقاولات الخليج"; "عقد صيانة";
              "بند 1"; "حفر"; "12.5 متر مربع"; "2"; "3"; "6"; ""; "first note"; PENDING].

Definition may_row_2 : row :=
  text_cells ["2024-05-01"; "09:00"; "eng@site.com"; "DMC"; "مقاولات الخليج"; "عقد صيانة";
              "بند 2"; "ردم"; ""; "abc"; "10"; "0"; ""; "second note"; PENDING].

(** A line item of the report of 2024-06-01 10:00. *)
Definition june_row : row :=
  text_cells ["2024-06-01"; "10:00"; "eng@site.com"; "DMC"; "هندسة المستقبل"; "عقد مشروع A";
              "بند 3"; "صب"; ""; "1"; "10"; "10"].

Definition sample_uuid (k : nat) : string := "00000000-0000-4000-8000-000000000000".

Definition reports_of (o : outcome (list Submission)) : list Submission :=
  match o with
  | Returned l => l
  | Thrown _ => []
  end.

(** The reports reconstructed from the three sample rows. *)
Definition sample_reports : list Submission :=
  Eval vm_compute in
    reports_of (parseSubmissionsFromRows sample_uuid [may_row_1; may_row_2; june_row]).

(** A row as the store returns it: every cell is a string. *)
Definition is_text (v : value) : bool :=
  match v with
  | VStr _ => true
  | _ => false
  end.

Definition text_row (r : row) : bool := forallb is_text r.

(** The date and time cells are strings and the date has no space in it (as
    in the [YYYY-MM-DD] dates that [submitDeductions] writes). *)
Definition dated (r : row) : bool :=
  match cell r 0, cell r 1 with
  | VStr d, VStr _ => negb (has_space d)
  | _, _ => false
  end.

(** Two rows whose date cells differ and whose time cells differ, with the
    same composite key ["2024-06-01 10:00 "]. *)
Definition datetime_in_date_row : row :=
  text_cells ["2024-06-01 10:00"; ""; "eng@site.com"; "DMC"; "هندسة المستقبل"; "عقد مشروع A";
              "بند 3"; "صب"; ""; "1"; "10"; "10"].

Definition trailing_space_row : row :=
  text_cells ["2024-06-01"; "10:00 "; "eng@site.com"; "DMC"; "هندسة المستقبل"; "عقد مشروع A";
              "بند 1"; "حفر"; ""; "2"; "3"; "6"].

(** A row of the report of 2024-06-01 10:00 for another contractor. *)
Definition june_row_other : row :=
  text_cells ["2024-06-01"; "10:00"; "eng@site.com"; "DMC"; "مجموعة التعمير"; "عقد مشروع B";
              "بند 2"; "ردم"; ""; "4"; "5"; "20"].

Definition no_report : Submission := mkSubmission "" "" VUndef VUndef VUndef [] 0.

(** The report reconstructed from the two rows of 2024-05-01 09:00. *)
Definition may_report : Submission :=
  Eval vm_compute in
    hd no_report (reports_of (parseSubmissionsFromRows sample_uuid [may_row_1; may_row_2])).

(** The report reconstructed from [datetime_in_date_row] and
    [trailing_space_row]. *)
Definition merged_report : Submission :=
  Eval vm_compute in
    hd no_report
       (reports_of (parseSubmissionsFromRows sample_uuid
                      [datetime_in_date_row; trailing_space_row])).

(** *** Runs of the actions *)

Definition is_call (e : event) : bool :=
  match e with
  | Called _ _ => true
  | Pushed _ => false
  end.

Definition is_failed_call (e : event) : bool :=
  match e with
  | Called _ failed => failed
  | Pushed _ => false
  end.

(** Some call of the store failed. *)
Definition has_failure (added : list event) : bool := existsb is_failed_call added.

(** Nothing follows a failed call of the store: no call is made again, nor
    any other. *)
Fixpoint stops_at_failure (added : list event) : bool :=
  match added with
  | [] => true
  | e :: rest =>
      if is_failed_call e
      then match rest with
           | [] => true
           | _ :: _ => false
           end
      else stops_at_failure rest
  end.

(** What a run of [m] from [w] appends to the journal. *)
Definition appends {A : Type} (m : M A) (w : world) (added : list event) : Prop :=
  journal (snd (m w)) = journal w ++ added.

(** [m] makes calls of the store only, stops at the first one that fails,
    and then throws. *)
Definition fail_fast {A : Type} (m : M A) : Prop :=
  forall w, exists added,
    appends m w added
    /\ mockSubmissions (snd (m w)) = mockSubmissions w
    /\ forallb is_call added = true
    /\ stops_at_failure added = true
    /\ (has_failure added = true -> is_thrown (fst (m w)) = true).

(** [m] stops at the first call of the store that fails and throws the
    error [describe e] for some error [e]. *)
Definition reraises {A : Type} (m : M A) (describe : JsError -> JsError) : Prop :=
  forall w, exists added,
    appends m w added
    /\ stops_at_failure added = true
    /\ (has_failure added = true -> exists e, fst (m w) = Thrown (describe e)).

(** [m] stops at the first call of the store that fails and returns
    [fallback]. *)
Definition swallows {A : Type} (m : M A) (fallback : A) : Prop :=
  forall w, exists added,
    appends m w added
    /\ stops_at_failure added = true
    /\ (has_failure added = true -> fst (m w) = Returned fallback).

(** *** Sample runtimes *)

(** The case mapping of the sample runtimes: the Unicode lower-casing of the
    characters up to U+00FF, where the letters U+00C0 to U+00DE (the bytes
    [C3 80] to [C3 9E]), but for the sign U+00D7, go to the letter 32 places
    above.  The samples use no character beyond U+00FF with a lower-case
    form. *)
Fixpoint latin1_lower (s : string) : string :=
  match s with
  | EmptyString => EmptyString
  | String c1 t =>
      match t with
      | String c2 rest =>
          let n := N_of_ascii c2 in
          if ((N_of_ascii c1 =? 195) && (128 <=? n) && (n <=? 158) && negb (n =? 151))%N
          then String c1 (String (ascii_of_N (n + 32)) (latin1_lower rest))
          else String (lower_ascii c1) (latin1_lower t)
      | EmptyString => String (lower_ascii c1) EmptyString
      end
  end.

Definition permission_denied : JsError := mkError "The caller does not have permission" (Some 403%Z).

(** A store that refuses every call. *)
Definition failing_store : Store :=
  mkStore (fun _ => Thrown permission_denied)
          (fun _ _ => Thrown permission_denied)
          (fun _ _ => Thrown permission_denied)
          (fun _ _ _ => Thrown permission_denied)
          (fun _ _ _ => Thrown permission_denied)
          (fun _ _ => Thrown permission_denied).

(** A store with the three tables in place, whose user table holds [users]
    and whose report tables hold [reports]. *)
Definition table_store (users reports : list row) : Store :=
  mkStore (fun _ => Returned [USERS_SHEET_NAME; "DMC REQUEST"; "CURVE REQUEST"])
          (fun _ _ => Returned tt)
          (fun _ range =>
             if (range =? "Users!A2:C")%string then Returned (Some users)
             else if endsWith range "!1:1" then Returned (Some [map VStr SUBMISSION_HEADERS])
             else Returned (Some reports))
          (fun _ _ _ => Returned tt)
          (fun _ _ _ => Returned tt)
          (fun _ _ => Returned tt).

(** The number of [len] digits that [s] holds from the place [pos]. *)
Definition digits_at (s : string) (pos len : nat) : option Z :=
  let '(v, n, rest) := read_digits 10 (substring pos len s) 0 0 in
  if ((n =? Z.of_nat len)%Z && (rest =? "")%string)%bool then Some v else None.

(** The days from 1970-01-01 to the day [d] of the month [m] of the year
    [y] of the Gregorian calendar. *)
Definition days_from_civil (y m d : Z) : Z :=
  let y' := (if m <=? 2 then y - 1 else y)%Z in
  let era := (y' / 400)%Z in
  let yoe := (y' - era * 400)%Z in
  let doy := ((153 * ((m + 9) mod 12) + 2) / 5 + d - 1)%Z in
  (era * 146097 + (yoe * 365 + yoe / 4 - yoe / 100 + doy) - 719468)%Z.

(** [new Date(s).getTime()] for the sample runtimes: the milliseconds from
    1970-01-01T00:00:00Z to the instant that [s] writes in the format of
    [toISOString], [YYYY-MM-DDTHH:mm:ss.sssZ], and NaN (an invalid date) for
    any other string.  The engine reads other formats in a way of its own; the
    in-memory reports of the samples hold timestamps of this format only. *)
Definition iso_getTime (s : string) : float :=
  match digits_at s 0 4, digits_at s 5 2, digits_at s 8 2,
        digits_at s 11 2, digits_at s 14 2, digits_at s 17 2, digits_at s 20 3 with
  | Some y, Some m, Some d, Some h, Some mi, Some sec, Some ms =>
      let next := (if m =? 12 then days_from_civil (y + 1) 1 1
                   else days_from_civil y (m + 1) 1)%Z in
      if ((String.length s =? 24)%nat
          && (substring 4 1 s =? "-")%string && (substring 7 1 s =? "-")%string
          && (substring 10 1 s =? "T")%string && (substring 13 1 s =? ":")%string
          && (substring 16 1 s =? ":")%string && (substring 19 1 s =? ".")%string
          && (substring 23 1 s =? "Z")%string
          && (1 <=? m)%Z && (m <=? 12)%Z && (1 <=? d)%Z
          && (days_from_civil y m d <? next)%Z
          && (h <=? 23)%Z && (mi <=? 59)%Z && (sec <=? 59)%Z)%bool
      then let t := ((((days_from_civil y m d * 24 + h) * 60 + mi) * 60 + sec) * 1000
                     + ms)%Z in
           dec2float (t <? 0)%Z (Z.abs t) 0
      else nan
  | _, _, _, _, _, _, _ => nan
  end.

(** A configured process on the store [st], at 10:00 on 2024-06-01 in Cairo.
    The day-interval test of the in-memory history is not called in a
    configured process. *)
Definition runtime_on (st : Store) : Runtime :=
  {| GOOGLE_SHEET_ID := Some "sheet-id";
     GOOGLE_SERVICE_ACCOUNT_KEY := Some "{}";
     credentials_ok := fun _ => true;
     store := st;
     uuid_stream := sample_uuid;
     toISOString_at := fun _ => "2024-06-01T07:00:00.000Z";
     cairo_at := fun _ => ("2024-06-01", "10:00");
     Date_getTime := iso_getTime;
     isWithinDays := fun _ _ _ => Returned true;
     JSON_copy := fun l => l;
     unicode_lower := latin1_lower |}.

Definition empty_world : world := mkWorld [] [] 0 0.

(** *** The user table *)

(** The text [(v || d)] of a cell of a row of text. *)
Definition cell_text (v : value) (d : string) : string :=
  match or_else v (VStr d) with
  | VStr s => s
  | _ => d
  end.

(** [s.toLowerCase()] in the process [rt]. *)
Definition lower (rt : Runtime) (s : string) : string := toLowerCase (unicode_lower rt) s.

(** The row lets [email], [password_provided] and [expectedRole] in. *)
Definition row_matches (rt : Runtime) (email password_provided : string)
    (expectedRole : UserRole) (r : row) : bool :=
  (lower rt (trim (cell_text (cell r 0) "")) =? lower rt (trim email))%string
  && (trim (cell_text (cell r 1) "") =? trim password_provided)%string
  && (lower rt (trim (cell_text (cell r 2) "user")) =? role_name expectedRole)%string.

(** A user table whose only row stores the role as ["Admin"], and one whose
    only row has no role cell. *)
Definition capital_admin_users : list row :=
  [text_cells ["eng@site.com"; "secret"; "Admin"]].

Definition no_role_users : list row :=
  [text_cells ["eng@site.com"; "secret"]].

(** A user table whose only row stores an email with a capital letter that
    is not an ASCII letter. *)
Definition accented_users : list row :=
  [text_cells ["ÉLODIE@x.com"; "pw"; "user"]].

(** *** The status update *)

(** Three stored rows: two of 2024-06-01 at 10:00 and 10:00:05, one of the
    next day. *)
Definition stored_reports : list row :=
  [ text_cells ["2024-06-01"; "10:00"; "eng@site.com"; "DMC"; "هندسة المستقبل"];
    text_cells ["2024-06-01"; "10:00:05"; "eng@site.com"; "DMC"; "هندسة المستقبل"];
    text_cells ["2024-06-02"; "10:00"; "eng@site.com"; "DMC"; "هندسة المستقبل"] ].

(** *** The round trip *)

(** The line item [e] read back for the line item [d] that was submitted:
    the texts with the empty string for a missing one, the numbers as
    [submitDeductions] stores them. *)
Definition read_back (d e : Deduction) : Prop :=
  contractName e = or_else (contractName d) (VStr "")
  /\ itemName e = or_else (itemName d) (VStr "")
  /\ workDescription e = or_else (workDescription d) (VStr "")
  /\ personName e = or_else (personName d) (VStr "")
  /\ quantity e = VNum (Number_or_0 (quantity d))
  /\ unitPrice e = VNum (Number_or_0 (unitPrice d)).

(** Two line items of the form, the first with a meter equivalent. *)
Definition item_a : Deduction :=
  {| d_id := "deduction-a";
     contractName := VStr "عقد صيانة";
     itemName := VStr "بند 1";
     workDescription := VStr "حفر";
     meterEquivalentValue := VNum 12.5;
     meterEquivalentUnit := VStr "متر مربع";
     quantity := VNum 2;
     unitPrice := VNum 3;
     personName := VUndef |}.

Definition item_b : Deduction :=
  {| d_id := "deduction-b";
     contractName := VStr "عقد صيانة";
     itemName := VStr "بند 2";
     workDescription := VStr "ردم";
     meterEquivalentValue := VStr "";
     meterEquivalentUnit := VStr "";
     quantity := VNum 4;
     unitPrice := VNum 5;
     personName := VStr "المشرف" |}.

(** One company, one contractor called [name], the two line items. *)
Definition payload_of (name : string) : SubmitDeductionsPayload :=
  {| p_company := DMC;
     p_contractors := [ {| c_id := "contractor-1";
                           contractorName := VStr name;
                           notes := VStr "ملحوظة";
                           deductions := [item_a; item_b] |} ];
     p_userEmail := "eng@site.com" |}.

(** *** Notions used by the proofs *)

Local Open Scope action_scope.

(** What one turn of the grouping does. *)
Definition add_to_group (acc : obj (list row)) (r : row) : obj (list row) :=
  set_property acc (timestampKey r)
    (match own acc (timestampKey r) with
     | Some g => g ++ [r]
     | None => [r]
     end).

(** What one turn of [rows.forEach] does when it does not throw. *)
Definition add_deduction (m : obj Contractor) (r : row) (d : Deduction) : obj Contractor :=
  set_property m (ToString (cell r 4))
    (push_deduction
       (match own m (ToString (cell r 4)) with
        | Some c => c
        | None => new_contractor r
        end) d).

(** The state of [contractorsMap] after the rows [rows] of a group. *)
Definition filled (rows : list row) (m : obj Contractor) : Prop :=
  NoDup (map fst m)
  /\ forall k, match own m k with
               | Some c => built_from (rows_of_name k rows) c
               | None => rows_of_name k rows = []
               end.

(** [a] may stand before [b]: its timestamp is not the smaller one. *)
Definition not_older (a b : Submission) : Prop :=
  str_lt (timestamp a) (timestamp b) = false.

(** What [submitDeductions] does after the push. *)
Definition send_rows (rt : Runtime) (payload : SubmitDeductionsPayload) : M ActionResult :=
  match getSheetsApi rt with
  | None =>
      ret (mkResult true "تم حفظ التقرير محلياً. لم يتم الإرسال لعدم وجود اتصال بـ Google.")
  | Some _ =>
      let submissionsSheetName := (company_name (p_company payload) ++ " REQUEST")%string in
      try_catch
        (ensureSheetAndHeaders rt submissionsSheetName SUBMISSION_HEADERS ;;;
         now <-- now_in_cairo rt ;;
         let '(date, time) := now in
         let rows := rowsToAppend date time payload in
         (if (0 <? List.length rows)%nat
          then sheets_values_append rt (submissionsSheetName ++ "!A1")%string rows
          else ret tt) ;;;
         ret (mkResult true "تم إرسال التقرير بنجاح للمراجعة."))
        (fun error => throw (Error (friendlyMessage error)))
  end.

(** The entry [submitDeductions] pushes from the state [w]. *)
Definition pushed_entry (rt : Runtime) (payload : SubmitDeductionsPayload) (w : world)
  : Submission :=
  {| reportId := uuid_stream rt (uuids_drawn w);
     timestamp := toISOString_at rt (clock_reads w);
     userEmail := VStr (p_userEmail payload);
     status := VStr PENDING;
     company := VStr (company_name (p_company payload));
     contractors := p_contractors payload;
     grandTotal := payload_grandTotal (p_contractors payload) |}.

(** The state right after the push. *)
Definition after_push (rt : Runtime) (payload : SubmitDeductionsPayload) (w : world) : world :=
  {| mockSubmissions := mockSubmissions w ++ [pushed_entry rt payload w];
     journal := journal w ++ [Pushed (pushed_entry rt payload w)];
     uuids_drawn := S (uuids_drawn w);
     clock_reads := S (clock_reads w) |}.

(** *** Reading rows back *)

(** The row can be read back: its meter-equivalent cell is text (or empty,
    or missing), and its contractor name is not a name that every object
    inherits. *)
Definition readable (r : row) : bool :=
  is_text (or_else (cell r 8) (VStr "")) && negb (inherited (ToString (cell r 4))).

(** The number of line items of a list of contractors, of a list of
    reports. *)
Definition count_items (cs : list Contractor) : nat :=
  list_sum (map (fun c => List.length (deductions c)) cs).

Definition line_items (subs : list Submission) : nat :=
  list_sum (map (fun s => count_items (contractors s)) subs).

(** *** The order of the contractors of a report *)

(** The contractor names of the rows, each once, in the order in which they
    first appear. *)
Definition names_in_order (rows : list row) : list string :=
  fold_left (fun acc r =>
               let k := ToString (cell r 4) in
               if existsb (String.eqb k) acc then acc else acc ++ [k])
            rows [].

(** Two rows of one report whose contractors are called ["b"] and ["7"]. *)
Definition numbered_name_rows : list row :=
  [ text_cells ["2024-06-01"; "10:00"; "eng@site.com"; "DMC"; "b"];
    text_cells ["2024-06-01"; "10:00"; "eng@site.com"; "DMC"; "7"] ].

(** *** The ids of the line items *)

(** The ids of the line items of a list of contractors, of a list of
    reports. *)
Definition contractor_item_ids (cs : list Contractor) : list string :=
  flat_map (fun c => map d_id (deductions c)) cs.

Definition item_ids (subs : list Submission) : list string :=
  flat_map (fun s => contractor_item_ids (contractors s)) subs.

(** The id made from the [k]-th value of [randomUUID]. *)
Definition fresh_id (fresh : nat -> string) (k : nat) : string :=
  ("deduction-" ++ fresh k)%string.

(** A stream of distinct values. *)
Definition numbered_uuid (k : nat) : string := nat_to_string k.

(** *** The report of a row *)

(** The keys of the rows, each once, in the order in which they first
    appear. *)
Definition keys_in_order (rows : list row) : list string :=
  fold_left (fun acc r =>
               let k := timestampKey r in
               if existsb (String.eqb k) acc then acc else acc ++ [k])
            rows [].

(** The rows in the order in which the reconstruction draws a value of
    [randomUUID] for them: group after group, the groups in the order in
    which their keys first appear, the rows of a group in their order. *)
Definition visit_order (rows : list row) : list row :=
  flat_map (fun k => rows_of_key k rows) (keys_in_order rows).

(** Three sample rows, the second one of another date than the others. *)
Definition mixed_rows : list row := [june_row; may_row_1; june_row_other].

(** The reports reconstructed from them, with numbered values of
    [randomUUID]. *)
Definition mixed_reports : list Submission :=
  Eval vm_compute in reports_of (parseSubmissionsFromRows numbered_uuid mixed_rows).

(** The row [r], for which [randomUUID] returned [uuid], is placed in the
    report [s]: the line item built from the row, whose id is made from
    [uuid], is a line item of a contractor of [s]. *)
Definition placed_in (s : Submission) (uuid : string) (r : row) : Prop :=
  exists c d,
    In c (contractors s) /\ In d (deductions c) /\ new_deduction uuid r = Returned d.

(** Two rows, with the values that [randomUUID] returned for them, are
    placed in the same report of the reports [subs]. *)
Definition same_report (subs : list Submission) (uuid1 : string) (r1 : row)
    (uuid2 : string) (r2 : row) : Prop :=
  exists s, In s subs /\ placed_in s uuid1 r1 /\ placed_in s uuid2 r2.

(** *** What a run may do *)

(** Every run of [m] takes a state [w] to a state related to it by [R]. *)
Definition preserves (R : world -> world -> Prop) {A : Type} (m : M A) : Prop :=
  forall w, R w (snd (m w)).

(** The journal grows by events that [allowed] admits. *)
Definition journal_grows_by (allowed : event -> Prop) (w w' : world) : Prop :=
  exists added, journal w' = journal w ++ added /\ Forall allowed added.

(** The in-memory reports are left as they are. *)
Definition mock_kept (w w' : world) : Prop :=
  mockSubmissions w' = mockSubmissions w.

(** The calls that [ensureSheetAndHeaders sheetName headers] may make: the
    list of the sheets, the creation of the sheet [sheetName], the read of
    its first row (for a report table), and the write of a header row at its
    cell [A1]: [headers] for a sheet just created, the report headers for a
    report table. *)
Definition ensure_event (sheetName : string) (headers : list string) (e : event) : Prop :=
  match e with
  | Called SpreadsheetsGet _ => True
  | Called (AddSheet title) _ => title = sheetName
  | Called (ValuesGet range) _ =>
      range = (sheetName ++ "!1:1")%string /\ endsWith sheetName "REQUEST" = true
  | Called (ValuesUpdate range values) _ =>
      range = (sheetName ++ "!A1")%string
      /\ (values = [header_row headers]
          \/ (endsWith sheetName "REQUEST" = true
              /\ values = [header_row SUBMISSION_HEADERS]))
  | _ => False
  end.

(** A read of the store, or the set-up of a sheet: its creation, or the
    write of one header row at its cell [A1]. *)
Definition read_or_setup (e : event) : Prop :=
  match e with
  | Called SpreadsheetsGet _ | Called (ValuesGet _) _ | Called (AddSheet _) _ => True
  | Called (ValuesUpdate range values) _ =>
      exists sheetName headers,
        range = (sheetName ++ "!A1")%string /\ values = [header_row headers]
  | _ => False
  end.

(** Two reports that differ at most in their status. *)
Definition same_but_status (a b : Submission) : Prop :=
  reportId b = reportId a
  /\ timestamp b = timestamp a
  /\ userEmail b = userEmail a
  /\ company b = company a
  /\ contractors b = contractors a
  /\ grandTotal b = grandTotal a.

(** The event is not a call of the store. *)
Definition not_a_call (e : event) : Prop := is_call e = false.

(** *** The history reads *)

(** The rows that a read of a table gives to a history read that keeps the
    rows [keep]: none when the table holds no data. *)
Definition kept_rows (keep : row -> bool) (reply : outcome (option (list row))) : list row :=
  match reply with
  | Returned (Some rows) => filter keep rows
  | _ => []
  end.

(** One turn of the loop of a history read, for the report table of
    [company], from the journal [before]: [added] is what the turn appends to
    the journal and [got] the rows it collects.  The turn starts with the
    list of the sheets, whatever the turns before it met; it makes the calls
    of the set-up of its table and the read of the rows of that table, and
    no call after one that failed.  When its last call is the read of the
    rows and this read went through, it collects the kept rows that the store
    answered; in every other case, and so whenever a call failed, it collects
    no row: the table is skipped. *)
Definition table_turn (rt : Runtime) (keep : row -> bool) (company : Company)
    (before added : list event) (got : list row) : Prop :=
  let sheetName := (company_name company ++ " REQUEST")%string in
  let range := (sheetName ++ "!A2:Z")%string in
  (exists failed rest, added = Called SpreadsheetsGet failed :: rest)
  /\ Forall (fun e => ensure_event sheetName SUBMISSION_HEADERS e
                      \/ exists failed, e = Called (ValuesGet range) failed) added
  /\ stops_at_failure added = true
  /\ (has_failure added = true -> got = [])
  /\ ((exists setup,
          added = setup ++ [Called (ValuesGet range) false]
          /\ got = kept_rows keep (values_get (store rt) (before ++ setup) range))
      \/ ((forall setup, added <> setup ++ [Called (ValuesGet range) false]) /\ got = [])).

(** A history read of the configured store, which keeps the rows [keep] of
    the two report tables and reconstructs the reports of the rows that
    [select] selects among them: a turn for the table of DMC, then a turn for
    the table of CURVE, whatever the first turn met; then the reports of the
    rows collected, with [thrown] thrown when the reconstruction throws, and
    for nothing else.  With a failed call in both turns the result is the
    empty list. *)
Definition skips_unreadable_tables (rt : Runtime) (keep : row -> bool)
    (select : list row -> list row) (thrown : JsError) (m : M (list Submission)) : Prop :=
  forall w, exists added1 added2 rows1 rows2,
    appends m w (added1 ++ added2)
    /\ table_turn rt keep DMC (journal w) added1 rows1
    /\ table_turn rt keep CURVE (journal w ++ added1) added2 rows2
    /\ fst (m w)
       = match parseSubmissionsFromRows (fun k => uuid_stream rt (uuids_drawn w + k))
                                        (select (rows1 ++ rows2)) with
         | Returned subs => Returned subs
         | Thrown _ => Thrown thrown
         end
    /\ (has_failure added1 = true -> has_failure added2 = true -> fst (m w) = Returned []).

(** *** The header row of a report table *)

(** The first row of a report table holds every report header, among at
    least as many cells as there are report headers. *)
Definition headers_complete (currentHeaders : row) : Prop :=
  List.length SUBMISSION_HEADERS <= List.length currentHeaders
  /\ forall h, In h SUBMISSION_HEADERS -> In (VStr h) currentHeaders.

(** *** The reference lists *)

(** A first column with an empty cell, a missing cell and a repeated name. *)
Definition contractor_column : list row :=
  [ [VStr "مقاولات الخليج"]; [VStr ""]; []; [VStr "هندسة المستقبل"]; [VStr "مقاولات الخليج"] ].

(** *** The role of a user *)

(** The email that the row stores is [email], both trimmed and in lower
    case. *)
Definition email_matches (rt : Runtime) (email : string) (r : row) : bool :=
  (lower rt (trim (cell_text (cell r 0) "")) =? lower rt (trim email))%string.

(** The role that the row stores: ["admin"] after trimming and in lower
    case, or anything else, which counts as a plain user. *)
Definition stored_role (rt : Runtime) (r : row) : UserRole :=
  if (lower rt (trim (cell_text (cell r 2) "user")) =? "admin")%string
  then admin else user.

(** A user table with two rows for one email: a plain user first, then an
    administrator. *)
Definition two_role_users : list row :=
  [ text_cells ["eng@site.com"; "secret"; "user"];
    text_cells ["Eng@Site.com "; "other"; "ADMIN"] ].

(** *** The in-memory reports *)

(** The report [s] with the status [label]. *)
Definition with_status (label : string) (s : Submission) : Submission :=
  {| reportId := reportId s;
     timestamp := timestamp s;
     userEmail := userEmail s;
     status := VStr label;
     company := company s;
     contractors := contractors s;
     grandTotal := grandTotal s |}.





(** Two in-memory reports with one report key, and a third one. *)
Definition local_reports : list Submission :=
  [ mkSubmission "r-1" "2024-06-01T07:00:00.000Z" (VStr "eng@site.com") (VStr PENDING)
                 (VStr "DMC") [] 0;
    mkSubmission "r-2" "2024-06-02T07:00:00.000Z" (VStr "other@site.com") (VStr PENDING)
                 (VStr "DMC") [] 0;
    mkSubmission "r-1" "2024-06-03T07:00:00.000Z" (VStr "eng@site.com") (VStr PENDING)
                 (VStr "CURVE") [] 0 ].

(** *** Sample stores and runs *)

(** A store with the tables in place that refuses to append. *)
Definition append_refusing_store : Store :=
  mkStore (spreadsheets_get (table_store [] []))
          (spreadsheets_batchUpdate (table_store [] []))
          (values_get (table_store [] []))
          (values_update (table_store [] []))
          (fun _ _ _ => Thrown permission_denied)
          (values_batchUpdate (table_store [] [])).

(** A store with the tables in place, the rows [curve] in the report table
    of CURVE, and a report table of DMC whose rows cannot be read. *)
Definition dmc_unreadable_store (curve : list row) : Store :=
  mkStore (spreadsheets_get (table_store [] curve))
          (spreadsheets_batchUpdate (table_store [] curve))
          (fun j range =>
             if (range =? "DMC REQUEST!A2:Z")%string then Thrown permission_denied
             else values_get (table_store [] curve) j range)
          (values_update (table_store [] curve))
          (values_append (table_store [] curve))
          (values_batchUpdate (table_store [] curve)).

(** A history request for June 2024. *)
Definition june_request : GetHistoryParams :=
  mkHistoryParams "eng@site.com" (Some "2024-06-01") (Some "2024-06-30").

(** The history of June 2024 on report tables that hold a row of June and
    one of May. *)
Definition june_history : list Submission :=
  Eval vm_compute in
    reports_of (fst (getSubmissionHistory (runtime_on (table_store [] [june_row; may_row_1]))
                                          june_request empty_world)).

(** All the reports of report tables that hold two rows each. *)
Definition both_tables_reports : list Submission :=
  Eval vm_compute in
    reports_of (fst (getAllSubmissions (runtime_on (table_store [] [june_row; june_row_other]))
                                       empty_world)).

(** A process without the configuration of the store.  The samples ask it
    for no history with a date range, so its day-interval test is not
    called; the in-memory reports of the samples hold strings and finite
    numbers only, which a JSON copy gives back as they are. *)
Definition offline_runtime : Runtime :=
  {| GOOGLE_SHEET_ID := None;
     GOOGLE_SERVICE_ACCOUNT_KEY := None;
     credentials_ok := fun _ => true;
     store := failing_store;
     uuid_stream := sample_uuid;
     toISOString_at := fun _ => "2024-06-01T07:00:00.000Z";
     cairo_at := fun _ => ("2024-06-01", "10:00");
     Date_getTime := iso_getTime;
     isWithinDays := fun _ _ _ => Returned true;
     JSON_copy := fun l => l;
     unicode_lower := latin1_lower |}.

(** ** The forms

    The entry form ([components/deduction-form.tsx]) decides whether the
    report may be sent; the login form ([components/login-form.tsx]) calls
    [validateUser] and signs the user in through the session store
    ([stores/auth-store]). *)

(** [v === ''] for a field of the form. *)
Definition is_empty_text (v : value) : bool :=
  match v with
  | VStr s => (s =? "")%string
  | _ => false
  end.

(** The test of [isFormValid] on one line item:
    [d.contractName && d.itemName && d.workDescription && d.quantity
     && d.quantity > 0 && d.unitPrice !== '' && d.unitPrice >= 0]. *)
Definition deduction_is_valid (d : Deduction) : bool :=
  truthy (contractName d) && truthy (itemName d) && truthy (workDescription d)
  && truthy (quantity d) && (0 <? Number (quantity d))%float
  && negb (is_empty_text (unitPrice d)) && (0 <=? Number (unitPrice d))%float.

(** The test of [isFormValid] on one contractor. *)
Definition contractor_is_valid (c : Contractor) : bool :=
  truthy (contractorName c) && (0 <? List.length (deductions c))%nat
  && forallb deduction_is_valid (deductions c).

(** [isFormValid()], for the company and the contractors of the form. *)
Definition isFormValid (company : option Company) (contractors : list Contractor) : bool :=
  match company with
  | None => false
  | Some _ =>
      if (List.length contractors =? 0)%nat then false
      else forallb contractor_is_valid contractors
  end.

(** The session store: [login] and [logout] set its three fields. *)
Record AuthState : Type := mkAuth {
  auth_email : option string;
  auth_role : option UserRole;
  isAuthenticated : bool
}.

Definition signed_out : AuthState := mkAuth None None false.

Definition login (email : string) (granted : option UserRole) (s : AuthState) : AuthState :=
  mkAuth (Some email) granted true.

Definition logout (s : AuthState) : AuthState := mkAuth None None false.

(** What the login form shows: a toast, or a move to another page. *)
Inductive ui_event : Type :=
  | Toast (destructive : bool) (title description : string)
  | RouterPush (path : string).

Record Client : Type := mkClient {
  session : AuthState;
  shown : list ui_event
}.

Definition show (e : list ui_event) (c : Client) : Client :=
  mkClient (session c) (shown c ++ e).

(** [handleLogin(role, password)] of the login form, [email] being the
    email typed in the form. *)
Definition handleLogin (rt : Runtime) (email : string) (requested : UserRole)
    (password : string) (c : Client) (w : world) : Client * world :=
  if (email =? "")%string then
    (show [Toast true "خطأ" "الرجاء إدخال البريد الإلكتروني أولاً."] c, w)
  else
    match validateUser rt email password requested w with
    | (Returned validationResult, w') =>
        if isValid validationResult then
          let targetPath := match role validationResult with
                            | Some admin => "/admin"
                            | _ => "/deductions"
                            end in
          (show [Toast false "تم تسجيل الدخول بنجاح" ("مرحباً بك، " ++ email);
                 RouterPush targetPath]
                (mkClient (login email (role validationResult) (session c)) (shown c)),
           w')
        else
          (show [Toast true "فشل تسجيل الدخول" "البريد الإلكتروني أو كلمة المرور غير صحيحة."] c,
           w')
    | (Thrown error, w') =>
        (show [Toast true "خطأ في النظام" (message error)] c, w')
    end.

(** A form with one contractor and the two sample line items. *)
Definition sample_form : list Contractor := p_contractors (payload_of "مقاولات الخليج").

(** The calls of the session store. *)
Inductive AuthAction : Type :=
  | Login (email : string) (granted : UserRole)
  | Logout.

Definition auth_step (s : AuthState) (a : AuthAction) : AuthState :=
  match a with
  | Login email granted => login email (Some granted) s
  | Logout => logout s
  end.

(** * Theorems *)

(** ** Facts about strings *)

Lemma has_space_app (a b : string) : has_space (a ++ " " ++ b)%string = true.
Proof.
  induction a as [|c a IH]; simpl in *.
  - reflexivity.
  - rewrite IH. apply orb_true_r.
Qed.

Lemma inherited_no_space (k : string) : inherited k = true -> has_space k = false.
Proof.
  unfold inherited. intros H.
  apply existsb_exists in H. destruct H as [name [Hin Heq]].
  apply String.eqb_eq in Heq. subst name.
  simpl in Hin.
  repeat (destruct Hin as [<- | Hin]; [reflexivity|]).
  contradiction.
Qed.

Lemma read_digits_space (s : string) :
  forall acc count v n rest,
    read_digits 10 s acc count = (v, n, rest) ->
    has_space s = true -> has_space rest = true.
Proof.
  induction s as [|c s IH]; simpl; intros acc count v n rest Hread Hsp.
  - discriminate.
  - destruct (Ascii.eqb c " ") eqn:Hc.
    + apply Ascii.eqb_eq in Hc. subst c.
      change (digit_of 10 " ") with (@None Z) in Hread.
      inversion Hread; subst. reflexivity.
    + simpl in Hsp.
      destruct (digit_of 10 c).
      * eapply IH; eauto.
      * inversion Hread; subst. simpl. rewrite Hc. exact Hsp.
Qed.

Lemma array_index_space (k : string) : has_space k = true -> array_index k = None.
Proof.
  intros Hsp. unfold array_index.
  destruct (read_digits 10 k 0 0) as [[v n] rest] eqn:Hread.
  pose proof (read_digits_space _ _ _ _ _ _ Hread Hsp) as Hrest.
  destruct rest as [|c rest]; [discriminate|].
  simpl. rewrite andb_false_r. reflexivity.
Qed.

(** The order on strings. *)

Lemma code_unit_rank_inj (c d : ascii) : code_unit_rank c = code_unit_rank d -> c = d.
Proof.
  unfold code_unit_rank. intros H.
  rewrite <- (ascii_N_embedding c), <- (ascii_N_embedding d).
  pose proof (N_ascii_bounded c) as Hc. pose proof (N_ascii_bounded d) as Hd.
  f_equal.
  destruct ((238 <=? N_of_ascii c) && (N_of_ascii c <=? 239))%N eqn:Ec;
    destruct ((238 <=? N_of_ascii d) && (N_of_ascii d <=? 239))%N eqn:Ed; lia.
Qed.

Lemma compare_code_units_refl (s : string) : compare_code_units s s = Eq.
Proof.
  induction s as [|c s IH]; simpl; [reflexivity|].
  rewrite N.compare_refl. exact IH.
Qed.

Lemma compare_code_units_eq (a : string) :
  forall b, compare_code_units a b = Eq -> a = b.
Proof.
  induction a as [|x a IH]; intros [|y b]; simpl; try discriminate; [reflexivity|].
  destruct (N.compare_spec (code_unit_rank x) (code_unit_rank y)) as [Hxy|Hxy|Hxy];
    try discriminate.
  intros H. apply code_unit_rank_inj in Hxy. rewrite Hxy, (IH b H). reflexivity.
Qed.

Lemma compare_code_units_antisym (a : string) :
  forall b, compare_code_units b a = CompOpp (compare_code_units a b).
Proof.
  induction a as [|x a IH]; intros [|y b]; simpl; try reflexivity.
  rewrite (N.compare_antisym (code_unit_rank x) (code_unit_rank y)).
  destruct (code_unit_rank x ?= code_unit_rank y)%N; simpl; [apply IH | reflexivity | reflexivity].
Qed.

Lemma compare_code_units_lt_trans (a : string) :
  forall b c,
    compare_code_units a b = Lt -> compare_code_units b c = Lt -> compare_code_units a c = Lt.
Proof.
  induction a as [|x a IH]; intros [|y b] [|z c]; simpl; try discriminate; auto.
  destruct (N.compare_spec (code_unit_rank x) (code_unit_rank y)) as [Hxy|Hxy|Hxy];
    try discriminate;
    destruct (N.compare_spec (code_unit_rank y) (code_unit_rank z)) as [Hyz|Hyz|Hyz];
    try discriminate; intros H1 H2.
  - rewrite Hxy, Hyz, N.compare_refl. eauto.
  - rewrite Hxy. apply N.compare_lt_iff in Hyz. rewrite Hyz. reflexivity.
  - rewrite <- Hyz. apply N.compare_lt_iff in Hxy. rewrite Hxy. reflexivity.
  - assert (Hxz : (code_unit_rank x < code_unit_rank z)%N) by lia.
    apply N.compare_lt_iff in Hxz. rewrite Hxz. reflexivity.
Qed.

Lemma str_lt_trans (a b c : string) :
  str_lt a b = true -> str_lt b c = true -> str_lt a c = true.
Proof.
  unfold str_lt. intros H1 H2.
  destruct (compare_code_units a b) eqn:Hab; try discriminate.
  destruct (compare_code_units b c) eqn:Hbc; try discriminate.
  rewrite (compare_code_units_lt_trans _ _ _ Hab Hbc). reflexivity.
Qed.

Lemma str_lt_irrefl (a : string) : str_lt a a = false.
Proof. unfold str_lt. rewrite compare_code_units_refl. reflexivity. Qed.

Lemma str_lt_total (a b : string) :
  str_lt a b = false -> str_lt b a = false -> a = b.
Proof.
  unfold str_lt. rewrite (compare_code_units_antisym a b).
  destruct (compare_code_units a b) eqn:Hab; simpl; try discriminate; intros _ _.
  apply compare_code_units_eq. exact Hab.
Qed.

Lemma str_lt_asym (a b : string) : str_lt a b = true -> str_lt b a = false.
Proof.
  unfold str_lt. rewrite (compare_code_units_antisym a b).
  destruct (compare_code_units a b); simpl; try discriminate; reflexivity.
Qed.

(** A character beyond the Basic Multilingual Plane (U+1F600, units [D83D
    DE00]) is below a character of its last part (U+FF21, unit [FF21]),
    though its bytes ([F0 9F 98 80]) are above the bytes [EF BC A1]; a string
    is above its proper prefixes; ASCII strings compare by their
    characters. *)
Lemma str_lt_by_code_units :
  str_lt "😀" "Ａ" = true
  /\ str_lt "Ａ" "😀" = false
  /\ str_lt "é" "z" = false
  /\ str_lt "10:00" "10:00:05" = true
  /\ str_lt "2024-05-01" "2024-06-01" = true.
Proof. repeat split; vm_compute; reflexivity. Qed.

(** [a >= b] and [b >= c] give [a >= c]. *)
Lemma str_ge_trans (a b c : string) :
  str_lt a b = false -> str_lt b c = false -> str_lt a c = false.
Proof.
  intros Hab Hbc.
  destruct (str_lt a c) eqn:Hac; [|reflexivity].
  destruct (str_lt b a) eqn:Hba.
  - rewrite (str_lt_trans _ _ _ Hba Hac) in Hbc. discriminate.
  - rewrite (str_lt_total _ _ Hab Hba) in Hac. rewrite Hac in Hbc. discriminate.
Qed.

(** ** Facts about plain objects *)

Section Objects.

Context {V : Type}.
Implicit Types (o : obj V) (k : string) (v : V).

Lemma own_set_same o k v : own (set_property o k v) k = Some v.
Proof.
  induction o as [|[k' v'] o IH]; simpl.
  - rewrite String.eqb_refl. reflexivity.
  - destruct (k' =? k)%string eqn:E; simpl.
    + rewrite String.eqb_refl. reflexivity.
    + rewrite E. exact IH.
Qed.

Lemma own_set_other o k k' v : k' <> k -> own (set_property o k v) k' = own o k'.
Proof.
  intros Hne. induction o as [|[k0 v0] o IH]; simpl.
  - apply String.eqb_neq in Hne. rewrite String.eqb_sym, Hne. reflexivity.
  - destruct (k0 =? k)%string eqn:E; simpl.
    + apply String.eqb_eq in E. subst k0.
      assert (Hn : (k =? k')%string = false) by (apply String.eqb_neq; congruence).
      rewrite Hn. reflexivity.
    + destruct (k0 =? k')%string; [reflexivity | exact IH].
Qed.

Lemma own_In o k v : own o k = Some v -> In (k, v) o.
Proof.
  induction o as [|[k' v'] o IH]; simpl; [discriminate|].
  destruct (k' =? k)%string eqn:E.
  - apply String.eqb_eq in E. intros [= <-]. left. congruence.
  - intros H. right. auto.
Qed.

Lemma own_None o k : own o k = None <-> ~ In k (map fst o).
Proof.
  induction o as [|[k' v'] o IH]; simpl.
  - tauto.
  - destruct (k' =? k)%string eqn:E.
    + apply String.eqb_eq in E. split; [discriminate | intros H; exfalso; auto].
    + apply String.eqb_neq in E. rewrite IH. tauto.
Qed.

Lemma In_own o k v : NoDup (map fst o) -> In (k, v) o -> own o k = Some v.
Proof.
  induction o as [|[k' v'] o IH]; simpl; [contradiction|].
  intros Hnd [Heq | Hin].
  - inversion Heq; subst. rewrite String.eqb_refl. reflexivity.
  - inversion Hnd as [|? ? Hnotin Hnd']; subst.
    destruct (k' =? k)%string eqn:E.
    + apply String.eqb_eq in E. subst k'. exfalso. apply Hnotin.
      change k with (fst (k, v)). apply in_map. exact Hin.
    + auto.
Qed.

Lemma set_property_keys o k v :
  map fst (set_property o k v)
  = match own o k with
    | Some _ => map fst o
    | None => map fst o ++ [k]
    end.
Proof.
  induction o as [|[k' v'] o IH]; simpl; [reflexivity|].
  destruct (k' =? k)%string eqn:E; simpl.
  - apply String.eqb_eq in E. congruence.
  - rewrite IH. destruct (own o k); reflexivity.
Qed.

Lemma set_property_NoDup o k v :
  NoDup (map fst o) -> NoDup (map fst (set_property o k v)).
Proof.
  intros Hnd. rewrite set_property_keys.
  destruct (own o k) eqn:E; [exact Hnd|].
  apply own_None in E.
  apply NoDup_app; [exact Hnd | repeat constructor; simpl; tauto |].
  intros x Hx [<- | []]. exact (E Hx).
Qed.

End Objects.

Section MoreObjects.

Context {V : Type}.
Implicit Types (o : obj V) (k : string) (v : V).

Lemma set_property_twice o k v v' :
  set_property (set_property o k v) k v' = set_property o k v'.
Proof.
  induction o as [|[k0 v0] o IH]; simpl.
  - rewrite String.eqb_refl. reflexivity.
  - destruct (k0 =? k)%string eqn:E; simpl.
    + rewrite String.eqb_refl. reflexivity.
    + rewrite E, IH. reflexivity.
Qed.

Lemma get_property_own o k v : own o k = Some v -> get_property o k = Own v.
Proof. unfold get_property. intros ->. reflexivity. Qed.

Lemma get_property_absent o k :
  own o k = None -> inherited k = false -> get_property o k = Absent.
Proof. unfold get_property. intros -> ->. reflexivity. Qed.

Lemma get_property_inherited o k :
  own o k = None -> inherited k = true -> get_property o k = Inherited.
Proof. unfold get_property. intros -> ->. reflexivity. Qed.

Lemma insert_by_index_perm (e : Z * (string * V)) l :
  Permutation (insert_by_index e l) (e :: l).
Proof.
  induction l as [|e' l IH]; simpl; [reflexivity|].
  destruct (fst e <? fst e')%Z; [reflexivity|].
  rewrite IH. apply perm_swap.
Qed.

Lemma Object_entries_perm o : Permutation (Object_entries o) o.
Proof.
  unfold Object_entries.
  induction o as [|[k v] o IH]; simpl; [reflexivity|].
  destruct (array_index k) as [i|]; simpl.
  - rewrite insert_by_index_perm. simpl. constructor. exact IH.
  - rewrite <- Permutation_middle. constructor. exact IH.
Qed.

Lemma Object_entries_no_index o :
  Forall (fun kv => array_index (fst kv) = None) o -> Object_entries o = o.
Proof.
  unfold Object_entries.
  induction 1 as [|[k v] o Hk Hall IH]; simpl in *; [reflexivity|].
  rewrite Hk. simpl. simpl in IH.
  destruct (index_entries o) as [|e es] eqn:E.
  - simpl in *. rewrite IH. reflexivity.
  - exfalso. clear IH.
    assert (Hin : In e (index_entries o)) by (rewrite E; left; reflexivity).
    clear E. induction Hall as [|[k' v'] o' Hk' Hall' IH']; simpl in *; [contradiction|].
    rewrite Hk' in Hin. auto.
Qed.

Lemma Object_values_perm o : Permutation (Object_values o) (map snd o).
Proof. unfold Object_values. apply Permutation_map. apply Object_entries_perm. Qed.

End MoreObjects.

(** ** Grouping the rows by timestamp *)

Lemma timestampKey_space (r : row) : has_space (timestampKey r) = true.
Proof. unfold timestampKey. apply has_space_app. Qed.

Lemma timestampKey_not_inherited (r : row) : inherited (timestampKey r) = false.
Proof.
  destruct (inherited (timestampKey r)) eqn:E; [|reflexivity].
  apply inherited_no_space in E. rewrite timestampKey_space in E. discriminate.
Qed.

Lemma group_step_returns (acc : obj (list row)) (r : row) :
  group_step acc r = Returned (add_to_group acc r).
Proof.
  unfold group_step, add_to_group.
  destruct (own acc (timestampKey r)) as [g|] eqn:E.
  - rewrite (get_property_own _ _ _ E). cbv iota.
    rewrite (get_property_own _ _ _ E). reflexivity.
  - rewrite (get_property_absent _ _ E (timestampKey_not_inherited r)). cbv iota.
    rewrite (get_property_own _ _ _ (own_set_same acc _ [])).
    rewrite set_property_twice. reflexivity.
Qed.

Lemma reduce_group_step (rows : list row) (acc : obj (list row)) :
  reduce group_step rows acc = Returned (fold_left add_to_group rows acc).
Proof.
  revert acc. induction rows as [|r rows IH]; intros acc; simpl; [reflexivity|].
  rewrite group_step_returns. simpl. apply IH.
Qed.

Lemma fold_add_to_group_own (rows : list row) :
  forall acc k,
    own (fold_left add_to_group rows acc) k
    = match own acc k, rows_of_key k rows with
      | None, [] => None
      | None, l => Some l
      | Some g, l => Some (g ++ l)
      end.
Proof.
  induction rows as [|r rows IH]; intros acc k; simpl.
  - destruct (own acc k); [rewrite app_nil_r|]; reflexivity.
  - rewrite IH. unfold add_to_group.
    destruct (timestampKey r =? k)%string eqn:E.
    + apply String.eqb_eq in E. subst k. rewrite own_set_same.
      destruct (own acc (timestampKey r)) as [g|].
      * rewrite <- app_assoc. reflexivity.
      * reflexivity.
    + apply String.eqb_neq in E.
      rewrite own_set_other by congruence. reflexivity.
Qed.

Lemma fold_add_to_group_NoDup (rows : list row) :
  forall acc, NoDup (map fst acc) -> NoDup (map fst (fold_left add_to_group rows acc)).
Proof.
  induction rows as [|r rows IH]; intros acc Hnd; simpl; [exact Hnd|].
  apply IH. apply set_property_NoDup. exact Hnd.
Qed.

Lemma fold_add_to_group_keys (rows : list row) :
  forall acc,
    Forall (fun kv => has_space (fst kv) = true) acc ->
    Forall (fun kv => has_space (fst kv) = true) (fold_left add_to_group rows acc).
Proof.
  induction rows as [|r rows IH]; intros acc Hall; simpl; [exact Hall|].
  apply IH. unfold add_to_group.
  generalize (match own acc (timestampKey r) with Some g => g ++ [r] | None => [r] end).
  intros v. induction Hall as [|[k' v'] acc Hk Hall IH']; simpl.
  - constructor; [apply timestampKey_space | constructor].
  - destruct (k' =? timestampKey r)%string; constructor; auto.
    apply timestampKey_space.
Qed.

(** [groupedByTimestamp] never throws; its groups are the rows of each key,
    in the order of the rows, under distinct keys. *)
Lemma groupedByTimestamp_spec (rows : list row) :
  exists groups,
    groupedByTimestamp rows = Returned groups
    /\ NoDup (map fst groups)
    /\ Forall (fun kv => has_space (fst kv) = true) groups
    /\ (forall k grp, In (k, grp) groups -> grp = rows_of_key k rows /\ grp <> [])
    /\ (forall r, In r rows -> In (timestampKey r, rows_of_key (timestampKey r) rows) groups).
Proof.
  exists (fold_left add_to_group rows []).
  assert (Hnd : NoDup (map fst (fold_left add_to_group rows [])))
    by (apply fold_add_to_group_NoDup; constructor).
  split; [apply reduce_group_step|].
  split; [exact Hnd|].
  split; [apply fold_add_to_group_keys; constructor|].
  split.
  - intros k grp Hin. apply (In_own _ _ _ Hnd) in Hin.
    rewrite fold_add_to_group_own in Hin. simpl in Hin.
    destruct (rows_of_key k rows) eqn:E; [discriminate|].
    inversion Hin; subst. split; [reflexivity | discriminate].
  - intros r Hr. apply own_In. rewrite fold_add_to_group_own. simpl.
    destruct (rows_of_key (timestampKey r) rows) eqn:E; [|reflexivity].
    exfalso.
    assert (Hin : In r (rows_of_key (timestampKey r) rows)).
    { unfold rows_of_key. apply filter_In. split; [exact Hr | apply String.eqb_refl]. }
    rewrite E in Hin. contradiction.
Qed.

(** ** Filling the contractors of a group *)

Lemma contractor_step_returns (uuid : string) (m : obj Contractor) (r : row) (d : Deduction) :
  new_deduction uuid r = Returned d ->
  (own m (ToString (cell r 4)) = None -> inherited (ToString (cell r 4)) = false) ->
  contractor_step uuid m r = Returned (add_deduction m r d).
Proof.
  intros Hd Hk. unfold contractor_step, add_deduction. rewrite Hd. cbn [bind].
  destruct (own m (ToString (cell r 4))) as [c|] eqn:E.
  - rewrite (get_property_own _ _ _ E). cbv iota.
    rewrite (get_property_own _ _ _ E). reflexivity.
  - rewrite (get_property_absent _ _ E (Hk eq_refl)). cbv iota.
    erewrite get_property_own by apply own_set_same.
    rewrite set_property_twice. reflexivity.
Qed.

Lemma contractor_step_throws_inherited (uuid : string) (m : obj Contractor) (r : row) :
  own m (ToString (cell r 4)) = None ->
  inherited (ToString (cell r 4)) = true ->
  exists e, contractor_step uuid m r = Thrown e.
Proof.
  intros Hown Hinh. unfold contractor_step.
  rewrite (get_property_inherited _ _ Hown Hinh). cbv iota.
  destruct (new_deduction uuid r) as [d|e]; cbn [bind].
  - rewrite (get_property_inherited _ _ Hown Hinh). eauto.
  - eauto.
Qed.

Lemma contractor_step_returned (uuid : string) (m m' : obj Contractor) (r : row) :
  contractor_step uuid m r = Returned m' ->
  exists d,
    new_deduction uuid r = Returned d
    /\ (own m (ToString (cell r 4)) = None -> inherited (ToString (cell r 4)) = false)
    /\ m' = add_deduction m r d.
Proof.
  intros H.
  destruct (new_deduction uuid r) as [d|e] eqn:Hd.
  - assert (Hk : own m (ToString (cell r 4)) = None -> inherited (ToString (cell r 4)) = false).
    { intros Hown. destruct (inherited (ToString (cell r 4))) eqn:Hinh; [|reflexivity].
      destruct (contractor_step_throws_inherited uuid m r Hown Hinh) as [e He].
      rewrite He in H. discriminate. }
    exists d. split; [reflexivity|]. split; [exact Hk|].
    rewrite (contractor_step_returns _ _ _ _ Hd Hk) in H. congruence.
  - unfold contractor_step in H. rewrite Hd in H. discriminate.
Qed.

Lemma fill_contractors_snoc (fresh : nat -> string) (rows : list row) (r : row) :
  forall n m,
    fill_contractors fresh n (rows ++ [r]) m
    = (m1 <- fill_contractors fresh n rows m ;;
       contractor_step (fresh (n + List.length rows)) m1 r).
Proof.
  induction rows as [|r0 rows IH]; intros n m; simpl.
  - rewrite Nat.add_0_r. destruct (contractor_step (fresh n) m r); reflexivity.
  - destruct (contractor_step (fresh n) m r0) as [m1|e]; simpl; [|reflexivity].
    rewrite IH. rewrite Nat.add_succ_r. reflexivity.
Qed.

Lemma rows_of_name_snoc (k : string) (rows : list row) (r : row) :
  rows_of_name k (rows ++ [r])
  = rows_of_name k rows ++ (if (ToString (cell r 4) =? k)%string then [r] else []).
Proof. unfold rows_of_name. rewrite filter_app. reflexivity. Qed.

Lemma built_from_snoc (mine : list row) (c : Contractor) (r : row) (d : Deduction) :
  built_from mine c -> item_of_row r d ->
  built_from (mine ++ [r]) (push_deduction c d).
Proof.
  destruct mine as [|first mine]; simpl; [contradiction|].
  intros (Hid & Hname & Hnotes & Hitems) Hd.
  repeat split; try assumption.
  change (first :: mine ++ [r]) with ((first :: mine) ++ [r]).
  apply Forall2_app; [exact Hitems | repeat constructor; exact Hd].
Qed.

Lemma filled_step (rows : list row) (m : obj Contractor) (r : row) (d : Deduction) :
  filled rows m -> item_of_row r d -> filled (rows ++ [r]) (add_deduction m r d).
Proof.
  intros [Hnd Hall] Hd. split.
  - apply set_property_NoDup. exact Hnd.
  - intros k. rewrite rows_of_name_snoc. unfold add_deduction.
    destruct (ToString (cell r 4) =? k)%string eqn:E.
    + apply String.eqb_eq in E. subst k. rewrite own_set_same.
      specialize (Hall (ToString (cell r 4))).
      destruct (own m (ToString (cell r 4))) as [c|].
      * apply built_from_snoc; assumption.
      * rewrite Hall. simpl. repeat split. repeat constructor. exact Hd.
    + apply String.eqb_neq in E. rewrite own_set_other by congruence.
      rewrite app_nil_r. apply Hall.
Qed.

Lemma fill_contractors_filled (fresh : nat -> string) (rows : list row) :
  forall n m, fill_contractors fresh n rows [] = Returned m -> filled rows m.
Proof.
  induction rows as [|r rows IH] using rev_ind; intros n m H.
  - simpl in H. inversion H; subst. split; [constructor | intros k; reflexivity].
  - rewrite fill_contractors_snoc in H.
    destruct (fill_contractors fresh n rows []) as [m1|e] eqn:E; simpl in H; [|discriminate].
    apply contractor_step_returned in H. destruct H as (d & Hd & _ & ->).
    apply filled_step; [eapply IH; eauto | eexists; exact Hd].
Qed.

(** The name of a contractor of the map is its key. *)
Lemma filled_key (rows : list row) (m : obj Contractor) (k : string) (c : Contractor) :
  filled rows m -> In (k, c) m ->
  ToString (contractorName c) = k /\ built_from (rows_of_name k rows) c.
Proof.
  intros [Hnd Hall] Hin. apply (In_own _ _ _ Hnd) in Hin.
  specialize (Hall k). rewrite Hin in Hall. split; [|exact Hall].
  destruct (rows_of_name k rows) as [|first rest] eqn:E; [contradiction|].
  destruct Hall as (_ & Hname & _). rewrite Hname.
  assert (Hf : In first (rows_of_name k rows)) by (rewrite E; left; reflexivity).
  unfold rows_of_name in Hf. apply filter_In in Hf. destruct Hf as [_ Hf].
  apply String.eqb_eq in Hf. exact Hf.
Qed.

(** ** One report per group *)

Lemma build_submissions_Forall2 (fresh : nat -> string) (entries : list (string * list row)) :
  forall n subs,
    build_submissions fresh n entries = Returned subs ->
    Forall2 (fun entry s => exists n', build_submission fresh n' entry = Returned s)
            entries subs.
Proof.
  induction entries as [|entry entries IH]; intros n subs H; simpl in H.
  - inversion H; subst. constructor.
  - destruct (build_submission fresh n entry) as [s|e] eqn:E; simpl in H; [|discriminate].
    destruct (build_submissions fresh (n + List.length (snd entry)) entries) as [ss|e] eqn:E';
      simpl in H; [|discriminate].
    inversion H; subst. constructor; eauto.
Qed.

(** What [build_submission] returns for a group. *)
Lemma build_submission_returned (fresh : nat -> string) (n : nat) (k : string)
    (grp : list row) (s : Submission) :
  build_submission fresh n (k, grp) = Returned s ->
  exists first rest m,
    grp = first :: rest
    /\ fill_contractors fresh n grp [] = Returned m
    /\ timestamp s = k
    /\ reportId s = ("report-" ++ replace_space_colon k)%string
    /\ userEmail s = cell first 2
    /\ status s = or_else (cell first 14) (VStr PENDING)
    /\ company s = cell first 3
    /\ contractors s = Object_values m
    /\ grandTotal s = report_grandTotal (contractors s).
Proof.
  unfold build_submission. destruct grp as [|first rest]; [discriminate|].
  destruct (fill_contractors fresh n (first :: rest) []) as [m|e] eqn:E; simpl; [|discriminate].
  intros [= <-]. exists first, rest, m. simpl. repeat split; reflexivity.
Qed.

(** ** The final sort *)

Lemma sort_insert_perm {A : Type} (cmp : A -> A -> float) (x : A) (l : list A) :
  Permutation (sort_insert cmp x l) (x :: l).
Proof.
  induction l as [|y l IH]; simpl; [reflexivity|].
  destruct (0 <? cmp x y)%float; [|reflexivity].
  rewrite IH. apply perm_swap.
Qed.

Lemma Array_sort_perm {A : Type} (cmp : A -> A -> float) (l : list A) :
  Permutation (Array_sort cmp l) l.
Proof.
  induction l as [|x l IH]; simpl; [reflexivity|].
  rewrite sort_insert_perm. constructor. exact IH.
Qed.

Lemma compare_submissions_after (a b : Submission) :
  (0 <? compare_submissions a b)%float = str_lt (timestamp a) (timestamp b).
Proof.
  unfold compare_submissions.
  destruct (str_lt (timestamp a) (timestamp b)); [reflexivity|].
  destruct (str_lt (timestamp b) (timestamp a)); reflexivity.
Qed.

Lemma sort_insert_sorted (x : Submission) (l : list Submission) :
  StronglySorted not_older l ->
  StronglySorted not_older (sort_insert compare_submissions x l).
Proof.
  induction 1 as [|y l Hl IH Hy]; simpl.
  - repeat constructor.
  - rewrite compare_submissions_after.
    destruct (str_lt (timestamp x) (timestamp y)) eqn:E.
    + constructor; [exact IH|].
      apply Forall_forall. intros z Hz.
      apply (Permutation_in _ (sort_insert_perm compare_submissions x l)) in Hz.
      destruct Hz as [<- | Hz].
      * apply str_lt_asym. exact E.
      * rewrite Forall_forall in Hy. auto.
    + constructor; [constructor; assumption|].
      constructor; [exact E|].
      apply Forall_forall. intros z Hz. rewrite Forall_forall in Hy.
      unfold not_older in *. eapply str_ge_trans; [exact E | auto].
Qed.

Lemma Array_sort_sorted (l : list Submission) :
  StronglySorted not_older (Array_sort compare_submissions l).
Proof.
  induction l as [|x l IH]; simpl; [constructor | apply sort_insert_sorted; exact IH].
Qed.

Lemma StronglySorted_nth {A : Type} (R : A -> A -> Prop) (l : list A) :
  StronglySorted R l ->
  forall i j a b, i < j -> nth_error l i = Some a -> nth_error l j = Some b -> R a b.
Proof.
  induction 1 as [|x l Hl IH Hx]; intros i j a b Hij Ha Hb.
  - destruct i; discriminate.
  - destruct j as [|j]; [apply Nat.nlt_0_r in Hij; contradiction|]. simpl in Hb.
    destruct i as [|i]; simpl in Ha.
    + inversion Ha; subst. rewrite Forall_forall in Hx. apply Hx.
      eapply nth_error_In; eauto.
    + apply (IH i j a b); [apply Nat.succ_lt_mono; exact Hij | exact Ha | exact Hb].
Qed.

Lemma NoDup_nth_neq {A : Type} (l : list A) :
  NoDup l -> forall i j a b, i < j -> nth_error l i = Some a -> nth_error l j = Some b -> a <> b.
Proof.
  intros Hnd i j a b Hij Ha Hb Heq. subst b.
  assert (Hi : i < List.length l) by (apply nth_error_Some; congruence).
  pose proof (proj1 (NoDup_nth_error l) Hnd i j Hi) as H.
  rewrite Ha, Hb in H. specialize (H eq_refl). lia.
Qed.

(** ** The reconstruction as a whole *)

(** The groups of [rows], the reports built from them one by one, and the
    sorted result. *)
Lemma parseSubmissionsFromRows_returned (fresh : nat -> string) (rows : list row)
    (subs : list Submission) :
  parseSubmissionsFromRows fresh rows = Returned subs ->
  exists groups unsorted,
    groupedByTimestamp rows = Returned groups
    /\ NoDup (map fst groups)
    /\ (forall k grp, In (k, grp) groups -> grp = rows_of_key k rows /\ grp <> [])
    /\ (forall r, In r rows -> In (timestampKey r, rows_of_key (timestampKey r) rows) groups)
    /\ Forall2 (fun entry s => exists n, build_submission fresh n entry = Returned s)
               groups unsorted
    /\ subs = Array_sort compare_submissions unsorted.
Proof.
  unfold parseSubmissionsFromRows. intros H.
  destruct (groupedByTimestamp_spec rows) as (groups & Hg & Hnd & Hsp & Hgrp & Hrow).
  rewrite Hg in H. cbn [bind] in H.
  rewrite Object_entries_no_index in H.
  2:{ eapply Forall_impl; [|exact Hsp]. intros kv. apply array_index_space. }
  destruct (build_submissions fresh 0 groups) as [unsorted|e] eqn:E; cbn [bind] in H;
    [|discriminate].
  inversion H; subst. exists groups, unsorted.
  split; [exact Hg|]. split; [exact Hnd|]. split; [exact Hgrp|]. split; [exact Hrow|].
  split; [|reflexivity].
  eapply build_submissions_Forall2; eauto.
Qed.

Lemma Forall2_timestamps (fresh : nat -> string) (groups : list (string * list row))
    (unsorted : list Submission) :
  Forall2 (fun entry s => exists n, build_submission fresh n entry = Returned s)
          groups unsorted ->
  map timestamp unsorted = map fst groups.
Proof.
  induction 1 as [|[k grp] s groups unsorted [n Hs] _ IH]; simpl; [reflexivity|].
  apply build_submission_returned in Hs.
  destruct Hs as (first & rest & m & _ & _ & Hts & _). rewrite Hts, IH. reflexivity.
Qed.

Lemma parse_timestamps_NoDup (fresh : nat -> string) (rows : list row)
    (subs : list Submission) :
  parseSubmissionsFromRows fresh rows = Returned subs -> NoDup (map timestamp subs).
Proof.
  intros H. apply parseSubmissionsFromRows_returned in H.
  destruct H as (groups & unsorted & _ & Hnd & _ & _ & Hall & ->).
  apply (Permutation_NoDup (l := map timestamp unsorted)).
  - apply Permutation_map, Permutation_sym, Array_sort_perm.
  - rewrite (Forall2_timestamps _ _ _ Hall). exact Hnd.
Qed.

(** Every report comes from one group: the rows of its timestamp. *)
Lemma parse_report_group (fresh : nat -> string) (rows : list row)
    (subs : list Submission) (s : Submission) :
  parseSubmissionsFromRows fresh rows = Returned subs -> In s subs ->
  exists n, build_submission fresh n (timestamp s, rows_of_key (timestamp s) rows) = Returned s.
Proof.
  intros H Hs. apply parseSubmissionsFromRows_returned in H.
  destruct H as (groups & unsorted & _ & _ & Hgrp & _ & Hall & ->).
  apply (Permutation_in _ (Array_sort_perm _ _)) in Hs.
  clear - Hgrp Hall Hs.
  induction Hall as [|[k grp] s' groups unsorted [n Hs'] Hall IH]; [contradiction|].
  destruct Hs as [<- | Hs].
  - pose proof (build_submission_returned _ _ _ _ _ Hs') as (first & rest & m & _ & _ & Hts & _).
    destruct (Hgrp k grp (or_introl eq_refl)) as [Hk _].
    exists n. rewrite Hts, <- Hk. exact Hs'.
  - apply IH; [|exact Hs]. intros k' grp' Hin. apply Hgrp. right. exact Hin.
Qed.

Lemma sample_reports_parsed :
  parseSubmissionsFromRows sample_uuid [may_row_1; may_row_2; june_row]
  = Returned sample_reports.
Proof. vm_compute. reflexivity. Qed.

(** C6. The reports that the reconstruction returns are in descending order
    of their timestamp strings: of two reports of the output, the one that
    comes first has the lexically greater timestamp. *)
Theorem reports_sorted_descending (fresh : nat -> string) (rows : list row)
    (subs : list Submission) :
  parseSubmissionsFromRows fresh rows = Returned subs ->
  forall i j a b,
    i < j -> nth_error subs i = Some a -> nth_error subs j = Some b ->
    str_lt (timestamp b) (timestamp a) = true.
Proof.
  intros H i j a b Hij Ha Hb.
  pose proof (parse_timestamps_NoDup _ _ _ H) as Hnd.
  apply parseSubmissionsFromRows_returned in H.
  destruct H as (groups & unsorted & _ & _ & _ & _ & _ & ->).
  pose proof (StronglySorted_nth _ _ (Array_sort_sorted unsorted) i j a b Hij Ha Hb) as Hab.
  unfold not_older in Hab.
  destruct (str_lt (timestamp b) (timestamp a)) eqn:Hba; [reflexivity|].
  exfalso.
  apply (NoDup_nth_neq _ Hnd i j (timestamp a) (timestamp b) Hij).
  - apply map_nth_error. exact Ha.
  - apply map_nth_error. exact Hb.
  - apply str_lt_total; assumption.
Qed.

(** The report of 2024-06-01 10:00 comes before the one of 2024-05-01 09:00. *)
Lemma reports_sorted_descending_witness :
  parseSubmissionsFromRows sample_uuid [may_row_1; may_row_2; june_row]
    = Returned sample_reports
  /\ map timestamp sample_reports = ["2024-06-01 10:00"; "2024-05-01 09:00"]
  /\ str_lt "2024-05-01 09:00" "2024-06-01 10:00" = true.
Proof.
  split; [vm_compute; reflexivity|].
  split; [reflexivity|].
  exact (reports_sorted_descending sample_uuid [may_row_1; may_row_2; june_row]
           sample_reports sample_reports_parsed 0 1
           (nth 0 sample_reports (mkSubmission "" "" VUndef VUndef VUndef [] 0))
           (nth 1 sample_reports (mkSubmission "" "" VUndef VUndef VUndef [] 0))
           (le_n 1) eq_refl eq_refl).
Defined.

(** ** The totals *)

(** The grand total of a reconstructed report is the sum, over its
    contractors and their line items, of quantity times unit price. *)
Lemma grandTotal_recomputed (fresh : nat -> string) (rows : list row)
    (subs : list Submission) (s : Submission) :
  parseSubmissionsFromRows fresh rows = Returned subs -> In s subs ->
  grandTotal s = report_grandTotal (contractors s).
Proof.
  intros H Hs. destruct (parse_report_group _ _ _ _ H Hs) as [n Hb].
  apply build_submission_returned in Hb.
  destruct Hb as (first & rest & m & _ & _ & _ & _ & _ & _ & _ & _ & Ht). exact Ht.
Qed.

(** C2. The report of 2024-05-01 09:00 has the line items 2 x 3 and
    "abc" x 10.  Counting the second one as 0, as [calculateTotal] and
    [submitDeductions] do, the total is 6; the reconstruction returns NaN. *)
Theorem grandTotal_nan_for_non_numeric_cell :
  parseSubmissionsFromRows sample_uuid [may_row_1; may_row_2] = Returned [may_report]
  /\ map (fun c => map (fun d => (quantity d, unitPrice d)) (deductions c))
         (contractors may_report)
     = [[(VNum 2, VNum 3); (VNum nan, VNum 10)]]
  /\ payload_grandTotal (contractors may_report) = 6%float
  /\ grandTotal may_report = nan.
Proof.
  split; [vm_compute; reflexivity|].
  split; [reflexivity|].
  split; [vm_compute; reflexivity | reflexivity].
Qed.

(** C5. The cell "12.5 متر مربع" gives the value 12.5 and the unit "متر": the
    cell is split at every space and only the first two pieces are kept, so
    the second word of the unit is lost.  An empty cell and a missing cell
    give the unset value and the empty unit. *)
Theorem meter_equivalent_unit_cut_at_second_space (uuid : string) :
  (exists d,
      new_deduction uuid may_row_1 = Returned d
      /\ cell may_row_1 8 = VStr "12.5 متر مربع"
      /\ meterEquivalentValue d = VNum 12.5
      /\ meterEquivalentUnit d = VStr "متر"
      /\ meterEquivalentUnit d <> VStr "متر مربع")
  /\ (exists d,
         new_deduction uuid may_row_2 = Returned d
         /\ cell may_row_2 8 = VStr ""
         /\ meterEquivalentValue d = VStr ""
         /\ meterEquivalentUnit d = VStr "")
  /\ (exists d,
         new_deduction uuid (text_cells ["2024-05-01"; "09:00"]) = Returned d
         /\ cell (text_cells ["2024-05-01"; "09:00"]) 8 = VUndef
         /\ meterEquivalentValue d = VStr ""
         /\ meterEquivalentUnit d = VStr "").
Proof.
  split; [|split]; eexists; (split; [reflexivity|]); repeat split; try reflexivity.
  simpl. discriminate.
Qed.

(** ** The contractors of a report *)

(** C4. In a reconstructed report, a contractor stands for the rows of the
    report's group whose contractor-name cell reads as its name: its name and
    its notes are those of the first of these rows (the notes cell, or the
    empty string when it is empty or missing), whatever the notes of the later
    rows; its line items are built from these rows, in order.  There is one
    contractor per name, and every row of the group has its contractor. *)
Theorem contractor_notes_from_first_row (fresh : nat -> string) (rows : list row)
    (subs : list Submission) (s : Submission) (c : Contractor) :
  parseSubmissionsFromRows fresh rows = Returned subs ->
  In s subs -> In c (contractors s) ->
  (exists first rest,
      rows_of_name (ToString (contractorName c)) (rows_of_key (timestamp s) rows)
        = first :: rest
      /\ contractorName c = cell first 4
      /\ notes c = or_else (cell first 13) (VStr "")
      /\ Forall2 item_of_row (first :: rest) (deductions c))
  /\ (forall c', In c' (contractors s) ->
                 ToString (contractorName c') = ToString (contractorName c) -> c' = c)
  /\ (forall r, In r (rows_of_key (timestamp s) rows) ->
                exists c', In c' (contractors s)
                           /\ ToString (contractorName c') = ToString (cell r 4)).
Proof.
  intros H Hs Hc.
  destruct (parse_report_group _ _ _ _ H Hs) as [n Hb].
  apply build_submission_returned in Hb.
  destruct Hb as (first0 & rest0 & m & _ & Hfill & _ & _ & _ & _ & _ & Hcs & _).
  apply fill_contractors_filled in Hfill.
  set (grp := rows_of_key (timestamp s) rows) in *.
  assert (Hkey : forall c0, In c0 (contractors s) ->
                            In (ToString (contractorName c0), c0) m).
  { intros c0 Hc0. rewrite Hcs in Hc0.
    apply (Permutation_in _ (Object_values_perm m)) in Hc0.
    apply in_map_iff in Hc0. destruct Hc0 as [[k c1] [Heq Hin]]. simpl in Heq. subst c1.
    destruct (filled_key _ _ _ _ Hfill Hin) as [-> _]. exact Hin. }
  split; [|split].
  - destruct (filled_key _ _ _ _ Hfill (Hkey c Hc)) as [_ Hbuilt].
    unfold built_from in Hbuilt.
    destruct (rows_of_name (ToString (contractorName c)) grp) as [|first rest];
      [contradiction|].
    destruct Hbuilt as (_ & Hname & Hnotes & Hitems).
    exists first, rest. repeat split; assumption.
  - intros c' Hc' Hname.
    pose proof (Hkey c' Hc') as Hin'. rewrite Hname in Hin'.
    pose proof (Hkey c Hc) as Hin.
    destruct Hfill as [Hnd _].
    apply (In_own _ _ _ Hnd) in Hin. apply (In_own _ _ _ Hnd) in Hin'. congruence.
  - intros r Hr.
    pose proof (proj2 Hfill (ToString (cell r 4))) as Hall.
    destruct (own m (ToString (cell r 4))) as [c'|] eqn:E.
    + apply own_In in E. exists c'. split.
      * rewrite Hcs. apply (Permutation_in _ (Permutation_sym (Object_values_perm m))).
        apply in_map_iff. exists (ToString (cell r 4), c'). split; [reflexivity | exact E].
      * apply (filled_key _ _ _ _ Hfill E).
    + exfalso.
      assert (Hin : In r (rows_of_name (ToString (cell r 4)) grp)).
      { unfold rows_of_name. apply filter_In. split; [exact Hr | apply String.eqb_refl]. }
      rewrite Hall in Hin. contradiction.
Qed.

(** Two rows of one report under one contractor name, with different notes:
    one contractor, two line items, the notes of the first row. *)
Lemma contractor_notes_from_first_row_witness :
  exists s c,
    parseSubmissionsFromRows sample_uuid [may_row_1; may_row_2] = Returned [s]
    /\ contractors s = [c]
    /\ List.length (deductions c) = 2
    /\ cell may_row_1 13 = VStr "first note"
    /\ cell may_row_2 13 = VStr "second note"
    /\ notes c = VStr "first note".
Proof.
  pose (subs := reports_of (parseSubmissionsFromRows sample_uuid [may_row_1; may_row_2])).
  pose (s := nth 0 subs (mkSubmission "" "" VUndef VUndef VUndef [] 0)).
  pose (c := nth 0 (contractors s) (mkContractor "" VUndef VUndef [])).
  assert (Hparse : parseSubmissionsFromRows sample_uuid [may_row_1; may_row_2] = Returned subs)
    by (vm_compute; reflexivity).
  assert (Hs : In s subs) by (left; reflexivity).
  assert (Hc : In c (contractors s)) by (left; reflexivity).
  destruct (contractor_notes_from_first_row sample_uuid [may_row_1; may_row_2] subs s c
              Hparse Hs Hc) as [(first & rest & Hmine & Hname & Hnotes & Hitems) _].
  exists s, c.
  split; [vm_compute; reflexivity|].
  split; [reflexivity|].
  split; [reflexivity|].
  split; [reflexivity|].
  split; [reflexivity|].
  assert (Hfirst : first = may_row_1).
  { vm_compute in Hmine. inversion Hmine. reflexivity. }
  rewrite Hnotes, Hfirst. reflexivity.
Defined.

(** ** Rows of one date and time *)

Lemma key_split (d1 : string) :
  forall d2 t1 t2,
    has_space d1 = false -> has_space d2 = false ->
    (d1 ++ " " ++ t1)%string = (d2 ++ " " ++ t2)%string ->
    d1 = d2 /\ t1 = t2.
Proof.
  induction d1 as [|c d1 IH]; intros [|c' d2] t1 t2 H1 H2 Heq; simpl in *.
  - inversion Heq. auto.
  - inversion Heq; subst c'. simpl in H2. discriminate.
  - inversion Heq; subst c. simpl in H1. discriminate.
  - inversion Heq; subst c'.
    apply orb_false_iff in H1. apply orb_false_iff in H2.
    destruct (IH d2 t1 t2) as [-> ->]; tauto.
Qed.

Lemma dated_key_iff_cells (r1 r2 : row) :
  dated r1 = true -> dated r2 = true ->
  (timestampKey r1 = timestampKey r2 <-> cell r1 0 = cell r2 0 /\ cell r1 1 = cell r2 1).
Proof.
  unfold dated, timestampKey. intros H1 H2.
  destruct (cell r1 0) as [|d1|]; try discriminate.
  destruct (cell r1 1) as [|t1|]; try discriminate.
  destruct (cell r2 0) as [|d2|]; try discriminate.
  destruct (cell r2 1) as [|t2|]; try discriminate.
  apply negb_true_iff in H1. apply negb_true_iff in H2. simpl.
  split.
  - intros Heq. destruct (key_split _ _ _ _ H1 H2 Heq) as [-> ->]. auto.
  - intros [[= ->] [= ->]]. reflexivity.
Qed.

Lemma text_row_cell (r : row) (i : nat) :
  text_row r = true -> cell r i = VUndef \/ exists s, cell r i = VStr s.
Proof.
  unfold text_row, cell. revert i.
  induction r as [|v r IH]; intros i H; simpl in *.
  - left. destruct i; reflexivity.
  - apply andb_true_iff in H. destruct H as [Hv Hr].
    destruct i as [|i].
    + destruct v; try discriminate. right. eauto.
    + apply IH. exact Hr.
Qed.

(** A row of text always gives a line item. *)
Lemma new_deduction_text_row (uuid : string) (r : row) :
  text_row r = true -> exists d, new_deduction uuid r = Returned d.
Proof.
  intros H. unfold new_deduction.
  destruct (text_row_cell r 8 H) as [-> | [s ->]].
  - simpl. eauto.
  - unfold or_else. destruct (truthy (VStr s)); eauto.
Qed.

Lemma sort_singleton (s : Submission) :
  Array_sort compare_submissions [s] = [s].
Proof. reflexivity. Qed.

Lemma build_submission_filled (fresh : nat -> string) (n : nat) (k : string)
    (first : row) (rest : list row) (m : obj Contractor) :
  fill_contractors fresh n (first :: rest) [] = Returned m ->
  build_submission fresh n (k, first :: rest)
  = Returned {| reportId := ("report-" ++ replace_space_colon k)%string;
                timestamp := k;
                userEmail := cell first 2;
                status := or_else (cell first 14) (VStr PENDING);
                company := cell first 3;
                contractors := Object_values m;
                grandTotal := report_grandTotal (Object_values m) |}.
Proof. unfold build_submission. intros ->. reflexivity. Qed.

(** Two rows of one key under two names that no object inherits: one report
    with the two contractors. *)
Lemma two_contractors_one_report (fresh : nat -> string) (r1 r2 : row) (n1 n2 : string) :
  timestampKey r1 = timestampKey r2 ->
  cell r1 4 = VStr n1 -> cell r2 4 = VStr n2 -> n1 <> n2 ->
  inherited n1 = false -> inherited n2 = false ->
  text_row r1 = true -> text_row r2 = true ->
  exists s c1 c2,
    parseSubmissionsFromRows fresh [r1; r2] = Returned [s]
    /\ Permutation (contractors s) [c1; c2]
    /\ contractorName c1 = VStr n1
    /\ contractorName c2 = VStr n2.
Proof.
  intros Hk Hn1 Hn2 Hne Hi1 Hi2 Ht1 Ht2.
  destruct (new_deduction_text_row (fresh 0) r1 Ht1) as [d1 Hd1].
  destruct (new_deduction_text_row (fresh 1) r2 Ht2) as [d2 Hd2].
  set (m1 := add_deduction [] r1 d1).
  set (m2 := add_deduction m1 r2 d2).
  assert (Hfill : fill_contractors fresh 0 [r1; r2] [] = Returned m2).
  { simpl.
    rewrite (contractor_step_returns _ _ _ _ Hd1) by (intros _; rewrite Hn1; exact Hi1).
    cbn [bind].
    rewrite (contractor_step_returns _ _ _ _ Hd2) by (intros _; rewrite Hn2; exact Hi2).
    reflexivity. }
  assert (Hm2 : m2 = [(n1, push_deduction (new_contractor r1) d1);
                      (n2, push_deduction (new_contractor r2) d2)]).
  { unfold m2, m1, add_deduction. rewrite Hn1, Hn2. simpl.
    assert (E : (n1 =? n2)%string = false) by (apply String.eqb_neq; exact Hne).
    rewrite E. reflexivity. }
  unfold parseSubmissionsFromRows, groupedByTimestamp.
  rewrite reduce_group_step. simpl fold_left.
  unfold add_to_group at 2. simpl own. simpl set_property.
  unfold add_to_group. simpl own. rewrite Hk, String.eqb_refl. simpl set_property.
  rewrite String.eqb_refl. cbn [bind].
  rewrite Object_entries_no_index.
  2:{ repeat constructor. simpl. apply array_index_space, timestampKey_space. }
  cbn [build_submissions].
  rewrite (build_submission_filled _ _ _ _ _ _ Hfill). cbn [bind]. rewrite sort_singleton.
  eexists _, (push_deduction (new_contractor r1) d1), (push_deduction (new_contractor r2) d2).
  split; [reflexivity|]. simpl contractors.
  split; [|split].
  - rewrite Object_values_perm, Hm2. reflexivity.
  - simpl. exact Hn1.
  - simpl. exact Hn2.
Qed.

(** ** Runs that stop at the first failure of the store *)

Lemma stops_at_failure_app (a b : list event) :
  has_failure a = false -> stops_at_failure b = true -> stops_at_failure (a ++ b) = true.
Proof.
  induction a as [|e a IH]; simpl; intros Ha Hb; [exact Hb|].
  apply orb_false_iff in Ha. destruct Ha as [He Ha]. rewrite He. auto.
Qed.

Lemma has_failure_app (a b : list event) :
  has_failure (a ++ b) = has_failure a || has_failure b.
Proof. unfold has_failure. apply existsb_app. Qed.

Section Runs.

Context {A : Type}.

Lemma fail_fast_ret (a : A) : fail_fast (ret a).
Proof.
  intros w. exists []. unfold appends. simpl. rewrite app_nil_r.
  repeat split; try reflexivity. discriminate.
Qed.

Lemma fail_fast_throw (e : JsError) : fail_fast (@throw A e).
Proof.
  intros w. exists []. unfold appends. simpl. rewrite app_nil_r.
  repeat split; reflexivity.
Qed.

Lemma fail_fast_lift (o : outcome A) : fail_fast (lift o).
Proof.
  intros w. exists []. unfold appends. simpl. rewrite app_nil_r.
  repeat split; try reflexivity. discriminate.
Qed.

Lemma fail_fast_call_store (r : request) (answer : list event -> outcome A) :
  fail_fast (call_store r answer).
Proof.
  intros w. exists [Called r (is_thrown (answer (journal w)))].
  unfold appends, call_store. simpl.
  repeat split; try reflexivity.
  - destruct (is_thrown (answer (journal w))); reflexivity.
  - unfold has_failure. simpl. rewrite orb_false_r. auto.
Qed.

Lemma fail_fast_bind {B : Type} (m : M A) (k : A -> M B) :
  fail_fast m -> (forall a, fail_fast (k a)) -> fail_fast (mbind m k).
Proof.
  intros Hm Hk w.
  destruct (Hm w) as (added1 & Hj1 & Hmock1 & Hcalls1 & Hstop1 & Hfail1).
  unfold mbind, appends in *.
  revert Hj1 Hmock1 Hfail1.
  destruct (m w) as [[a|e] w1] eqn:E; simpl; intros Hj1 Hmock1 Hfail1.
  - destruct (Hk a w1) as (added2 & Hj2 & Hmock2 & Hcalls2 & Hstop2 & Hfail2).
    unfold appends in Hj2.
    assert (Hnone : has_failure added1 = false).
    { destruct (has_failure added1); [|reflexivity]. discriminate (Hfail1 eq_refl). }
    exists (added1 ++ added2).
    split; [rewrite Hj2, Hj1, <- app_assoc; reflexivity|].
    split; [congruence|].
    split; [rewrite forallb_app, Hcalls1, Hcalls2; reflexivity|].
    split; [apply stops_at_failure_app; assumption|].
    rewrite has_failure_app, Hnone. exact Hfail2.
  - exists added1. repeat split; auto.
Qed.

(** A handler that makes no call keeps the journal of the body. *)
Lemma try_catch_appends (m : M A) (handler : JsError -> M A) (w : world)
    (added : list event) :
  (forall e w', snd (handler e w') = w') ->
  appends m w added -> appends (try_catch m handler) w added.
Proof.
  unfold appends, try_catch. intros Hh.
  destruct (m w) as [[a|e] w1]; simpl; intros Hj; [exact Hj|].
  rewrite Hh. exact Hj.
Qed.

Lemma fail_fast_rethrow (m : M A) (describe : JsError -> JsError) :
  fail_fast m -> fail_fast (try_catch m (fun e => throw (describe e))).
Proof.
  intros Hm w. destruct (Hm w) as (added & Hj & Hmock & Hcalls & Hstop & Hfail).
  exists added.
  split; [apply try_catch_appends; [reflexivity | exact Hj]|].
  clear Hj. revert Hmock Hfail.
  unfold try_catch. destruct (m w) as [[a|e] w1]; simpl; repeat split; auto.
Qed.

Lemma reraises_rethrow (m : M A) (describe : JsError -> JsError) :
  fail_fast m -> reraises (try_catch m (fun e => throw (describe e))) describe.
Proof.
  intros Hm w. destruct (Hm w) as (added & Hj & _ & _ & Hstop & Hfail).
  exists added.
  split; [apply try_catch_appends; [reflexivity | exact Hj]|].
  split; [exact Hstop|].
  intros Hf. specialize (Hfail Hf). revert Hfail. unfold try_catch.
  destruct (m w) as [[a|e] w1]; simpl; intros Hfail; [discriminate | eauto].
Qed.

Lemma swallows_catch (m : M A) (fallback : A) :
  fail_fast m -> swallows (try_catch m (fun _ => ret fallback)) fallback.
Proof.
  intros Hm w. destruct (Hm w) as (added & Hj & _ & _ & Hstop & Hfail).
  exists added.
  split; [apply try_catch_appends; [reflexivity | exact Hj]|].
  split; [exact Hstop|].
  intros Hf. specialize (Hfail Hf). revert Hfail. unfold try_catch.
  destruct (m w) as [[a|e] w1]; simpl; intros Hfail; [discriminate | reflexivity].
Qed.

End Runs.

Lemma fail_fast_now_in_cairo (rt : Runtime) : fail_fast (now_in_cairo rt).
Proof.
  intros w. exists []. unfold appends. simpl. rewrite app_nil_r.
  repeat split; try reflexivity. discriminate.
Qed.

Lemma fail_fast_parse_rows (rt : Runtime) (rows : list row) : fail_fast (parse_rows rt rows).
Proof.
  intros w. exists []. unfold appends. simpl. rewrite app_nil_r.
  repeat split; try reflexivity. discriminate.
Qed.

(** Steps through a computation built from the calls of the store; [known]
    closes the computations already shown to stop at the first failure. *)
Ltac fail_fast_with known :=
  repeat first
    [ known
    | apply fail_fast_ret
    | apply fail_fast_throw
    | apply fail_fast_lift
    | apply fail_fast_call_store
    | apply fail_fast_now_in_cairo
    | apply fail_fast_parse_rows
    | apply fail_fast_rethrow
    | apply fail_fast_bind; [|intros ?]
    | progress cbv zeta
    | match goal with
      | |- fail_fast (if ?b then _ else _) => destruct b
      | |- fail_fast (match ?x with _ => _ end) => destruct x
      end ].

Lemma fail_fast_ensureSheetAndHeaders (rt : Runtime) (sheetName : string)
    (headers : list string) :
  fail_fast (ensureSheetAndHeaders rt sheetName headers).
Proof.
  unfold ensureSheetAndHeaders, sheets_get, sheets_addSheet, sheets_values_get,
    sheets_values_update.
  fail_fast_with fail.
Qed.

Ltac fail_fast_action :=
  fail_fast_with ltac:(apply fail_fast_ensureSheetAndHeaders).

(** ** The submit action *)

Lemma submitDeductions_unfold (rt : Runtime) (payload : SubmitDeductionsPayload) (w : world) :
  submitDeductions rt payload w = send_rows rt payload (after_push rt payload w).
Proof. reflexivity. Qed.

Lemma fail_fast_send_rows (rt : Runtime) (payload : SubmitDeductionsPayload) :
  fail_fast (send_rows rt payload).
Proof.
  unfold send_rows, sheets_values_append.
  destruct (getSheetsApi rt); fail_fast_action.
Qed.

(** C10. Every call of [submitDeductions] appends exactly one entry to
    [mockSubmissions], before any call of the store: the entry has the value
    drawn from [randomUUID] as its report id, the current ISO timestamp and
    the pending-review status, and everything the call does afterwards is
    calls of the store, whether it returns or throws and whether the store is
    configured or not. *)
Theorem submit_always_pushes_one_entry (rt : Runtime) (payload : SubmitDeductionsPayload)
    (w : world) :
  exists entry calls,
    mockSubmissions (snd (submitDeductions rt payload w)) = mockSubmissions w ++ [entry]
    /\ journal (snd (submitDeductions rt payload w)) = journal w ++ Pushed entry :: calls
    /\ forallb is_call calls = true
    /\ reportId entry = uuid_stream rt (uuids_drawn w)
    /\ timestamp entry = toISOString_at rt (clock_reads w)
    /\ status entry = VStr PENDING
    /\ userEmail entry = VStr (p_userEmail payload)
    /\ contractors entry = p_contractors payload.
Proof.
  rewrite submitDeductions_unfold.
  destruct (fail_fast_send_rows rt payload (after_push rt payload w))
    as (calls & Hj & Hmock & Hcalls & _ & _).
  exists (pushed_entry rt payload w), calls.
  unfold appends in Hj. rewrite Hj, Hmock. simpl.
  rewrite <- app_assoc. repeat split; try reflexivity. exact Hcalls.
Qed.

Lemma reraises_submitDeductions (rt : Runtime) (payload : SubmitDeductionsPayload) :
  getSheetsApi rt <> None ->
  reraises (submitDeductions rt payload) (fun e => Error (friendlyMessage e)).
Proof.
  intros Hapi w. unfold appends. rewrite submitDeductions_unfold.
  set (w1 := after_push rt payload w).
  assert (H : reraises (send_rows rt payload) (fun e => Error (friendlyMessage e))).
  { unfold send_rows. destruct (getSheetsApi rt); [|contradiction].
    apply reraises_rethrow. unfold sheets_values_append. fail_fast_action. }
  destruct (H w1) as (added & Hj & Hstop & Hfail).
  exists (Pushed (pushed_entry rt payload w) :: added).
  unfold appends in Hj. rewrite Hj. simpl. rewrite <- app_assoc.
  split; [reflexivity|]. split; [exact Hstop | exact Hfail].
Qed.

(** ** The status update *)

Lemma rowIndicesToUpdate_In (id : string) (rows : list row) :
  forall start n,
    In n (rowIndicesToUpdate id start rows)
    <-> exists i r, nth_error rows i = Some r /\ n = start + i + 2
                    /\ startsWith (comparableRowId r) id = true.
Proof.
  induction rows as [|r rows IH]; intros start n; cbn [rowIndicesToUpdate].
  - split; [intros []|]. intros (i & r & H & _). destruct i; discriminate.
  - rewrite in_app_iff, IH.
    destruct (startsWith (comparableRowId r) id) eqn:E; cbn [In]; split.
    + intros [[<- | []] | (i & r' & Hnth & Hn & Hs)].
      * exists 0, r. repeat split; [lia | exact E].
      * exists (S i), r'. repeat split; [exact Hnth | lia | exact Hs].
    + intros ([|i] & r' & Hnth & Hn & Hs); cbn [nth_error] in Hnth.
      * left. left. lia.
      * right. exists i, r'. repeat split; [exact Hnth | lia | exact Hs].
    + intros [[] | (i & r' & Hnth & Hn & Hs)].
      exists (S i), r'. repeat split; [exact Hnth | lia | exact Hs].
    + intros ([|i] & r' & Hnth & Hn & Hs); cbn [nth_error] in Hnth.
      * inversion Hnth; subst r'. congruence.
      * right. exists i, r'. repeat split; [exact Hnth | lia | exact Hs].
Qed.

(** C7. With the store configured and the report table read, the status
    update selects the sheet rows whose key, made from the date and time
    cells, starts with the report key.  When there is none (or the table has
    no data) it throws an error and writes nothing.  Otherwise it writes, in
    one batch update, the status and the decision date, time and admin in the
    columns O to R of every selected row. *)
Theorem status_update_by_key_prefix (rt : Runtime) (id : string) (company : Company)
    (newStatus : Decision) (adminEmail sheetId : string) (values : option (list row))
    (w : world) :
  let sheetName := (company_name company ++ " REQUEST")%string in
  let range := (sheetName ++ "!A2:Z")%string in
  let w1 := record (Called (ValuesGet range) false) w in
  getSheetsApi rt = Some sheetId ->
  values_get (store rt) (journal w) range = Returned values ->
  match values with
  | None =>
      updateReportStatus rt id company newStatus adminEmail w
      = (Thrown (Error ("No data found in sheet: " ++ sheetName)), w1)
  | Some rows =>
      let indices := rowIndicesToUpdate id 0 rows in
      let data := map (status_request sheetName newStatus
                         (fst (cairo_at rt (clock_reads w)))
                         (snd (cairo_at rt (clock_reads w))) adminEmail) indices in
      let reply := values_batchUpdate (store rt) (journal w1) data in
      (forall n, In n indices
                 <-> exists i r, nth_error rows i = Some r /\ n = i + 2
                                 /\ startsWith (comparableRowId r) id = true)
      /\ (indices = [] ->
          updateReportStatus rt id company newStatus adminEmail w
          = (Thrown (Error ("لم يتم العثور على التقرير بالمعرف: " ++ id)), w1))
      /\ (indices <> [] ->
          updateReportStatus rt id company newStatus adminEmail w
          = (match reply with
             | Returned _ =>
                 Returned (mkResult true ("تم تحديث حالة التقرير إلى " ++ dquote
                                          ++ decision_label newStatus ++ dquote
                                          ++ " بنجاح."))
             | Thrown e => Thrown (Error (message e))
             end,
             record (Called (ValuesBatchUpdate data) (is_thrown reply)) (tick w1)))
  end.
Proof.
  intros sheetName range w1 Hapi Hget.
  unfold updateReportStatus. rewrite Hapi. fold sheetName. fold range.
  unfold try_catch, mbind, sheets_values_get, call_store. rewrite Hget. simpl is_thrown.
  fold w1.
  destruct values as [rows|]; [|reflexivity].
  cbv beta iota zeta.
  split; [intros n; apply (rowIndicesToUpdate_In id rows 0 n)|].
  split.
  - intros ->. reflexivity.
  - intros Hne.
    destruct (rowIndicesToUpdate id 0 rows) as [|n rest]; [contradiction|].
    unfold now_in_cairo, sheets_values_batchUpdate, call_store, w1, record, tick.
    cbn [journal clock_reads mockSubmissions uuids_drawn].
    destruct (cairo_at rt (clock_reads w)) as [approvalDate approvalTime].
    cbn [fst snd journal clock_reads mockSubmissions uuids_drawn].
    destruct (values_batchUpdate (store rt) _ _); reflexivity.
Qed.

(** The key [report-2024-06-01-10-00] selects the rows of 10:00 and of
    10:00:05 (sheet rows 2 and 3), written in one batch; the key of a report
    that is not stored selects none, and the update throws. *)
Lemma status_update_by_key_prefix_witness :
  let rt := runtime_on (table_store [] stored_reports) in
  getSheetsApi rt = Some "sheet-id"
  /\ values_get (store rt) (journal empty_world) "DMC REQUEST!A2:Z"
     = Returned (Some stored_reports)
  /\ map comparableRowId stored_reports
     = ["report-2024-06-01-10-00"; "report-2024-06-01-10-00-05"; "report-2024-06-02-10-00"]
  /\ rowIndicesToUpdate "report-2024-06-01-10-00" 0 stored_reports = [2; 3]
  /\ updateReportStatus rt "report-2024-06-01-10-00" DMC Approved "admin@site.com" empty_world
     = (Returned (mkResult true ("تم تحديث حالة التقرير إلى " ++ dquote
                                 ++ decision_label Approved ++ dquote ++ " بنجاح.")),
        mkWorld []
          [ Called (ValuesGet "DMC REQUEST!A2:Z") false;
            Called (ValuesBatchUpdate
                      [ ("DMC REQUEST!O2:R2",
                         [[VStr "موافقة"; VStr "2024-06-01"; VStr "10:00";
                           VStr "admin@site.com"]]);
                        ("DMC REQUEST!O3:R3",
                         [[VStr "موافقة"; VStr "2024-06-01"; VStr "10:00";
                           VStr "admin@site.com"]]) ]) false ]
          0 1)
  /\ updateReportStatus rt "report-2024-07-01-10-00" DMC Approved "admin@site.com" empty_world
     = (Thrown (Error "لم يتم العثور على التقرير بالمعرف: report-2024-07-01-10-00"),
        mkWorld [] [Called (ValuesGet "DMC REQUEST!A2:Z") false] 0 0).
Proof.
  intros rt.
  assert (Hapi : getSheetsApi rt = Some "sheet-id") by reflexivity.
  assert (Hget : values_get (store rt) (journal empty_world) "DMC REQUEST!A2:Z"
                 = Returned (Some stored_reports)) by reflexivity.
  split; [exact Hapi|]. split; [exact Hget|].
  split; [vm_compute; reflexivity|]. split; [vm_compute; reflexivity|].
  split.
  - destruct (status_update_by_key_prefix rt "report-2024-06-01-10-00" DMC Approved
                "admin@site.com" "sheet-id" (Some stored_reports) empty_world Hapi Hget)
      as (_ & _ & Hsome).
    rewrite Hsome; [vm_compute; reflexivity | vm_compute; discriminate].
  - destruct (status_update_by_key_prefix rt "report-2024-07-01-10-00" DMC Approved
                "admin@site.com" "sheet-id" (Some stored_reports) empty_world Hapi Hget)
      as (_ & Hnone & _).
    rewrite Hnone; [vm_compute; reflexivity | vm_compute; reflexivity].
Defined.

(** ** The login checks *)

Lemma text_or_text_row (r : row) (i : nat) (d : string) :
  text_row r = true -> text_or (cell r i) d = Returned (cell_text (cell r i) d).
Proof.
  intros H. unfold text_or, cell_text.
  destruct (text_row_cell r i H) as [-> | [s ->]].
  - reflexivity.
  - unfold or_else. destruct (truthy (VStr s)); reflexivity.
Qed.

Lemma row_validates_text_row (rt : Runtime) (email password_provided : string) (expectedRole : UserRole)
    (r : row) :
  text_row r = true ->
  row_validates rt email password_provided expectedRole r
  = Returned (row_matches rt email password_provided expectedRole r).
Proof.
  intros H. unfold row_validates, row_matches.
  rewrite !(text_or_text_row r _ _ H). reflexivity.
Qed.

Lemma find_valid_text_rows (rt : Runtime) (email password_provided : string) (expectedRole : UserRole)
    (rows : list row) :
  Forall (fun r => text_row r = true) rows ->
  find_valid rt email password_provided expectedRole rows
  = Returned (if existsb (row_matches rt email password_provided expectedRole) rows
              then mkValidation true (Some expectedRole)
              else mkValidation false None).
Proof.
  induction 1 as [|r rows Hr Hrows IH]; simpl; [reflexivity|].
  rewrite (row_validates_text_row _ _ _ _ _ Hr). cbn [bind].
  destruct (row_matches rt email password_provided expectedRole r); [reflexivity | exact IH].
Qed.

Lemma mbind_returned {A B : Type} (m : M A) (k : A -> M B) (w w' : world) (a : A) :
  m w = (Returned a, w') -> mbind m k w = k a w'.
Proof. unfold mbind. intros ->. reflexivity. Qed.

Lemma mbind_assoc {A B C : Type} (m : M A) (f : A -> M B) (g : B -> M C) (w : world) :
  mbind (mbind m f) g w = mbind m (fun a => mbind (f a) g) w.
Proof. unfold mbind. destruct (m w) as [[a|e] w']; reflexivity. Qed.

(** C8, amended.  With the store configured and the user table read as rows
    of text, validation succeeds exactly when some stored row has the
    provided email (both trimmed and in lower case), the provided password
    (both trimmed), and a stored role that, trimmed and in lower case, with
    an empty or missing role cell counting as ["user"], is the requested
    role; it then grants the requested role.  Otherwise it returns invalid
    with no role. *)
Theorem validateUser_succeeds_iff_row_matches (rt : Runtime)
    (email password_provided sheetId : string) (expectedRole : UserRole)
    (rows : list row) (w w1 : world) :
  getSheetsApi rt = Some sheetId ->
  (ensureSheetAndHeaders rt USERS_SHEET_NAME USER_HEADERS ;;;
   sheets_values_get rt (USERS_SHEET_NAME ++ "!A2:C")%string) w
  = (Returned (Some rows), w1) ->
  Forall (fun r => text_row r = true) rows ->
  let granted := existsb (row_matches rt email password_provided expectedRole) rows in
  validateUser rt email password_provided expectedRole w
  = (Returned (if granted then mkValidation true (Some expectedRole)
               else mkValidation false None), w1)
  /\ (granted = true
      <-> exists r,
            In r rows
            /\ lower rt (trim (cell_text (cell r 0) "")) = lower rt (trim email)
            /\ trim (cell_text (cell r 1) "") = trim password_provided
            /\ lower rt (trim (cell_text (cell r 2) "user")) = role_name expectedRole).
Proof.
  intros Hapi Hread Htext granted. split.
  - unfold validateUser. rewrite Hapi. unfold try_catch.
    rewrite <- mbind_assoc, (mbind_returned _ _ _ _ _ Hread).
    destruct rows as [|r rows].
    + reflexivity.
    + unfold lift. rewrite (find_valid_text_rows _ _ _ _ _ Htext). reflexivity.
  - unfold granted. rewrite existsb_exists. unfold row_matches.
    split; intros (r & Hin & H); exists r; (split; [exact Hin|]).
    + apply andb_true_iff in H. destruct H as [H Hrole].
      apply andb_true_iff in H. destruct H as [Hemail Hpw].
      apply String.eqb_eq in Hemail, Hpw, Hrole. auto.
    + destruct H as (Hemail & Hpw & Hrole).
      rewrite Hemail, Hpw, Hrole, !String.eqb_refl. reflexivity.
Qed.

(** The stored row holds the role "Admin"; the email is given with spaces and
    capitals, the password with a space: the admin role is granted, the user
    role is refused.  A stored email with the capital letter U+00C9 lets in
    the same email written with the small letter U+00E9. *)
Lemma validateUser_succeeds_iff_row_matches_witness :
  let rt := runtime_on (table_store capital_admin_users []) in
  let rt' := runtime_on (table_store accented_users []) in
  let w1 := mkWorld [] [Called SpreadsheetsGet false; Called (ValuesGet "Users!A2:C") false]
                    0 0 in
  getSheetsApi rt = Some "sheet-id"
  /\ (ensureSheetAndHeaders rt USERS_SHEET_NAME USER_HEADERS ;;;
      sheets_values_get rt (USERS_SHEET_NAME ++ "!A2:C")%string) empty_world
     = (Returned (Some capital_admin_users), w1)
  /\ Forall (fun r => text_row r = true) capital_admin_users
  /\ validateUser rt " ENG@Site.com" "secret " admin empty_world
     = (Returned (mkValidation true (Some admin)), w1)
  /\ validateUser rt " ENG@Site.com" "secret " user empty_world
     = (Returned (mkValidation false None), w1)
  /\ lower rt' "ÉLODIE@x.com" = "élodie@x.com"
  /\ validateUser rt' "élodie@x.com" "pw" user empty_world
     = (Returned (mkValidation true (Some user)), w1).
Proof.
  intros rt rt' w1.
  assert (Hapi : getSheetsApi rt = Some "sheet-id") by reflexivity.
  assert (Hread : (ensureSheetAndHeaders rt USERS_SHEET_NAME USER_HEADERS ;;;
                   sheets_values_get rt (USERS_SHEET_NAME ++ "!A2:C")%string) empty_world
                  = (Returned (Some capital_admin_users), w1)) by (vm_compute; reflexivity).
  assert (Htext : Forall (fun r => text_row r = true) capital_admin_users)
    by (repeat constructor).
  assert (Hread' : (ensureSheetAndHeaders rt' USERS_SHEET_NAME USER_HEADERS ;;;
                    sheets_values_get rt' (USERS_SHEET_NAME ++ "!A2:C")%string) empty_world
                   = (Returned (Some accented_users), w1)) by (vm_compute; reflexivity).
  assert (Htext' : Forall (fun r => text_row r = true) accented_users)
    by (repeat constructor).
  split; [exact Hapi|]. split; [exact Hread|]. split; [exact Htext|].
  split; [|split; [|split]].
  - destruct (validateUser_succeeds_iff_row_matches rt " ENG@Site.com" "secret " "sheet-id"
                admin capital_admin_users empty_world w1 Hapi Hread Htext) as [Hrun _].
    rewrite Hrun. vm_compute. reflexivity.
  - destruct (validateUser_succeeds_iff_row_matches rt " ENG@Site.com" "secret " "sheet-id"
                user capital_admin_users empty_world w1 Hapi Hread Htext) as [Hrun _].
    rewrite Hrun. vm_compute. reflexivity.
  - vm_compute. reflexivity.
  - destruct (validateUser_succeeds_iff_row_matches rt' "élodie@x.com" "pw" "sheet-id"
                user accented_users empty_world w1 eq_refl Hread' Htext') as [Hrun _].
    rewrite Hrun. vm_compute. reflexivity.
Defined.

(** C8, as stated, fails: the requested role ["admin"] is granted on a row
    whose stored role is ["Admin"], and the requested role ["user"] on a row
    that stores no role; in neither table is the stored role equal to the
    requested one. *)
Lemma validateUser_normalises_the_stored_role :
  fst (validateUser (runtime_on (table_store capital_admin_users [])) "eng@site.com" "secret"
                    admin empty_world)
  = Returned (mkValidation true (Some admin))
  /\ map (fun r => cell r 2) capital_admin_users = [VStr "Admin"]
  /\ ~ In (VStr (role_name admin)) (map (fun r => cell r 2) capital_admin_users)
  /\ fst (validateUser (runtime_on (table_store no_role_users [])) "eng@site.com" "secret"
                       user empty_world)
     = Returned (mkValidation true (Some user))
  /\ map (fun r => cell r 2) no_role_users = [VUndef]
  /\ ~ In (VStr (role_name user)) (map (fun r => cell r 2) no_role_users).
Proof.
  split; [vm_compute; reflexivity|].
  split; [reflexivity|].
  split; [simpl; intros [H | []]; discriminate H|].
  split; [vm_compute; reflexivity|].
  split; [reflexivity|].
  simpl. intros [H | []]. discriminate H.
Qed.

(** ** Sums of numbers *)

Lemma Prim2SF_inj (x y : float) : Prim2SF x = Prim2SF y -> x = y.
Proof.
  intros H. rewrite <- (SF2Prim_Prim2SF x), <- (SF2Prim_Prim2SF y), H. reflexivity.
Qed.

Lemma same_number_refl (x : float) : same_number x x = true.
Proof.
  unfold same_number, is_nan. destruct (x =? x)%float; reflexivity.
Qed.

Lemma same_number_SF (x y : float) :
  SFeqb (Prim2SF x) (Prim2SF y) = true -> same_number x y = true.
Proof. unfold same_number. rewrite eqb_spec. intros ->. reflexivity. Qed.

Lemma Prim2SF_zero : Prim2SF 0 = S754_zero false.
Proof. reflexivity. Qed.

Lemma add_zero_l_SF (y : float) :
  Prim2SF (0 + y)
  = match Prim2SF y with
    | S754_zero _ => S754_zero false
    | other => other
    end.
Proof.
  rewrite add_spec, Prim2SF_zero. unfold SF64add, SFadd.
  destruct (Prim2SF y) as [[|]|[|]| |[|] m e]; reflexivity.
Qed.

Lemma add_zero_l (y : float) : same_number (0 + y) y = true.
Proof.
  pose proof (add_zero_l_SF y) as H.
  destruct (Prim2SF y) as [s|s| |s m e] eqn:E.
  - apply same_number_SF. rewrite H, E. destruct s; reflexivity.
  - rewrite <- E in H. apply Prim2SF_inj in H. rewrite H. apply same_number_refl.
  - rewrite <- E in H. apply Prim2SF_inj in H. rewrite H. apply same_number_refl.
  - rewrite <- E in H. apply Prim2SF_inj in H. rewrite H. apply same_number_refl.
Qed.

(** The total of a report of one contractor with two line items is their
    sum. *)
Lemma sum_from_zero (a b : float) : same_number (0 + ((0 + a) + b)) (a + b) = true.
Proof.
  assert (Hcase : ((0 + a) + b = a + b)%float
                  \/ exists s, Prim2SF ((0 + a) + b) = S754_zero false
                               /\ Prim2SF (a + b) = S754_zero s).
  { pose proof (add_zero_l_SF a) as Ha.
    destruct (Prim2SF a) as [sa|sa| |sa ma ea] eqn:Ea.
    - destruct (Prim2SF b) as [sb|sb| |sb mb eb] eqn:Eb.
      + right. exists (if sa then sb else false).
        rewrite (add_spec (0 + a) b), (add_spec a b), Ha, Ea, Eb. unfold SF64add, SFadd.
        destruct sa, sb; split; reflexivity.
      + left. apply Prim2SF_inj. rewrite (add_spec (0 + a) b), (add_spec a b), Ha, Ea, Eb. reflexivity.
      + left. apply Prim2SF_inj. rewrite (add_spec (0 + a) b), (add_spec a b), Ha, Ea, Eb. reflexivity.
      + left. apply Prim2SF_inj. rewrite (add_spec (0 + a) b), (add_spec a b), Ha, Ea, Eb. reflexivity.
    - left. rewrite <- Ea in Ha. apply Prim2SF_inj in Ha. rewrite Ha. reflexivity.
    - left. rewrite <- Ea in Ha. apply Prim2SF_inj in Ha. rewrite Ha. reflexivity.
    - left. rewrite <- Ea in Ha. apply Prim2SF_inj in Ha. rewrite Ha. reflexivity. }
  destruct Hcase as [-> | (s & H1 & H2)].
  - apply add_zero_l.
  - apply same_number_SF. rewrite add_zero_l_SF, H1, H2. destruct s; reflexivity.
Qed.

Lemma parseFloat_stored_number (v : value) :
  parseFloat (VNum (Number_or_0 v)) = Number_or_0 v.
Proof.
  unfold parseFloat, Number_or_0.
  destruct (is_zero (Number v) || is_nan (Number v)) eqn:E.
  - reflexivity.
  - apply orb_false_iff in E. destruct E as [-> _]. reflexivity.
Qed.

Lemma or_else_twice (v d : value) : truthy d = false -> or_else (or_else v d) d = or_else v d.
Proof.
  intros Hd. unfold or_else. destruct (truthy v) eqn:E; [rewrite E | rewrite Hd]; reflexivity.
Qed.

Lemma Object_values_singleton {V : Type} (k : string) (v : V) :
  Object_values [(k, v)] = [v].
Proof.
  unfold Object_values, Object_entries. simpl.
  destruct (array_index k); reflexivity.
Qed.

(** ** Flatten, then reconstruct *)

Lemma new_deduction_row_of_deduction (uuid date time : string)
    (payload : SubmitDeductionsPayload) (contractor : Contractor) (d : Deduction) :
  exists e,
    new_deduction uuid (row_of_deduction date time payload contractor d) = Returned e
    /\ read_back d e.
Proof.
  unfold new_deduction, row_of_deduction, cell. cbn [nth].
  match goal with
  | |- context [or_else (VStr ?s) (VStr "")] =>
      assert (Hm : exists t, or_else (VStr s) (VStr "") = VStr t)
        by (unfold or_else; destruct (truthy (VStr s)); eauto);
      destruct Hm as [t ->]
  end.
  eexists. split; [reflexivity|].
  unfold read_back. cbn [contractName itemName workDescription personName quantity unitPrice].
  rewrite !parseFloat_stored_number. repeat split; reflexivity.
Qed.

(** One contractor with two line items, whose name is not a name that
    every object inherits: the flattened rows reconstruct into one report with
    that contractor and the two line items read back in order, and the grand
    total is the sum of the two line totals. *)
Lemma roundtrip_one_contractor_two_items (fresh : nat -> string)
    (date time email cid : string) (company0 : Company) (name notes0 : value)
    (d1 d2 : Deduction) :
  inherited (ToString name) = false ->
  exists s c e1 e2,
    parseSubmissionsFromRows fresh
      (rowsToAppend date time
         {| p_company := company0;
            p_contractors := [mkContractor cid name notes0 [d1; d2]];
            p_userEmail := email |})
    = Returned [s]
    /\ timestamp s = (date ++ " " ++ time)%string
    /\ contractors s = [c]
    /\ contractorName c = name
    /\ notes c = or_else notes0 (VStr "")
    /\ deductions c = [e1; e2]
    /\ read_back d1 e1
    /\ read_back d2 e2
    /\ same_number (grandTotal s) (calculateTotal d1 + calculateTotal d2) = true.
Proof.
  intros Hname.
  set (payload := {| p_company := company0;
                     p_contractors := [mkContractor cid name notes0 [d1; d2]];
                     p_userEmail := email |}).
  set (contractor := mkContractor cid name notes0 [d1; d2]).
  set (r1 := row_of_deduction date time payload contractor d1).
  set (r2 := row_of_deduction date time payload contractor d2).
  assert (Hrows : rowsToAppend date time payload = [r1; r2]) by reflexivity.
  destruct (new_deduction_row_of_deduction (fresh 0) date time payload contractor d1)
    as (e1 & He1 & Hb1).
  destruct (new_deduction_row_of_deduction (fresh 1) date time payload contractor d2)
    as (e2 & He2 & Hb2).
  fold r1 in He1. fold r2 in He2.
  assert (Hc1 : cell r1 4 = name) by reflexivity.
  assert (Hc2 : cell r2 4 = name) by reflexivity.
  assert (Hk : timestampKey r1 = timestampKey r2) by reflexivity.
  set (c := push_deduction (push_deduction (new_contractor r1) e1) e2).
  assert (Hfill : fill_contractors fresh 0 [r1; r2] [] = Returned [(ToString name, c)]).
  { cbn [fill_contractors].
    rewrite (contractor_step_returns _ _ _ _ He1) by (intros _; rewrite Hc1; exact Hname).
    cbn [bind].
    rewrite (contractor_step_returns _ _ _ _ He2) by (intros _; rewrite Hc2; exact Hname).
    cbn [bind]. unfold add_deduction. rewrite Hc1, Hc2. cbn [own set_property].
    rewrite String.eqb_refl. reflexivity. }
  rewrite Hrows.
  unfold parseSubmissionsFromRows, groupedByTimestamp.
  rewrite reduce_group_step. cbn [fold_left].
  unfold add_to_group at 2. cbn [own set_property].
  unfold add_to_group. cbn [own]. rewrite Hk, String.eqb_refl. cbn [set_property].
  rewrite String.eqb_refl. cbn [bind app].
  rewrite Object_entries_no_index.
  2:{ repeat constructor. simpl. apply array_index_space, timestampKey_space. }
  cbn [build_submissions].
  rewrite (build_submission_filled _ _ _ _ _ _ Hfill). cbn [bind]. rewrite sort_singleton.
  rewrite Object_values_singleton.
  eexists _, c, e1, e2.
  split; [reflexivity|].
  split; [reflexivity|].
  split; [reflexivity|].
  split; [exact Hc1|].
  split; [apply (or_else_twice notes0 (VStr "")); reflexivity|].
  split; [reflexivity|].
  split; [exact Hb1|]. split; [exact Hb2|].
  cbn [grandTotal]. unfold report_grandTotal, c. cbn [fold_left deductions push_deduction
    new_contractor app].
  destruct Hb1 as (_ & _ & _ & _ & Hq1 & Hp1). destruct Hb2 as (_ & _ & _ & _ & Hq2 & Hp2).
  rewrite Hq1, Hp1, Hq2, Hp2. cbn [Number]. unfold calculateTotal.
  apply sum_from_zero.
Qed.

(** C1. For a contractor called ["constructor"], a name every object
    inherits from [Object.prototype], the flatten step gives its two rows and
    reconstruction from them throws: [contractorsMap["constructor"]] is an
    inherited function, so no contractor is created and its [deductions] is
    [undefined].  No report is returned. *)
Theorem roundtrip_throws_for_inherited_name :
  map (fun r => cell r 4) (rowsToAppend "2024-06-01" "10:00" (payload_of "constructor"))
  = [VStr "constructor"; VStr "constructor"]
  /\ inherited "constructor" = true
  /\ parseSubmissionsFromRows sample_uuid
       (rowsToAppend "2024-06-01" "10:00" (payload_of "constructor"))
     = Thrown (TypeError "Cannot read properties of undefined (reading 'push')").
Proof.
  split; [reflexivity|]. split; [reflexivity|]. vm_compute. reflexivity.
Qed.

(** With an ordinary contractor name the same payload comes back as one
    report, one contractor and the two line items, with the total 2 x 3 + 4 x 5
    = 26; the unit of the first line item comes back cut. *)
Lemma roundtrip_of_the_sample_payload :
  exists s c e1 e2,
    parseSubmissionsFromRows sample_uuid
      (rowsToAppend "2024-06-01" "10:00" (payload_of "مقاولات الخليج"))
    = Returned [s]
    /\ contractors s = [c]
    /\ deductions c = [e1; e2]
    /\ map itemName [e1; e2] = map itemName [item_a; item_b]
    /\ grandTotal s = 26%float
    /\ meterEquivalentUnit item_a = VStr "متر مربع"
    /\ meterEquivalentUnit e1 = VStr "متر".
Proof.
  destruct (roundtrip_one_contractor_two_items sample_uuid "2024-06-01" "10:00"
              "eng@site.com" "contractor-1" DMC (VStr "مقاولات الخليج") (VStr "ملحوظة")
              item_a item_b eq_refl)
    as (s & c & e1 & e2 & Hparse & _ & Hcs & _ & _ & Hds & _ & _ & _).
  exists s, c, e1, e2.
  change (payload_of "مقاولات الخليج")
    with {| p_company := DMC;
            p_contractors := [mkContractor "contractor-1" (VStr "مقاولات الخليج")
                                (VStr "ملحوظة") [item_a; item_b]];
            p_userEmail := "eng@site.com" |}.
  split; [exact Hparse|]. split; [exact Hcs|]. split; [exact Hds|].
  assert (Heval : parseSubmissionsFromRows sample_uuid
                    (rowsToAppend "2024-06-01" "10:00" (payload_of "مقاولات الخليج"))
                  = Returned [s]) by exact Hparse.
  vm_compute in Heval. inversion Heval as [Hs]. clear Heval.
  rewrite <- Hs in Hcs. cbn [contractors] in Hcs. inversion Hcs as [Hc].
  rewrite <- Hc in Hds. cbn [deductions] in Hds. inversion Hds. subst e1 e2.
  repeat split; reflexivity.
Qed.

(** * The reconstruction and the runs in detail *)

(** ** Which rows can be read back *)

Lemma new_deduction_returns_iff (uuid : string) (r : row) :
  (exists d, new_deduction uuid r = Returned d)
  <-> is_text (or_else (cell r 8) (VStr "")) = true.
Proof.
  unfold new_deduction.
  destruct (or_else (cell r 8) (VStr "")); simpl; split;
    try (intros [d H]; discriminate); try discriminate; eauto.
Qed.

Lemma own_not_inherited {V : Type} (m : obj V) (k : string) (v : V) :
  Forall (fun k => inherited k = false) (map fst m) ->
  own m k = Some v -> inherited k = false.
Proof.
  intros Hall Hown. apply own_In in Hown.
  rewrite Forall_forall in Hall. apply Hall.
  apply in_map_iff. exists (k, v). split; [reflexivity | exact Hown].
Qed.

Lemma contractor_step_names (uuid : string) (m m' : obj Contractor) (r : row) :
  Forall (fun k => inherited k = false) (map fst m) ->
  contractor_step uuid m r = Returned m' ->
  Forall (fun k => inherited k = false) (map fst m') /\ readable r = true.
Proof.
  intros Hall H. apply contractor_step_returned in H.
  destruct H as (d & Hd & Hk & ->).
  assert (Hname : inherited (ToString (cell r 4)) = false).
  { destruct (own m (ToString (cell r 4))) as [c|] eqn:E.
    - eapply own_not_inherited; eauto.
    - apply Hk. reflexivity. }
  split.
  - unfold add_deduction. rewrite set_property_keys.
    destruct (own m (ToString (cell r 4))); [exact Hall|].
    apply Forall_app. split; [exact Hall | repeat constructor; exact Hname].
  - unfold readable. rewrite Hname.
    rewrite (proj1 (new_deduction_returns_iff uuid r)) by eauto. reflexivity.
Qed.

Lemma contractor_step_readable (uuid : string) (m : obj Contractor) (r : row) :
  readable r = true -> exists m', contractor_step uuid m r = Returned m'.
Proof.
  unfold readable. rewrite andb_true_iff, negb_true_iff. intros [Hd Hk].
  apply (new_deduction_returns_iff uuid) in Hd. destruct Hd as [d Hd].
  exists (add_deduction m r d).
  apply contractor_step_returns; [exact Hd | intros _; exact Hk].
Qed.

Lemma fill_contractors_returns_iff (fresh : nat -> string) (rows : list row) :
  forall n m,
    Forall (fun k => inherited k = false) (map fst m) ->
    (exists m', fill_contractors fresh n rows m = Returned m')
    <-> forallb readable rows = true.
Proof.
  induction rows as [|r rows IH]; intros n m Hall; simpl.
  - split; eauto.
  - rewrite andb_true_iff. split.
    + intros [m' H].
      destruct (contractor_step (fresh n) m r) as [m1|e] eqn:E; simpl in H; [|discriminate].
      destruct (contractor_step_names _ _ _ _ Hall E) as [Hall1 Hr].
      split; [exact Hr|]. apply (IH (S n) m1 Hall1). eauto.
    + intros [Hr Hrest].
      destruct (contractor_step_readable (fresh n) m r Hr) as [m1 E].
      rewrite E. simpl.
      apply (IH (S n) m1); [|exact Hrest].
      apply (contractor_step_names _ _ _ _ Hall E).
Qed.

Lemma build_submission_returns_iff (fresh : nat -> string) (n : nat) (k : string)
    (grp : list row) :
  (exists s, build_submission fresh n (k, grp) = Returned s)
  <-> grp <> [] /\ forallb readable grp = true.
Proof.
  unfold build_submission. destruct grp as [|firstRow rest].
  - split; [intros [s H]; discriminate | intros [H _]; contradiction].
  - rewrite <- (fill_contractors_returns_iff fresh (firstRow :: rest) n [])
      by constructor.
    split.
    + intros [s H]. split; [discriminate|].
      destruct (fill_contractors fresh n (firstRow :: rest) []) as [m|e]; simpl in H;
        [eauto|discriminate].
    + intros [_ [m H]]. rewrite H. simpl. eauto.
Qed.

Lemma build_submissions_returns_iff (fresh : nat -> string)
    (entries : list (string * list row)) :
  forall n,
    (exists subs, build_submissions fresh n entries = Returned subs)
    <-> Forall (fun entry => snd entry <> [] /\ forallb readable (snd entry) = true) entries.
Proof.
  induction entries as [|[k grp] entries IH]; intros n; cbn [build_submissions snd].
  - split; [constructor | eauto].
  - split.
    + intros [subs H].
      destruct (build_submission fresh n (k, grp)) as [s|e] eqn:E; cbn [bind] in H;
        [|discriminate].
      destruct (build_submissions fresh (n + List.length grp) entries) as [ss|e] eqn:E';
        cbn [bind] in H; [|discriminate].
      constructor.
      * apply (build_submission_returns_iff fresh n k grp). eauto.
      * apply (IH (n + List.length grp)). eauto.
    + intros H. inversion H as [|? ? H1 H2]; subst.
      apply (build_submission_returns_iff fresh n k grp) in H1. destruct H1 as [s H1].
      apply (IH (n + List.length grp)) in H2. destruct H2 as [ss H2].
      rewrite H1. cbn [bind]. rewrite H2. cbn [bind]. eauto.
Qed.

Lemma parse_returns_iff_readable (fresh : nat -> string) (rows : list row) :
  (exists subs, parseSubmissionsFromRows fresh rows = Returned subs)
  <-> forallb readable rows = true.
Proof.
  unfold parseSubmissionsFromRows.
  destruct (groupedByTimestamp_spec rows) as (groups & Hg & _ & _ & Hgrp & Hrows).
  rewrite Hg. simpl.
  assert (Hiff : (exists subs, build_submissions fresh 0 (Object_entries groups) = Returned subs)
                 <-> forallb readable rows = true).
  { rewrite build_submissions_returns_iff. rewrite Forall_forall, forallb_forall. split.
    - intros H r Hr.
      specialize (H _ (Permutation_in _ (Permutation_sym (Object_entries_perm groups))
                                      (Hrows r Hr))).
      destruct H as [_ H]. simpl in H. rewrite forallb_forall in H. apply H.
      apply filter_In. split; [exact Hr | apply String.eqb_refl].
    - intros H [k grp] Hin. simpl.
      apply (Permutation_in _ (Object_entries_perm groups)) in Hin.
      destruct (Hgrp k grp Hin) as [-> Hne]. split; [exact Hne|].
      apply forallb_forall. intros r Hr. apply filter_In in Hr. apply H, Hr. }
  rewrite <- Hiff. split.
  - intros [subs H].
    destruct (build_submissions fresh 0 (Object_entries groups)) as [ss|e]; simpl in H;
      [eauto|discriminate].
  - intros [ss H]. rewrite H. simpl. eauto.
Qed.

(** X1. The reconstruction returns, rather than throws, exactly when every
    row can be read back: its meter-equivalent cell is text, empty or
    missing, and its contractor name is not the name of a property that every
    object inherits. *)
Theorem reconstruction_returns_iff_rows_readable (fresh : nat -> string) (rows : list row) :
  (exists subs, parseSubmissionsFromRows fresh rows = Returned subs)
  <-> forallb readable rows = true.
Proof. apply parse_returns_iff_readable. Qed.

(** ** Counting the rows of the groups *)

Lemma list_sum_perm (l l' : list nat) : Permutation l l' -> list_sum l = list_sum l'.
Proof. induction 1; simpl; lia. Qed.

Lemma list_sum_map_add {A : Type} (f g : A -> nat) (l : list A) :
  list_sum (map (fun x => f x + g x) l) = list_sum (map f l) + list_sum (map g l).
Proof. induction l as [|x l IH]; simpl; lia. Qed.

(** A key of a duplicate-free list is counted once. *)
Lemma count_key_once (k : string) (ks : list string) :
  NoDup ks -> In k ks ->
  list_sum (map (fun k' => if (k =? k')%string then 1 else 0) ks) = 1.
Proof.
  induction 1 as [|k0 ks Hnotin Hnd IH]; simpl; [contradiction|].
  intros [->|Hin].
  - rewrite String.eqb_refl.
    assert (H0 : list_sum (map (fun k' => if (k =? k')%string then 1 else 0) ks) = 0).
    { clear IH Hnd. induction ks as [|k1 ks IH]; simpl; [reflexivity|].
      destruct (String.eqb_spec k k1) as [->|_].
      - exfalso. apply Hnotin. left. reflexivity.
      - apply IH. intros H. apply Hnotin. right. exact H. }
    lia.
  - destruct (String.eqb_spec k k0) as [->|_]; [contradiction|].
    rewrite (IH Hin). reflexivity.
Qed.

(** The rows of a list, sorted under the duplicate-free keys [ks] by a key
    function: no row is counted twice, none is left out. *)
Lemma rows_under_keys {A : Type} (key : A -> string) (ks : list string) (l : list A) :
  NoDup ks -> (forall x, In x l -> In (key x) ks) ->
  list_sum (map (fun k => List.length (filter (fun x => (key x =? k)%string) l)) ks)
  = List.length l.
Proof.
  intros Hnd. induction l as [|x l IH]; intros Hall.
  - simpl. clear Hnd Hall. induction ks as [|k ks IHks]; simpl; [reflexivity | exact IHks].
  - transitivity
      (list_sum (map (fun k => (if (key x =? k)%string then 1 else 0)
                               + List.length (filter (fun y => (key y =? k)%string) l)) ks)).
    + f_equal. apply map_ext. intros k. simpl.
      destruct (key x =? k)%string; reflexivity.
    + rewrite list_sum_map_add.
      rewrite (count_key_once (key x) ks Hnd) by (apply Hall; left; reflexivity).
      rewrite IH by (intros y Hy; apply Hall; right; exact Hy).
      reflexivity.
Qed.

Lemma built_from_length (mine : list row) (c : Contractor) :
  built_from mine c -> List.length (deductions c) = List.length mine.
Proof.
  destruct mine as [|first mine]; simpl; [contradiction|].
  intros (_ & _ & _ & H). symmetry. apply (Forall2_length H).
Qed.

(** The contractors of a filled map hold one line item per row. *)
Lemma filled_count (rows : list row) (m : obj Contractor) :
  filled rows m -> count_items (Object_values m) = List.length rows.
Proof.
  intros Hf. pose proof Hf as [Hnd Hall]. unfold count_items.
  rewrite (list_sum_perm _ _ (Permutation_map _ (Object_values_perm m))).
  rewrite map_map.
  rewrite <- (rows_under_keys (fun r => ToString (cell r 4)) (map fst m) rows Hnd).
  - rewrite map_map. f_equal. apply map_ext_in. intros [k c] Hin. simpl.
    destruct (filled_key rows m k c Hf Hin) as [_ Hb].
    apply built_from_length in Hb. exact Hb.
  - intros r Hr.
    destruct (own m (ToString (cell r 4))) as [c|] eqn:E.
    + apply own_In in E. apply in_map_iff. exists (ToString (cell r 4), c). auto.
    + specialize (Hall (ToString (cell r 4))). rewrite E in Hall.
      assert (Hin : In r (rows_of_name (ToString (cell r 4)) rows)).
      { apply filter_In. split; [exact Hr | apply String.eqb_refl]. }
      rewrite Hall in Hin. contradiction.
Qed.

Lemma build_submission_count (fresh : nat -> string) (n : nat) (k : string)
    (grp : list row) (s : Submission) :
  build_submission fresh n (k, grp) = Returned s ->
  count_items (contractors s) = List.length grp.
Proof.
  intros H. apply build_submission_returned in H.
  destruct H as (first & rest & m & _ & Hfill & _ & _ & _ & _ & _ & Hcs & _).
  rewrite Hcs. apply filled_count. eapply fill_contractors_filled. exact Hfill.
Qed.

Lemma reconstruction_count (fresh : nat -> string) (rows : list row)
    (subs : list Submission) :
  parseSubmissionsFromRows fresh rows = Returned subs ->
  line_items subs = List.length rows.
Proof.
  intros H. apply parseSubmissionsFromRows_returned in H.
  destruct H as (groups & unsorted & _ & Hnd & Hgrp & Hrows & Hall & ->).
  unfold line_items.
  rewrite (list_sum_perm _ _ (Permutation_map _ (Array_sort_perm compare_submissions unsorted))).
  assert (Hsum : map (fun s => count_items (contractors s)) unsorted
                 = map (fun k => List.length (rows_of_key k rows)) (map fst groups)).
  { clear Hnd Hrows. induction Hall as [|[k grp] s groups unsorted [n Hs] Hall IH]; simpl.
    - reflexivity.
    - rewrite (build_submission_count _ _ _ _ _ Hs).
      destruct (Hgrp k grp (or_introl eq_refl)) as [<- _].
      f_equal. apply IH. intros k' grp' Hin. apply Hgrp. right. exact Hin. }
  rewrite Hsum. unfold rows_of_key.
  apply (rows_under_keys timestampKey (map fst groups) rows Hnd).
  intros r Hr. apply in_map_iff.
  exists (timestampKey r, rows_of_key (timestampKey r) rows). split; [reflexivity|].
  apply Hrows, Hr.
Qed.

(** X2. Every row becomes one line item of one report: the reports that the
    reconstruction returns hold, over all their contractors, as many line items
    as there are rows. *)
Theorem reconstruction_keeps_every_row (fresh : nat -> string) (rows : list row)
    (subs : list Submission) :
  parseSubmissionsFromRows fresh rows = Returned subs ->
  line_items subs = List.length rows.
Proof. apply reconstruction_count. Qed.

(** X3. The header of a report is read from the first row, in the order of
    the rows given, that has its date and time: the user, the company and the
    status (the pending-review status when that cell is empty or missing) of
    the later rows are not looked at.  The report key is [report-] followed by
    the timestamp with a hyphen for every white-space character and colon. *)
Theorem report_header_from_first_row (fresh : nat -> string) (rows : list row)
    (subs : list Submission) (s : Submission) :
  parseSubmissionsFromRows fresh rows = Returned subs -> In s subs ->
  exists first rest,
    rows_of_key (timestamp s) rows = first :: rest
    /\ userEmail s = cell first 2
    /\ company s = cell first 3
    /\ status s = or_else (cell first 14) (VStr PENDING)
    /\ reportId s = ("report-" ++ replace_space_colon (timestamp s))%string.
Proof.
  intros H Hin. destruct (parse_report_group _ _ _ _ H Hin) as [n Hs].
  apply build_submission_returned in Hs.
  destruct Hs as (first & rest & m & Hg & _ & _ & Hid & He & Hst & Hc & _).
  exists first, rest. repeat split; assumption.
Qed.

(** The report of May has the header of its first row; the row of June has
    no status cell, and its report is pending review. *)
Lemma report_header_from_first_row_witness :
  let rows := [may_row_1; may_row_2; june_row] in
  let june := nth 0 sample_reports no_report in
  parseSubmissionsFromRows sample_uuid rows = Returned sample_reports
  /\ In june sample_reports
  /\ cell june_row 14 = VUndef
  /\ status june = VStr PENDING
  /\ exists first rest,
       rows_of_key (timestamp june) rows = first :: rest
       /\ userEmail june = cell first 2
       /\ company june = cell first 3
       /\ status june = or_else (cell first 14) (VStr PENDING)
       /\ reportId june = ("report-" ++ replace_space_colon (timestamp june))%string.
Proof.
  intros rows june.
  assert (H : parseSubmissionsFromRows sample_uuid rows = Returned sample_reports)
    by (vm_compute; reflexivity).
  assert (Hin : In june sample_reports) by (left; reflexivity).
  split; [exact H|]. split; [exact Hin|]. split; [reflexivity|]. split; [reflexivity|].
  exact (report_header_from_first_row sample_uuid rows sample_reports june H Hin).
Defined.

(** The three sample rows give three line items. *)
Lemma reconstruction_keeps_every_row_witness :
  parseSubmissionsFromRows sample_uuid [may_row_1; may_row_2; june_row]
    = Returned sample_reports
  /\ line_items sample_reports = 3.
Proof.
  split; [vm_compute; reflexivity|].
  apply (reconstruction_keeps_every_row sample_uuid [may_row_1; may_row_2; june_row]).
  vm_compute. reflexivity.
Defined.

(** ** The report key and the key of a stored row *)

Lemma string_app_assoc (a b c : string) : ((a ++ b) ++ c = a ++ (b ++ c))%string.
Proof. induction a as [|x a IH]; simpl; [reflexivity | rewrite IH; reflexivity]. Qed.

Lemma list_ascii_of_string_app (a b : string) :
  list_ascii_of_string (a ++ b) = list_ascii_of_string a ++ list_ascii_of_string b.
Proof. induction a as [|x a IH]; simpl; [reflexivity | rewrite IH; reflexivity]. Qed.

Lemma string_of_list_ascii_app (l l' : list ascii) :
  string_of_list_ascii (l ++ l') = (string_of_list_ascii l ++ string_of_list_ascii l')%string.
Proof. induction l as [|x l IH]; simpl; [reflexivity | rewrite IH; reflexivity]. Qed.

Lemma startsWith_refl (s : string) : startsWith s s = true.
Proof.
  unfold startsWith. induction s as [|c s IH]; simpl; [reflexivity|].
  destruct (ascii_dec c c); [exact IH | contradiction].
Qed.

(** A byte below 128 ends every white-space character before it: the bytes
    after the first one of an encoding are all 128 or more. *)
Lemma bytes_prefix_before_ascii (c : ascii) (b : list ascii) :
  (N_of_ascii c <? 128)%N = true ->
  forall enc l,
    forallb (fun x => (128 <=? x)%N) enc = true ->
    bytes_prefix enc (l ++ c :: b) = bytes_prefix enc l.
Proof.
  intros Hc. induction enc as [|e enc IH]; intros l Henc; [destruct l; reflexivity|].
  simpl in Henc. apply andb_true_iff in Henc. destruct Henc as [He Henc].
  destruct l as [|x l]; simpl.
  - apply N.ltb_lt in Hc. apply N.leb_le in He.
    destruct (N.eqb_spec (N_of_ascii c) e); [lia | reflexivity].
  - rewrite (IH l Henc). reflexivity.
Qed.

Lemma whitespace_tails :
  forallb (fun enc => forallb (fun x => (128 <=? x)%N) (tl enc)) whitespace_encodings = true.
Proof. reflexivity. Qed.

Lemma find_ext_in {A : Type} (f g : A -> bool) (l : list A) :
  (forall x, In x l -> f x = g x) -> find f l = find g l.
Proof.
  induction l as [|x l IH]; intros H; simpl; [reflexivity|].
  rewrite <- (H x (or_introl eq_refl)).
  destruct (f x); [reflexivity|]. apply IH. intros y Hy. apply H. right. exact Hy.
Qed.

Lemma ws_len_before_ascii (c x : ascii) (l b : list ascii) :
  (N_of_ascii c <? 128)%N = true ->
  ws_len (x :: l ++ c :: b) = ws_len (x :: l).
Proof.
  intros Hc. unfold ws_len.
  rewrite (find_ext_in (fun enc => bytes_prefix enc (x :: l ++ c :: b))
                       (fun enc => bytes_prefix enc (x :: l))); [reflexivity|].
  intros enc Hin.
  pose proof whitespace_tails as Ht. rewrite forallb_forall in Ht. specialize (Ht enc Hin).
  destruct enc as [|e enc]; [reflexivity|]. simpl in Ht. simpl.
  rewrite (bytes_prefix_before_ascii c b Hc enc l Ht). reflexivity.
Qed.

Lemma bytes_prefix_length (enc : list N) :
  forall l, bytes_prefix enc l = true -> List.length enc <= List.length l.
Proof.
  induction enc as [|e enc IH]; intros l H; simpl; [lia|].
  destruct l as [|x l]; simpl in H; [discriminate|].
  apply andb_true_iff in H. destruct H as [_ H]. apply IH in H. simpl. lia.
Qed.

Lemma ws_len_le (l : list ascii) : ws_len l <= List.length l.
Proof.
  unfold ws_len.
  destruct (find (fun enc => bytes_prefix enc l) whitespace_encodings) as [enc|] eqn:E;
    [|lia].
  apply find_some in E. destruct E as [_ E]. apply bytes_prefix_length. exact E.
Qed.

Lemma replace_ws_colon_before_ascii (c : ascii) (b : list ascii) :
  (N_of_ascii c <? 128)%N = true ->
  forall a skip,
    skip <= List.length a ->
    replace_ws_colon skip (a ++ c :: b)
    = replace_ws_colon skip a ++ replace_ws_colon 0 (c :: b).
Proof.
  intros Hc. induction a as [|x a IH]; intros skip Hskip.
  - simpl in Hskip. assert (skip = 0) by lia. subst skip. reflexivity.
  - cbn [app replace_ws_colon]. destruct skip as [|k].
    + rewrite (ws_len_before_ascii c x a b Hc).
      pose proof (ws_len_le (x :: a)) as Hle.
      destruct (ws_len (x :: a)) as [|k]; cbn [app]; f_equal; apply IH; simpl in *; lia.
    + apply IH. simpl in Hskip. lia.
Qed.

Lemma replace_space_colon_before_ascii (a : string) (c : ascii) (b : string) :
  (N_of_ascii c <? 128)%N = true ->
  replace_space_colon (a ++ String c b)
  = (replace_space_colon a ++ replace_space_colon (String c b))%string.
Proof.
  intros Hc. unfold replace_space_colon.
  rewrite list_ascii_of_string_app. cbn [list_ascii_of_string].
  rewrite (replace_ws_colon_before_ascii c _ Hc) by lia.
  apply string_of_list_ascii_app.
Qed.

(** The key that [updateReportStatus] computes for a stored row is the
    report key that the reconstruction gives to the report of that row. *)
Lemma comparableRowId_reportId (r : row) :
  comparableRowId r = ("report-" ++ replace_space_colon (timestampKey r))%string.
Proof.
  unfold comparableRowId, timestampKey.
  set (d := ToString (cell r 0)). set (t := ToString (cell r 1)).
  change ("report-" ++ d ++ "-" ++ t)%string
    with ("report-" ++ (d ++ String "-" t))%string.
  change (d ++ " " ++ t)%string with (d ++ String " " t)%string.
  rewrite (replace_space_colon_before_ascii d " " t) by reflexivity.
  transitivity ("report-" ++ replace_space_colon (d ++ String "-" t))%string.
  - reflexivity.
  - rewrite (replace_space_colon_before_ascii d "-" t) by reflexivity.
    reflexivity.
Qed.

(** X4. A report that the reconstruction returns carries the key that
    [updateReportStatus] computes for each of its rows: in any table, a row
    with the date and time of the report has the report key as its own key, so
    its sheet row, the index plus two, is among the rows that the status
    update of this report selects. *)
Theorem report_key_selects_its_rows (fresh : nat -> string) (rows table : list row)
    (subs : list Submission) (s : Submission) :
  parseSubmissionsFromRows fresh rows = Returned subs -> In s subs ->
  forall i r,
    nth_error table i = Some r -> timestampKey r = timestamp s ->
    comparableRowId r = reportId s
    /\ In (i + 2) (rowIndicesToUpdate (reportId s) 0 table).
Proof.
  intros H Hin i r Hi Hkey.
  destruct (parse_report_group _ _ _ _ H Hin) as [n Hs].
  apply build_submission_returned in Hs.
  destruct Hs as (first & rest & m & _ & _ & _ & Hid & _).
  assert (Hsame : comparableRowId r = reportId s).
  { rewrite comparableRowId_reportId, Hkey, Hid. reflexivity. }
  split; [exact Hsame|].
  apply rowIndicesToUpdate_In. exists i, r.
  split; [exact Hi|]. split; [reflexivity|].
  rewrite Hsame. apply startsWith_refl.
Qed.

(** The report of 2024-06-01 10:00 selects the stored row of that date and
    time, the sheet row 2. *)
Lemma report_key_selects_its_rows_witness :
  let rows := [may_row_1; may_row_2; june_row] in
  let june := nth 0 sample_reports no_report in
  let stored := nth 0 stored_reports [] in
  parseSubmissionsFromRows sample_uuid rows = Returned sample_reports
  /\ In june sample_reports
  /\ nth_error stored_reports 0 = Some stored
  /\ timestampKey stored = timestamp june
  /\ comparableRowId stored = reportId june
  /\ In 2 (rowIndicesToUpdate (reportId june) 0 stored_reports).
Proof.
  intros rows june stored.
  assert (H : parseSubmissionsFromRows sample_uuid rows = Returned sample_reports)
    by (vm_compute; reflexivity).
  assert (Hin : In june sample_reports) by (left; reflexivity).
  split; [exact H|]. split; [exact Hin|]. split; [reflexivity|]. split; [reflexivity|].
  exact (report_key_selects_its_rows sample_uuid rows stored_reports sample_reports june
           H Hin 0 stored eq_refl eq_refl).
Defined.

(** ** One submission, one report *)

Lemma rowsToAppend_In (date time : string) (payload : SubmitDeductionsPayload) (r : row) :
  In r (rowsToAppend date time payload)
  <-> exists c d, In c (p_contractors payload) /\ In d (deductions c)
                  /\ r = row_of_deduction date time payload c d.
Proof.
  unfold rowsToAppend. rewrite in_flat_map. split.
  - intros (c & Hc & Hr). apply in_map_iff in Hr. destruct Hr as (d & <- & Hd). eauto.
  - intros (c & d & Hc & Hd & ->). exists c. split; [exact Hc|].
    apply in_map. exact Hd.
Qed.

Lemma rowsToAppend_length (date time : string) (payload : SubmitDeductionsPayload) :
  List.length (rowsToAppend date time payload) = count_items (p_contractors payload).
Proof.
  unfold rowsToAppend, count_items.
  induction (p_contractors payload) as [|c cs IH]; simpl; [reflexivity|].
  rewrite length_app, length_map, IH. reflexivity.
Qed.

Lemma row_of_deduction_readable (date time : string) (payload : SubmitDeductionsPayload)
    (c : Contractor) (d : Deduction) :
  readable (row_of_deduction date time payload c d)
  = negb (inherited (ToString (contractorName c))).
Proof.
  unfold readable, row_of_deduction, cell. cbn [nth].
  unfold or_else. destruct (truthy (VStr _)); reflexivity.
Qed.

Lemma rows_of_key_all (k : string) (rows : list row) :
  (forall r, In r rows -> timestampKey r = k) -> rows_of_key k rows = rows.
Proof.
  intros H. unfold rows_of_key. induction rows as [|r rows IH]; simpl; [reflexivity|].
  rewrite (H r (or_introl eq_refl)), String.eqb_refl. f_equal.
  apply IH. intros r' Hr'. apply H. right. exact Hr'.
Qed.

Lemma one_key_one_group {V : Type} (k : string) (x : string * V) (l : list (string * V)) :
  NoDup (map fst l) -> (forall kv, In kv l -> fst kv = k) -> In x l -> l = [x].
Proof.
  intros Hnd Hall Hin. destruct l as [|y l]; [contradiction|].
  destruct l as [|z l].
  - destruct Hin as [->|[]]. reflexivity.
  - exfalso. simpl in Hnd. inversion Hnd as [|? ? Hnotin _]; subst.
    apply Hnotin. left.
    rewrite (Hall y (or_introl eq_refl)), (Hall z (or_intror (or_introl eq_refl))).
    reflexivity.
Qed.

(** X5. The rows that [submitDeductions] builds for a payload, under one
    date and time, are reconstructed without an exception exactly when no
    contractor with a line item bears a name that every object inherits.
    What is then returned is no report for a payload without line items, and
    otherwise exactly one report: its timestamp is the date, a space and the
    time, its user and company are those of the payload, its status is the
    pending-review one, and it has as many line items as the payload. *)
Theorem submission_reads_back_as_one_report (fresh : nat -> string) (date time : string)
    (payload : SubmitDeductionsPayload) :
  let rows := rowsToAppend date time payload in
  ((exists subs, parseSubmissionsFromRows fresh rows = Returned subs)
   <-> (forall c, In c (p_contractors payload) -> deductions c <> [] ->
                  inherited (ToString (contractorName c)) = false))
  /\ (forall subs,
         parseSubmissionsFromRows fresh rows = Returned subs ->
         match rows with
         | [] => subs = []
         | _ :: _ =>
             exists s,
               subs = [s]
               /\ timestamp s = (date ++ " " ++ time)%string
               /\ userEmail s = VStr (p_userEmail payload)
               /\ company s = VStr (company_name (p_company payload))
               /\ status s = VStr PENDING
               /\ count_items (contractors s) = count_items (p_contractors payload)
         end).
Proof.
  intros rows. split.
  - rewrite parse_returns_iff_readable, forallb_forall. split.
    + intros H c Hc Hne. destruct (deductions c) as [|d ds] eqn:E; [contradiction|].
      specialize (H (row_of_deduction date time payload c d)).
      rewrite row_of_deduction_readable, negb_true_iff in H. apply H.
      apply rowsToAppend_In. exists c, d. rewrite E. simpl. auto.
    + intros H r Hr. apply rowsToAppend_In in Hr. destruct Hr as (c & d & Hc & Hd & ->).
      rewrite row_of_deduction_readable, negb_true_iff. apply (H c Hc).
      intros E. rewrite E in Hd. contradiction.
  - intros subs H.
    assert (Hkey : forall r, In r rows -> timestampKey r = (date ++ " " ++ time)%string).
    { intros r Hr. apply rowsToAppend_In in Hr. destruct Hr as (c & d & _ & _ & ->).
      reflexivity. }
    apply parseSubmissionsFromRows_returned in H.
    destruct H as (groups & unsorted & _ & Hnd & Hgrp & Hrows & Hall & ->).
    destruct rows as [|r0 rest] eqn:Erows.
    + destruct groups as [|[k grp] groups].
      * inversion Hall. reflexivity.
      * exfalso. destruct (Hgrp k grp (or_introl eq_refl)) as [-> Hne].
        apply Hne. reflexivity.
    + assert (Hone : groups = [((date ++ " " ++ time)%string, r0 :: rest)]).
      { apply (one_key_one_group (date ++ " " ++ time)%string); [exact Hnd| |].
        - intros [k grp] Hin. simpl. destruct (Hgrp k grp Hin) as [-> Hne].
          destruct (rows_of_key k (r0 :: rest)) as [|r grp] eqn:E; [contradiction|].
          assert (Hr : In r (rows_of_key k (r0 :: rest))) by (rewrite E; left; reflexivity).
          apply filter_In in Hr. destruct Hr as [Hr Hk].
          apply String.eqb_eq in Hk. rewrite <- Hk. apply Hkey. exact Hr.
        - specialize (Hrows r0 (or_introl eq_refl)).
          rewrite (Hkey r0 (or_introl eq_refl)) in Hrows.
          rewrite (rows_of_key_all _ _ Hkey) in Hrows. exact Hrows. }
      subst groups. inversion Hall as [|? s ? ? [n Hs] Hrest]; subst.
      inversion Hrest; subst. exists s. split; [reflexivity|].
      pose proof (build_submission_count _ _ _ _ _ Hs) as Hc.
      apply build_submission_returned in Hs.
      destruct Hs as (first & rest' & m & Hg & _ & Ht & _ & He & Hst & Hco & _).
      inversion Hg; subst first rest'.
      assert (Hr0 : In r0 (rowsToAppend date time payload))
        by (fold rows; rewrite Erows; left; reflexivity).
      apply rowsToAppend_In in Hr0. destruct Hr0 as (c & d & _ & _ & Er0).
      rewrite Ht, He, Hco, Hst, Hc, Er0.
      repeat split; try reflexivity.
      rewrite <- Er0, <- Erows. apply rowsToAppend_length.
Qed.

(** ** One report per date and time *)

(** X6. The reconstruction returns one report for each date and time that
    a row has: the timestamps of the reports are distinct, and they are
    exactly the composite keys of the rows. *)
Theorem one_report_per_timestamp (fresh : nat -> string) (rows : list row)
    (subs : list Submission) :
  parseSubmissionsFromRows fresh rows = Returned subs ->
  NoDup (map timestamp subs)
  /\ forall k, In k (map timestamp subs) <-> exists r, In r rows /\ timestampKey r = k.
Proof.
  intros H. split; [eapply parse_timestamps_NoDup; exact H|].
  apply parseSubmissionsFromRows_returned in H.
  destruct H as (groups & unsorted & _ & _ & Hgrp & Hrows & Hall & ->).
  intros k.
  assert (Hperm : In k (map timestamp (Array_sort compare_submissions unsorted))
                  <-> In k (map fst groups)).
  { rewrite <- (Forall2_timestamps _ _ _ Hall).
    pose proof (Permutation_map timestamp (Array_sort_perm compare_submissions unsorted))
      as Hp.
    split; [apply (Permutation_in _ Hp) | apply (Permutation_in _ (Permutation_sym Hp))]. }
  rewrite Hperm. split.
  - intros Hk. apply in_map_iff in Hk. destruct Hk as ([k' grp] & <- & Hin).
    destruct (Hgrp k' grp Hin) as [-> Hne]. simpl.
    destruct (rows_of_key k' rows) as [|r grp] eqn:E; [contradiction|].
    assert (Hr : In r (rows_of_key k' rows)) by (rewrite E; left; reflexivity).
    apply filter_In in Hr. destruct Hr as [Hr Hk]. apply String.eqb_eq in Hk. eauto.
  - intros (r & Hr & <-). apply in_map_iff.
    exists (timestampKey r, rows_of_key (timestampKey r) rows). split; [reflexivity|].
    apply Hrows, Hr.
Qed.

Lemma one_report_per_timestamp_witness :
  parseSubmissionsFromRows sample_uuid [may_row_1; may_row_2; june_row]
    = Returned sample_reports
  /\ map timestamp sample_reports = ["2024-06-01 10:00"; "2024-05-01 09:00"]
  /\ NoDup (map timestamp sample_reports).
Proof.
  split; [vm_compute; reflexivity|]. split; [reflexivity|].
  apply (one_report_per_timestamp sample_uuid [may_row_1; may_row_2; june_row]).
  vm_compute. reflexivity.
Defined.

(** ** The order of the contractors *)

Lemma existsb_name (k : string) (l : list string) :
  existsb (String.eqb k) l = true <-> In k l.
Proof.
  rewrite existsb_exists. split.
  - intros (x & Hin & Hx). apply String.eqb_eq in Hx. subst. exact Hin.
  - intros Hin. exists k. split; [exact Hin | apply String.eqb_refl].
Qed.

Lemma names_in_order_snoc (rows : list row) (r : row) :
  names_in_order (rows ++ [r])
  = if existsb (String.eqb (ToString (cell r 4))) (names_in_order rows)
    then names_in_order rows
    else names_in_order rows ++ [ToString (cell r 4)].
Proof. unfold names_in_order. rewrite fold_left_app. reflexivity. Qed.

Lemma names_in_order_In (rows : list row) (k : string) :
  In k (names_in_order rows) -> exists r, In r rows /\ ToString (cell r 4) = k.
Proof.
  induction rows as [|r rows IH] using rev_ind; [contradiction|].
  rewrite names_in_order_snoc.
  destruct (existsb (String.eqb (ToString (cell r 4))) (names_in_order rows)).
  - intros H. destruct (IH H) as (r' & Hr' & Hk). exists r'. split; [|exact Hk].
    apply in_or_app. left. exact Hr'.
  - intros H. apply in_app_or in H. destruct H as [H|[<-|[]]].
    + destruct (IH H) as (r' & Hr' & Hk). exists r'. split; [|exact Hk].
      apply in_or_app. left. exact Hr'.
    + exists r. split; [apply in_or_app; right; left; reflexivity | reflexivity].
Qed.

(** The keys of [contractorsMap] are the names in the order in which they
    first appear. *)
Lemma fill_contractors_keys (fresh : nat -> string) (rows : list row) :
  forall n m, fill_contractors fresh n rows [] = Returned m ->
              map fst m = names_in_order rows.
Proof.
  induction rows as [|r rows IH] using rev_ind; intros n m H.
  - simpl in H. inversion H. reflexivity.
  - rewrite fill_contractors_snoc in H.
    destruct (fill_contractors fresh n rows []) as [m1|e] eqn:E; simpl in H; [|discriminate].
    apply contractor_step_returned in H. destruct H as (d & _ & _ & ->).
    unfold add_deduction. rewrite set_property_keys, names_in_order_snoc.
    rewrite <- (IH n m1 E).
    destruct (own m1 (ToString (cell r 4))) as [c|] eqn:Hown.
    + apply own_In in Hown.
      rewrite (proj2 (existsb_name _ _)); [reflexivity|].
      apply in_map_iff. exists (ToString (cell r 4), c). auto.
    + apply own_None in Hown.
      destruct (existsb (String.eqb (ToString (cell r 4))) (map fst m1)) eqn:Ex;
        [|reflexivity].
      apply existsb_name in Ex. contradiction.
Qed.

(** X7. In a report none of whose rows has a contractor name that is an
    array index ([0], [7], ...), the contractors stand in the order in which
    their names first appear in the rows of the report, and the id of each
    is its name after [contractor-]. *)
Theorem contractors_in_order_of_first_row (fresh : nat -> string) (rows : list row)
    (subs : list Submission) (s : Submission) :
  parseSubmissionsFromRows fresh rows = Returned subs -> In s subs ->
  (forall r, In r (rows_of_key (timestamp s) rows) ->
             array_index (ToString (cell r 4)) = None) ->
  map (fun c => ToString (contractorName c)) (contractors s)
  = names_in_order (rows_of_key (timestamp s) rows)
  /\ Forall (fun c => c_id c = ("contractor-" ++ ToString (contractorName c))%string)
            (contractors s).
Proof.
  intros H Hin Hnames.
  destruct (parse_report_group _ _ _ _ H Hin) as [n Hb].
  apply build_submission_returned in Hb.
  destruct Hb as (first & rest & m & _ & Hfill & _ & _ & _ & _ & _ & Hcs & _).
  pose proof (fill_contractors_filled _ _ _ _ Hfill) as Hfilled.
  pose proof (fill_contractors_keys _ _ _ _ Hfill) as Hkeys.
  assert (Hplain : Forall (fun kv => array_index (fst kv) = None) m).
  { apply Forall_forall. intros [k c] Hkc. simpl.
    assert (Hk : In k (names_in_order (rows_of_key (timestamp s) rows))).
    { rewrite <- Hkeys. apply in_map_iff. exists (k, c). auto. }
    apply names_in_order_In in Hk. destruct Hk as (r & Hr & <-). apply Hnames, Hr. }
  assert (Hvalues : contractors s = map snd m).
  { rewrite Hcs. unfold Object_values. rewrite (Object_entries_no_index m Hplain).
    reflexivity. }
  rewrite Hvalues. split.
  - rewrite <- Hkeys, map_map. apply map_ext_in. intros [k c] Hkc. simpl.
    apply (filled_key _ _ _ _ Hfilled Hkc).
  - apply Forall_forall. intros c Hc. apply in_map_iff in Hc.
    destruct Hc as ([k c'] & <- & Hkc). simpl.
    destruct (filled_key _ _ _ _ Hfilled Hkc) as [_ Hb].
    destruct (rows_of_name k (rows_of_key (timestamp s) rows)) as [|r0 mine];
      simpl in Hb; [contradiction|].
    destruct Hb as (Hid & Hname & _). rewrite Hid, Hname. reflexivity.
Qed.

(** The two contractors of 2024-06-01 10:00 stand in the order of their
    rows; a contractor called ["7"] stands before one called ["b"] whose row
    comes first. *)
Lemma contractors_in_order_of_first_row_witness :
  let rows := [june_row; june_row_other] in
  let june := nth 0 (reports_of (parseSubmissionsFromRows sample_uuid rows)) no_report in
  map (fun c => ToString (contractorName c)) (contractors june)
  = ["هندسة المستقبل"; "مجموعة التعمير"]
  /\ map (fun r => ToString (cell r 4)) numbered_name_rows = ["b"; "7"]
  /\ map (fun s => map (fun c => ToString (contractorName c)) (contractors s))
         (reports_of (parseSubmissionsFromRows sample_uuid numbered_name_rows))
     = [["7"; "b"]].
Proof.
  intros rows june.
  assert (H : parseSubmissionsFromRows sample_uuid rows = Returned [june])
    by (vm_compute; reflexivity).
  destruct (contractors_in_order_of_first_row sample_uuid rows [june] june H
              (or_introl eq_refl)) as [Horder _].
  - intros r Hr. vm_compute in Hr. destruct Hr as [<-|[<-|[]]]; vm_compute; reflexivity.
  - split; [|split; vm_compute; reflexivity].
    rewrite Horder. vm_compute. reflexivity.
Defined.

(** ** The ids of the line items *)

Lemma new_deduction_id (uuid : string) (r : row) (d : Deduction) :
  new_deduction uuid r = Returned d -> d_id d = ("deduction-" ++ uuid)%string.
Proof.
  unfold new_deduction. destruct (or_else (cell r 8) (VStr "")); intros H;
    inversion H; reflexivity.
Qed.

Lemma map_item_ids (m : obj Contractor) :
  contractor_item_ids (map snd m) = flat_map (fun kv => map d_id (deductions (snd kv))) m.
Proof.
  unfold contractor_item_ids. induction m as [|[k c] m IH]; simpl; [reflexivity|].
  rewrite IH. reflexivity.
Qed.

Lemma item_ids_set_property (m : obj Contractor) (k : string) (c : Contractor)
    (d : Deduction) :
  (match own m k with
   | Some c' => c = c'
   | None => deductions c = []
   end) ->
  Permutation (contractor_item_ids (map snd (set_property m k (push_deduction c d))))
              (contractor_item_ids (map snd m) ++ [d_id d]).
Proof.
  unfold contractor_item_ids. induction m as [|[k' c'] m IH]; simpl; intros H.
  - rewrite H. simpl. apply Permutation_refl.
  - destruct (k' =? k)%string.
    + subst c'. simpl. rewrite map_app. simpl. rewrite <- !app_assoc.
      apply Permutation_app_head. apply Permutation_app_comm.
    + simpl. rewrite <- app_assoc. apply Permutation_app_head. apply IH. exact H.
Qed.

Lemma fill_contractors_ids (fresh : nat -> string) (rows : list row) :
  forall n m,
    fill_contractors fresh n rows [] = Returned m ->
    Permutation (contractor_item_ids (map snd m))
                (map (fresh_id fresh) (seq n (List.length rows))).
Proof.
  induction rows as [|r rows IH] using rev_ind; intros n m H.
  - simpl in H. inversion H. apply Permutation_refl.
  - rewrite fill_contractors_snoc in H.
    destruct (fill_contractors fresh n rows []) as [m1|e] eqn:E; simpl in H; [|discriminate].
    apply contractor_step_returned in H. destruct H as (d & Hd & _ & ->).
    rewrite length_app, seq_app, map_app. cbn [List.length seq map].
    unfold add_deduction.
    eapply Permutation_trans.
    + apply item_ids_set_property.
      destruct (own m1 (ToString (cell r 4))); reflexivity.
    + apply Permutation_app; [apply (IH n m1 E)|].
      rewrite (new_deduction_id _ _ _ Hd). apply Permutation_refl.
Qed.

Lemma build_submission_ids (fresh : nat -> string) (n : nat) (k : string) (grp : list row)
    (s : Submission) :
  build_submission fresh n (k, grp) = Returned s ->
  Permutation (contractor_item_ids (contractors s))
              (map (fresh_id fresh) (seq n (List.length grp))).
Proof.
  intros H. apply build_submission_returned in H.
  destruct H as (first & rest & m & _ & Hfill & _ & _ & _ & _ & _ & Hcs & _).
  rewrite Hcs. eapply Permutation_trans; [|apply (fill_contractors_ids _ _ _ _ Hfill)].
  unfold contractor_item_ids. apply Permutation_flat_map. apply Object_values_perm.
Qed.

Lemma build_submissions_ids (fresh : nat -> string) (entries : list (string * list row)) :
  forall n subs,
    build_submissions fresh n entries = Returned subs ->
    Permutation (item_ids subs)
                (map (fresh_id fresh)
                     (seq n (list_sum (map (fun e => List.length (snd e)) entries)))).
Proof.
  induction entries as [|[k grp] entries IH]; intros n subs H; cbn [build_submissions snd] in H.
  - inversion H. apply Permutation_refl.
  - destruct (build_submission fresh n (k, grp)) as [s|e] eqn:E; cbn [bind] in H;
      [|discriminate].
    destruct (build_submissions fresh (n + List.length grp) entries) as [ss|e] eqn:E';
      cbn [bind] in H; [|discriminate].
    inversion H; subst subs. cbn [map list_sum fold_right snd].
    rewrite seq_app, map_app. unfold item_ids. cbn [flat_map].
    apply Permutation_app; [apply (build_submission_ids _ _ _ _ _ E) | apply (IH _ _ E')].
Qed.

Lemma groups_total (rows : list row) (groups : list (string * list row)) :
  NoDup (map fst groups) ->
  (forall k grp, In (k, grp) groups -> grp = rows_of_key k rows /\ grp <> []) ->
  (forall r, In r rows -> In (timestampKey r, rows_of_key (timestampKey r) rows) groups) ->
  list_sum (map (fun e => List.length (snd e)) groups) = List.length rows.
Proof.
  intros Hnd Hgrp Hrows.
  rewrite <- (rows_under_keys timestampKey (map fst groups) rows Hnd).
  - rewrite map_map. f_equal. apply map_ext_in. intros [k grp] Hin. simpl.
    destruct (Hgrp k grp Hin) as [-> _]. reflexivity.
  - intros r Hr. apply in_map_iff.
    exists (timestampKey r, rows_of_key (timestampKey r) rows). split; [reflexivity|].
    apply Hrows, Hr.
Qed.

Lemma fresh_id_inj (fresh : nat -> string) (i j : nat) :
  fresh_id fresh i = fresh_id fresh j -> fresh i = fresh j.
Proof. unfold fresh_id. intros H. inversion H. reflexivity. Qed.

Lemma NoDup_map_seq (f : nat -> string) (n len : nat) :
  (forall i j, n <= i < n + len -> n <= j < n + len -> f i = f j -> i = j) ->
  NoDup (map f (seq n len)).
Proof.
  revert n. induction len as [|len IH]; intros n Hinj; simpl; constructor.
  - intros Hin. apply in_map_iff in Hin. destruct Hin as (j & Hj & Hin).
    apply in_seq in Hin. assert (j = n) by (apply Hinj; [lia | lia | exact Hj]). lia.
  - apply IH. intros i j Hi Hj. apply Hinj; lia.
Qed.

Lemma item_ids_fresh (fresh : nat -> string) (rows : list row) (subs : list Submission) :
  parseSubmissionsFromRows fresh rows = Returned subs ->
  Permutation (item_ids subs) (map (fresh_id fresh) (seq 0 (List.length rows))).
Proof.
  intros H. unfold parseSubmissionsFromRows in H.
  destruct (groupedByTimestamp_spec rows) as (groups & Hg & Hnd & _ & Hgrp & Hrows).
  rewrite Hg in H. cbn [bind] in H.
  destruct (build_submissions fresh 0 (Object_entries groups)) as [unsorted|e] eqn:E;
    cbn [bind] in H; [|discriminate].
  inversion H; subst subs.
  eapply Permutation_trans.
  - unfold item_ids. apply Permutation_flat_map. apply Array_sort_perm.
  - eapply Permutation_trans; [apply (build_submissions_ids _ _ _ _ E)|].
    rewrite (list_sum_perm _ _ (Permutation_map _ (Object_entries_perm groups))).
    rewrite (groups_total rows groups Hnd Hgrp Hrows). apply Permutation_refl.
Qed.

(** X8. The ids of the line items of the reports are made from the values
    that [randomUUID] returns: up to their order they are [deduction-]
    followed by the values of its first calls, one call for each row and each
    value for one line item.  When these values are distinct no two line items
    share an id. *)
Theorem line_item_ids_are_the_fresh_uuids (fresh : nat -> string) (rows : list row)
    (subs : list Submission) :
  parseSubmissionsFromRows fresh rows = Returned subs ->
  Permutation (item_ids subs) (map (fresh_id fresh) (seq 0 (List.length rows)))
  /\ ((forall i j, i < List.length rows -> j < List.length rows ->
                   fresh i = fresh j -> i = j) ->
      NoDup (item_ids subs)).
Proof.
  intros H. pose proof (item_ids_fresh _ _ _ H) as Hperm.
  split; [exact Hperm|].
  intros Hinj. apply (Permutation_NoDup (Permutation_sym Hperm)).
  apply NoDup_map_seq. intros i j Hi Hj Hij.
  apply Hinj; [lia | lia | apply fresh_id_inj; exact Hij].
Qed.

Lemma line_item_ids_are_the_fresh_uuids_witness :
  parseSubmissionsFromRows numbered_uuid [may_row_1; may_row_2; june_row]
    = Returned (reports_of (parseSubmissionsFromRows numbered_uuid
                              [may_row_1; may_row_2; june_row]))
  /\ item_ids (reports_of (parseSubmissionsFromRows numbered_uuid
                             [may_row_1; may_row_2; june_row]))
     = ["deduction-2"; "deduction-0"; "deduction-1"]
  /\ Permutation (item_ids (reports_of (parseSubmissionsFromRows numbered_uuid
                                          [may_row_1; may_row_2; june_row])))
                 (map (fresh_id numbered_uuid) (seq 0 3)).
Proof.
  split; [vm_compute; reflexivity|]. split; [vm_compute; reflexivity|].
  apply (line_item_ids_are_the_fresh_uuids numbered_uuid [may_row_1; may_row_2; june_row]).
  vm_compute. reflexivity.
Defined.

(** ** The report of a row *)

Lemma add_deduction_keeps (m : obj Contractor) (r : row) (d : Deduction) (k : string)
    (c : Contractor) (d' : Deduction) :
  own m k = Some c -> In d' (deductions c) ->
  exists c', own (add_deduction m r d) k = Some c' /\ In d' (deductions c').
Proof.
  intros Hown Hin. unfold add_deduction.
  destruct (String.eqb_spec (ToString (cell r 4)) k) as [->|Hne].
  - rewrite own_set_same, Hown. eexists. split; [reflexivity|].
    cbn [push_deduction deductions]. apply in_or_app. left. exact Hin.
  - rewrite own_set_other by congruence. eauto.
Qed.

Lemma add_deduction_adds (m : obj Contractor) (r : row) (d : Deduction) :
  exists c', own (add_deduction m r d) (ToString (cell r 4)) = Some c' /\ In d (deductions c').
Proof.
  unfold add_deduction. rewrite own_set_same. eexists. split; [reflexivity|].
  cbn [push_deduction deductions]. apply in_or_app. right. left. reflexivity.
Qed.

(** The [j]-th row of a group gives a line item, with the [j]-th value drawn
    for the group, to the contractor of its name. *)
Lemma fill_contractors_places (fresh : nat -> string) (rows : list row) :
  forall n m,
    fill_contractors fresh n rows [] = Returned m ->
    forall j r,
      nth_error rows j = Some r ->
      exists c d,
        own m (ToString (cell r 4)) = Some c /\ In d (deductions c)
        /\ new_deduction (fresh (n + j)) r = Returned d.
Proof.
  induction rows as [|r0 rows IH] using rev_ind; intros n m H j r Hj.
  - destruct j; discriminate.
  - rewrite fill_contractors_snoc in H.
    destruct (fill_contractors fresh n rows []) as [m1|e] eqn:E; simpl in H; [|discriminate].
    apply contractor_step_returned in H. destruct H as (d & Hd & _ & ->).
    destruct (Nat.lt_ge_cases j (List.length rows)) as [Hlt|Hge].
    + rewrite nth_error_app1 in Hj by exact Hlt.
      destruct (IH n m1 E j r Hj) as (c & d' & Hown & Hin & Hnew).
      destruct (add_deduction_keeps m1 r0 d _ c d' Hown Hin) as (c' & Hown' & Hin').
      exists c', d'. auto.
    + rewrite nth_error_app2 in Hj by exact Hge.
      destruct (j - List.length rows) as [|j'] eqn:Ej; [|destruct j'; discriminate].
      cbn [nth_error] in Hj. inversion Hj; subst r0.
      replace (n + j) with (n + List.length rows) by lia.
      destruct (add_deduction_adds m1 r d) as (c' & Hown' & Hin').
      exists c', d. auto.
Qed.

Lemma build_submission_places (fresh : nat -> string) (n : nat) (k : string)
    (grp : list row) (s : Submission) :
  build_submission fresh n (k, grp) = Returned s ->
  forall j r, nth_error grp j = Some r -> placed_in s (fresh (n + j)) r.
Proof.
  intros H j r Hj. apply build_submission_returned in H.
  destruct H as (first & rest & m & _ & Hfill & _ & _ & _ & _ & _ & Hcs & _).
  destruct (fill_contractors_places _ _ _ _ Hfill j r Hj) as (c & d & Hown & Hin & Hnew).
  exists c, d. split; [|split; assumption].
  rewrite Hcs. apply (Permutation_in _ (Permutation_sym (Object_values_perm m))).
  apply in_map_iff. exists (ToString (cell r 4), c). split; [reflexivity|].
  apply own_In. exact Hown.
Qed.

(** The rows of the groups, group after group, draw the values of
    [randomUUID] in order; each is placed in the report of its group. *)
Lemma build_submissions_places (fresh : nat -> string) (entries : list (string * list row)) :
  forall n subs,
    build_submissions fresh n entries = Returned subs ->
    forall j r,
      nth_error (flat_map snd entries) j = Some r ->
      exists s k grp,
        In s subs /\ In (k, grp) entries /\ In r grp /\ timestamp s = k
        /\ placed_in s (fresh (n + j)) r.
Proof.
  induction entries as [|[k grp] entries IH]; intros n subs H j r Hj.
  - destruct j; discriminate.
  - cbn [build_submissions snd] in H.
    destruct (build_submission fresh n (k, grp)) as [s|e] eqn:E; cbn [bind] in H;
      [|discriminate].
    destruct (build_submissions fresh (n + List.length grp) entries) as [ss|e] eqn:E';
      cbn [bind] in H; [|discriminate].
    inversion H; subst subs. cbn [flat_map snd] in Hj.
    destruct (Nat.lt_ge_cases j (List.length grp)) as [Hlt|Hge].
    + rewrite nth_error_app1 in Hj by exact Hlt.
      exists s, k, grp.
      split; [left; reflexivity|]. split; [left; reflexivity|].
      split; [eapply nth_error_In; exact Hj|].
      split; [|apply (build_submission_places _ _ _ _ _ E); exact Hj].
      apply build_submission_returned in E.
      destruct E as (first & rest & m & _ & _ & Hts & _). exact Hts.
    + rewrite nth_error_app2 in Hj by exact Hge.
      destruct (IH _ _ E' _ _ Hj) as (s' & k' & grp' & Hs & Hin & Hr & Hts & Hp).
      exists s', k', grp'.
      split; [right; exact Hs|]. split; [right; exact Hin|].
      split; [exact Hr|]. split; [exact Hts|].
      replace (n + j) with (n + List.length grp + (j - List.length grp)) by lia.
      exact Hp.
Qed.

Lemma add_to_group_rows (acc : obj (list row)) (r : row) :
  Permutation (flat_map snd (add_to_group acc r)) (flat_map snd acc ++ [r]).
Proof.
  unfold add_to_group. induction acc as [|[k g] acc IH]; cbn [own set_property flat_map snd].
  - reflexivity.
  - destruct (k =? timestampKey r)%string; cbn [flat_map snd].
    + rewrite <- !app_assoc. apply Permutation_app_head. apply Permutation_app_comm.
    + rewrite <- app_assoc. apply Permutation_app_head. exact IH.
Qed.

Lemma grouped_rows (rows : list row) :
  forall acc,
    Permutation (flat_map snd (fold_left add_to_group rows acc)) (flat_map snd acc ++ rows).
Proof.
  induction rows as [|r rows IH]; intros acc; cbn [fold_left].
  - rewrite app_nil_r. reflexivity.
  - rewrite IH, add_to_group_rows, <- app_assoc. reflexivity.
Qed.

Lemma group_keys_in_order (rows : list row) :
  forall acc,
    map fst (fold_left add_to_group rows acc)
    = fold_left (fun keys r =>
                   let k := timestampKey r in
                   if existsb (String.eqb k) keys then keys else keys ++ [k])
                rows (map fst acc).
Proof.
  induction rows as [|r rows IH]; intros acc; cbn [fold_left]; [reflexivity|].
  rewrite IH. f_equal. unfold add_to_group. rewrite set_property_keys. cbv zeta.
  destruct (own acc (timestampKey r)) as [g|] eqn:Hown.
  - apply own_In in Hown.
    rewrite (proj2 (existsb_name _ _)); [reflexivity|].
    apply in_map_iff. exists (timestampKey r, g). auto.
  - apply own_None in Hown.
    destruct (existsb (String.eqb (timestampKey r)) (map fst acc)) eqn:Ex; [|reflexivity].
    apply existsb_name in Ex. contradiction.
Qed.

Lemma groups_of_keys (rows : list row) (groups : list (string * list row)) :
  (forall k grp, In (k, grp) groups -> grp = rows_of_key k rows /\ grp <> []) ->
  flat_map snd groups = flat_map (fun k => rows_of_key k rows) (map fst groups).
Proof.
  induction groups as [|[k grp] groups IH]; intros H; cbn [flat_map map fst snd];
    [reflexivity|].
  destruct (H k grp (or_introl eq_refl)) as [-> _].
  rewrite IH; [reflexivity|]. intros k' grp' Hin. apply H. right. exact Hin.
Qed.

(** Every row is placed in a report, the one of its date and time: the rows,
    taken group after group, draw the values of [randomUUID] in order. *)
Lemma reconstruction_places (fresh : nat -> string) (rows : list row)
    (subs : list Submission) :
  parseSubmissionsFromRows fresh rows = Returned subs ->
  Permutation (visit_order rows) rows
  /\ forall k r,
       nth_error (visit_order rows) k = Some r ->
       exists s, In s subs /\ timestamp s = timestampKey r /\ placed_in s (fresh k) r.
Proof.
  intros H. unfold parseSubmissionsFromRows in H.
  destruct (groupedByTimestamp_spec rows) as (groups & Hg & _ & Hsp & Hgrp & _).
  rewrite Hg in H. cbn [bind] in H.
  rewrite Object_entries_no_index in H.
  2:{ eapply Forall_impl; [|exact Hsp]. intros kv. apply array_index_space. }
  destruct (build_submissions fresh 0 groups) as [unsorted|e] eqn:E; cbn [bind] in H;
    [|discriminate].
  inversion H; subst subs.
  assert (Hvisit : visit_order rows = flat_map snd groups).
  { rewrite (groups_of_keys rows groups Hgrp).
    unfold groupedByTimestamp in Hg. rewrite reduce_group_step in Hg.
    inversion Hg. rewrite (group_keys_in_order rows []). reflexivity. }
  rewrite Hvisit. split.
  - unfold groupedByTimestamp in Hg. rewrite reduce_group_step in Hg.
    inversion Hg. apply (grouped_rows rows []).
  - intros k r Hk.
    destruct (build_submissions_places _ _ _ _ E k r Hk)
      as (s & key & grp & Hs & Hin & Hr & Hts & Hp).
    exists s. split; [|split; [|exact Hp]].
    + apply (Permutation_in _ (Permutation_sym (Array_sort_perm _ _))). exact Hs.
    + destruct (Hgrp key grp Hin) as [-> _].
      apply filter_In in Hr. destruct Hr as [_ Hr]. apply String.eqb_eq in Hr. congruence.
Qed.

Lemma NoDup_app_apart {A : Type} (l l' : list A) (x : A) :
  NoDup (l ++ l') -> In x l -> In x l' -> False.
Proof.
  induction l as [|y l IH]; cbn [app]; intros Hnd Hl Hl'; [contradiction|].
  inversion Hnd as [|? ? Hnotin Hnd']; subst.
  destruct Hl as [->|Hl].
  - apply Hnotin. apply in_or_app. right. exact Hl'.
  - exact (IH Hnd' Hl Hl').
Qed.

Lemma NoDup_flat_map_one {A B : Type} (f : A -> list B) (l : list A) (a b : A) (x : B) :
  NoDup (flat_map f l) -> In a l -> In b l -> In x (f a) -> In x (f b) -> a = b.
Proof.
  induction l as [|y l IH]; cbn [flat_map]; intros Hnd Ha Hb Hxa Hxb; [contradiction|].
  destruct Ha as [->|Ha]; destruct Hb as [->|Hb].
  - reflexivity.
  - exfalso. apply (NoDup_app_apart _ _ x Hnd Hxa).
    apply in_flat_map. exists b. split; assumption.
  - exfalso. apply (NoDup_app_apart _ _ x Hnd Hxb).
    apply in_flat_map. exists a. split; assumption.
  - apply IH; try assumption. apply NoDup_app_remove_l in Hnd. exact Hnd.
Qed.

Lemma NoDup_map_one {A B : Type} (f : A -> B) (l : list A) (a b : A) :
  NoDup (map f l) -> In a l -> In b l -> f a = f b -> a = b.
Proof.
  induction l as [|y l IH]; cbn [map]; intros Hnd Ha Hb Hab; [contradiction|].
  inversion Hnd as [|? ? Hnotin Hnd']; subst.
  destruct Ha as [->|Ha]; destruct Hb as [->|Hb].
  - reflexivity.
  - exfalso. apply Hnotin. rewrite Hab. apply in_map. exact Hb.
  - exfalso. apply Hnotin. rewrite <- Hab. apply in_map. exact Ha.
  - apply IH; assumption.
Qed.

Lemma placed_in_id (s : Submission) (uuid : string) (r : row) :
  placed_in s uuid r -> In ("deduction-" ++ uuid)%string (contractor_item_ids (contractors s)).
Proof.
  intros (c & d & Hc & Hd & Hnew). unfold contractor_item_ids.
  apply in_flat_map. exists c. split; [exact Hc|].
  rewrite <- (new_deduction_id _ _ _ Hnew). apply in_map. exact Hd.
Qed.

Lemma item_ids_NoDup (fresh : nat -> string) (rows : list row) (subs : list Submission) :
  parseSubmissionsFromRows fresh rows = Returned subs ->
  (forall i j, i < List.length rows -> j < List.length rows -> fresh i = fresh j -> i = j) ->
  NoDup (item_ids subs).
Proof.
  intros H Hinj. apply (Permutation_NoDup (Permutation_sym (item_ids_fresh _ _ _ H))).
  apply NoDup_map_seq. intros i j Hi Hj Hij.
  apply Hinj; [lia | lia | apply fresh_id_inj; exact Hij].
Qed.

(** With distinct values of [randomUUID], two rows are placed in the same
    report exactly when they have the same key. *)
Lemma same_report_iff_key (fresh : nat -> string) (rows : list row)
    (subs : list Submission) :
  parseSubmissionsFromRows fresh rows = Returned subs ->
  (forall i j, i < List.length rows -> j < List.length rows -> fresh i = fresh j -> i = j) ->
  forall k1 k2 r1 r2,
    nth_error (visit_order rows) k1 = Some r1 -> nth_error (visit_order rows) k2 = Some r2 ->
    (same_report subs (fresh k1) r1 (fresh k2) r2 <-> timestampKey r1 = timestampKey r2).
Proof.
  intros H Hinj k1 k2 r1 r2 H1 H2.
  destruct (reconstruction_places _ _ _ H) as (_ & Hplace).
  destruct (Hplace k1 r1 H1) as (s1 & Hs1 & Ht1 & Hp1).
  destruct (Hplace k2 r2 H2) as (s2 & Hs2 & Ht2 & Hp2).
  pose proof (item_ids_NoDup _ _ _ H Hinj) as Hnd. unfold item_ids in Hnd.
  split.
  - intros (s & Hs & Hq1 & Hq2).
    assert (E1 : s = s1).
    { apply (NoDup_flat_map_one _ _ _ _ _ Hnd Hs Hs1 (placed_in_id _ _ _ Hq1)
               (placed_in_id _ _ _ Hp1)). }
    assert (E2 : s = s2).
    { apply (NoDup_flat_map_one _ _ _ _ _ Hnd Hs Hs2 (placed_in_id _ _ _ Hq2)
               (placed_in_id _ _ _ Hp2)). }
    congruence.
  - intros Hk. exists s1. split; [exact Hs1|]. split; [exact Hp1|].
    assert (E : s1 = s2).
    { apply (NoDup_map_one timestamp subs); try assumption.
      - apply (parse_timestamps_NoDup _ _ _ H).
      - congruence. }
    rewrite E. exact Hp2.
Qed.

(** C3, as stated, fails: two rows whose date cells differ and whose time
    cells differ are placed in the same report when the date, a space and the
    time read the same; the reconstruction returns one report holding the
    line items of both. *)
Lemma report_boundary_not_the_cells :
  cell datetime_in_date_row 0 <> cell trailing_space_row 0
  /\ cell datetime_in_date_row 1 <> cell trailing_space_row 1
  /\ parseSubmissionsFromRows sample_uuid [datetime_in_date_row; trailing_space_row]
     = Returned [merged_report]
  /\ same_report [merged_report] (sample_uuid 0) datetime_in_date_row
                 (sample_uuid 1) trailing_space_row
  /\ map (fun c => map itemName (deductions c)) (contractors merged_report)
     = [[VStr "بند 3"; VStr "بند 1"]].
Proof.
  split; [discriminate|].
  split; [discriminate|].
  split; [vm_compute; reflexivity|].
  split; [|reflexivity].
  exists merged_report. split; [left; reflexivity|].
  split.
  - exists (nth 0 (contractors merged_report) (mkContractor "" VUndef VUndef [])),
           (nth 0 (deductions (nth 0 (contractors merged_report)
                                    (mkContractor "" VUndef VUndef [])))
                (mkDeduction "" VUndef VUndef VUndef VUndef VUndef VUndef VUndef VUndef)).
    split; [left; reflexivity|]. split; [left; reflexivity|]. vm_compute. reflexivity.
  - exists (nth 0 (contractors merged_report) (mkContractor "" VUndef VUndef [])),
           (nth 1 (deductions (nth 0 (contractors merged_report)
                                    (mkContractor "" VUndef VUndef [])))
                (mkDeduction "" VUndef VUndef VUndef VUndef VUndef VUndef VUndef VUndef)).
    split; [left; reflexivity|]. split; [right; left; reflexivity|]. vm_compute. reflexivity.
Qed.

(** C3, amended.  The values of [randomUUID] being distinct, every row of
    the input is placed in one report of the output and no other, the report
    whose timestamp is the date cell, a space and the time cell of the row;
    so two rows are placed in the same report exactly when these strings are
    equal.  For rows whose date and time cells are strings, the date without
    a space, this is: the date cells are identical and the time cells are
    identical.  Two rows of text with identical date and time cells and
    different contractor names, neither of them a name that every object
    inherits, reconstruct into one report with two contractors. *)
Theorem report_boundary_is_the_timestamp_key :
  (forall fresh rows subs,
      parseSubmissionsFromRows fresh rows = Returned subs ->
      (forall i j, i < List.length rows -> j < List.length rows ->
                   fresh i = fresh j -> i = j) ->
      Permutation (visit_order rows) rows
      /\ (forall k r,
             nth_error (visit_order rows) k = Some r ->
             exists s,
               In s subs /\ timestamp s = timestampKey r /\ placed_in s (fresh k) r
               /\ forall s', In s' subs -> placed_in s' (fresh k) r -> s' = s)
      /\ (forall k1 k2 r1 r2,
             nth_error (visit_order rows) k1 = Some r1 ->
             nth_error (visit_order rows) k2 = Some r2 ->
             (same_report subs (fresh k1) r1 (fresh k2) r2
              <-> timestampKey r1 = timestampKey r2)
             /\ (dated r1 = true -> dated r2 = true ->
                 (same_report subs (fresh k1) r1 (fresh k2) r2
                  <-> cell r1 0 = cell r2 0 /\ cell r1 1 = cell r2 1))))
  /\ (forall fresh r1 r2 n1 n2,
         cell r1 0 = cell r2 0 -> cell r1 1 = cell r2 1 ->
         cell r1 4 = VStr n1 -> cell r2 4 = VStr n2 -> n1 <> n2 ->
         inherited n1 = false -> inherited n2 = false ->
         text_row r1 = true -> text_row r2 = true ->
         exists s c1 c2,
           parseSubmissionsFromRows fresh [r1; r2] = Returned [s]
           /\ Permutation (contractors s) [c1; c2]
           /\ contractorName c1 = VStr n1
           /\ contractorName c2 = VStr n2).
Proof.
  split.
  - intros fresh rows subs H Hinj.
    destruct (reconstruction_places _ _ _ H) as (Hperm & Hplace).
    split; [exact Hperm|]. split.
    { intros k r Hk. destruct (Hplace k r Hk) as (s & Hs & Hts & Hp).
      exists s. split; [exact Hs|]. split; [exact Hts|]. split; [exact Hp|].
      intros s' Hs' Hp'.
      pose proof (item_ids_NoDup _ _ _ H Hinj) as Hnd. unfold item_ids in Hnd.
      apply (NoDup_flat_map_one _ _ _ _ _ Hnd Hs' Hs (placed_in_id _ _ _ Hp')
               (placed_in_id _ _ _ Hp)). }
    intros k1 k2 r1 r2 H1 H2.
    pose proof (same_report_iff_key _ _ _ H Hinj k1 k2 r1 r2 H1 H2) as Hkey.
    split; [exact Hkey|].
    intros Hd1 Hd2. rewrite Hkey. apply dated_key_iff_cells; assumption.
  - intros fresh r1 r2 n1 n2 Hdate Htime.
    apply two_contractors_one_report.
    unfold timestampKey. rewrite Hdate, Htime. reflexivity.
Qed.

Lemma numbered_uuid_distinct (i j : nat) :
  i < 3 -> j < 3 -> numbered_uuid i = numbered_uuid j -> i = j.
Proof.
  intros Hi Hj.
  destruct i as [|[|[|i]]]; [| | |lia]; destruct j as [|[|[|j]]]; try lia;
    intros H; try reflexivity; vm_compute in H; discriminate H.
Qed.

(** Three rows, the first and the third of 2024-06-01 10:00, the second of
    2024-05-01 09:00: the rows of June draw the values 0 and 1 and are placed
    in the same report, the row of May draws the value 2 and is placed in
    another one. *)
Lemma report_boundary_is_the_timestamp_key_witness :
  parseSubmissionsFromRows numbered_uuid mixed_rows = Returned mixed_reports
  /\ visit_order mixed_rows = [june_row; june_row_other; may_row_1]
  /\ map timestamp mixed_reports = ["2024-06-01 10:00"; "2024-05-01 09:00"]
  /\ map (fun s => contractor_item_ids (contractors s)) mixed_reports
     = [["deduction-0"; "deduction-1"]; ["deduction-2"]]
  /\ same_report mixed_reports (numbered_uuid 0) june_row (numbered_uuid 1) june_row_other
  /\ ~ same_report mixed_reports (numbered_uuid 0) june_row (numbered_uuid 2) may_row_1.
Proof.
  assert (Hparse : parseSubmissionsFromRows numbered_uuid mixed_rows = Returned mixed_reports)
    by (vm_compute; reflexivity).
  assert (Hvisit : visit_order mixed_rows = [june_row; june_row_other; may_row_1])
    by (vm_compute; reflexivity).
  destruct report_boundary_is_the_timestamp_key as [Hrows _].
  destruct (Hrows numbered_uuid mixed_rows mixed_reports Hparse numbered_uuid_distinct)
    as (_ & _ & Hsame).
  split; [exact Hparse|]. split; [exact Hvisit|].
  split; [reflexivity|]. split; [vm_compute; reflexivity|].
  split.
  - destruct (Hsame 0 1 june_row june_row_other) as [Hiff _];
      [rewrite Hvisit; reflexivity | rewrite Hvisit; reflexivity|].
    apply Hiff. reflexivity.
  - destruct (Hsame 0 2 june_row may_row_1) as [Hiff _];
      [rewrite Hvisit; reflexivity | rewrite Hvisit; reflexivity|].
    intros Hsame'. apply Hiff in Hsame'. discriminate Hsame'.
Defined.

(** ** The rows of a submission *)

Lemma Number_or_0_not_nan (v : value) : is_nan (Number_or_0 v) = false.
Proof.
  unfold Number_or_0. destruct (is_zero (Number v) || is_nan (Number v)) eqn:E.
  - reflexivity.
  - apply orb_false_iff in E. apply E.
Qed.

Lemma or_else_defined (v : value) (s : string) : or_else v (VStr s) <> VUndef.
Proof. unfold or_else. destruct v; simpl; try discriminate. destruct (negb _); discriminate.
       destruct (negb _); discriminate. Qed.

(** X9. [submitDeductions] builds one row for each line item of the
    payload.  Every row has 15 cells: the date, the time, the user and the
    company in the cells 0 to 3, the name of a contractor of the payload in
    the cell 4, a value that is not [undefined] in each of the text cells 5
    to 8, 12 and 13, numbers that are not NaN in the quantity and unit-price
    cells 9 and 10, their product in the cell 11, and the pending-review
    status in the cell 14. *)
Theorem appended_rows_shape (date time : string) (payload : SubmitDeductionsPayload) :
  List.length (rowsToAppend date time payload) = count_items (p_contractors payload)
  /\ forall r,
       In r (rowsToAppend date time payload) ->
       List.length r = 15
       /\ cell r 0 = VStr date
       /\ cell r 1 = VStr time
       /\ cell r 2 = VStr (p_userEmail payload)
       /\ cell r 3 = VStr (company_name (p_company payload))
       /\ cell r 14 = VStr PENDING
       /\ (exists c, In c (p_contractors payload) /\ cell r 4 = contractorName c)
       /\ (forall i, In i [5; 6; 7; 8; 12; 13] -> cell r i <> VUndef)
       /\ exists q u,
            cell r 9 = VNum q /\ cell r 10 = VNum u /\ cell r 11 = VNum (q * u)
            /\ is_nan q = false /\ is_nan u = false.
Proof.
  split; [apply rowsToAppend_length|].
  intros r Hr. apply rowsToAppend_In in Hr. destruct Hr as (c & d & Hc & Hd & ->).
  unfold row_of_deduction, cell. cbn [List.length nth].
  repeat split.
  - exists c. split; [exact Hc | reflexivity].
  - intros i [<-|[<-|[<-|[<-|[<-|[<-|[]]]]]]]; cbn [nth];
      first [apply or_else_defined | discriminate].
  - exists (Number_or_0 (quantity d)), (Number_or_0 (unitPrice d)).
    repeat split; apply Number_or_0_not_nan.
Qed.

(** ** What a run may do to the state *)

Section Preservation.

Variable R : world -> world -> Prop.
Hypothesis R_refl : forall w, R w w.
Hypothesis R_trans : forall a b c, R a b -> R b c -> R a c.

Context {A : Type}.

Lemma preserves_ret (a : A) : preserves R (ret a).
Proof. intros w. apply R_refl. Qed.

Lemma preserves_throw (e : JsError) : preserves R (@throw A e).
Proof. intros w. apply R_refl. Qed.

Lemma preserves_lift (o : outcome A) : preserves R (lift o).
Proof. intros w. apply R_refl. Qed.

Lemma preserves_bind {B : Type} (m : M A) (k : A -> M B) :
  preserves R m -> (forall a, preserves R (k a)) -> preserves R (mbind m k).
Proof.
  intros Hm Hk w. unfold mbind. specialize (Hm w).
  destruct (m w) as [[a|e] w1]; simpl in *.
  - eapply R_trans; [exact Hm | apply Hk].
  - exact Hm.
Qed.

Lemma preserves_try_catch (m : M A) (handler : JsError -> M A) :
  preserves R m -> (forall e, preserves R (handler e)) -> preserves R (try_catch m handler).
Proof.
  intros Hm Hh w. unfold try_catch. specialize (Hm w).
  destruct (m w) as [[a|e] w1]; simpl in *.
  - exact Hm.
  - eapply R_trans; [exact Hm | apply Hh].
Qed.

End Preservation.

Lemma journal_grows_by_refl (allowed : event -> Prop) (w : world) :
  journal_grows_by allowed w w.
Proof. exists []. split; [symmetry; apply app_nil_r | constructor]. Qed.

Lemma journal_grows_by_trans (allowed : event -> Prop) (a b c : world) :
  journal_grows_by allowed a b -> journal_grows_by allowed b c -> journal_grows_by allowed a c.
Proof.
  intros (l1 & H1 & F1) (l2 & H2 & F2). exists (l1 ++ l2). split.
  - rewrite H2, H1, app_assoc. reflexivity.
  - apply Forall_app. split; assumption.
Qed.

Lemma journal_grows_by_weaken (allowed allowed' : event -> Prop) (w w' : world) :
  (forall e, allowed e -> allowed' e) ->
  journal_grows_by allowed w w' -> journal_grows_by allowed' w w'.
Proof.
  intros Hsub (l & H & F). exists l. split; [exact H|].
  eapply Forall_impl; [|exact F]. exact Hsub.
Qed.

Lemma grows_call_store {A : Type} (allowed : event -> Prop) (rq : request)
    (answer : list event -> outcome A) :
  (forall failed, allowed (Called rq failed)) ->
  preserves (journal_grows_by allowed) (call_store rq answer).
Proof.
  intros H w. unfold call_store. simpl.
  exists [Called rq (is_thrown (answer (journal w)))]. split; [reflexivity|].
  repeat constructor. apply H.
Qed.

Lemma grows_now_in_cairo (allowed : event -> Prop) (rt : Runtime) :
  preserves (journal_grows_by allowed) (now_in_cairo rt).
Proof. intros w. exists []. split; [symmetry; apply app_nil_r | constructor]. Qed.

Lemma grows_parse_rows (allowed : event -> Prop) (rt : Runtime) (rows : list row) :
  preserves (journal_grows_by allowed) (parse_rows rt rows).
Proof. intros w. exists []. split; [symmetry; apply app_nil_r | constructor]. Qed.

(** Steps through a computation for a relation whose reflexivity and
    transitivity are [refl] and [trans]; [base] closes the steps that touch
    the state. *)
Ltac preserves_with refl trans base :=
  repeat first
    [ base
    | apply preserves_ret; apply refl
    | apply preserves_throw; apply refl
    | apply preserves_lift; apply refl
    | apply preserves_try_catch; [apply trans | | intros ?]
    | apply preserves_bind; [apply trans | | intros ?]
    | progress cbv zeta
    | match goal with
      | |- preserves _ (match ?x with _ => _ end) => destruct x
      end ].

Ltac grows_with call :=
  preserves_with journal_grows_by_refl journal_grows_by_trans
    ltac:(first [ call | apply grows_now_in_cairo | apply grows_parse_rows ]).

(** ** The set-up of a sheet *)

Lemma ensure_footprint (rt : Runtime) (sheetName : string) (headers : list string) :
  preserves (journal_grows_by (ensure_event sheetName headers))
            (ensureSheetAndHeaders rt sheetName headers).
Proof.
  unfold ensureSheetAndHeaders.
  apply preserves_try_catch;
    [apply journal_grows_by_trans | | intros ?;
     apply preserves_throw; apply journal_grows_by_refl].
  apply preserves_bind; [apply journal_grows_by_trans | |].
  - apply grows_call_store. intros failed. exact I.
  - intros titles. destruct (negb (existsb (String.eqb sheetName) titles)).
    + grows_with ltac:(apply grows_call_store; intros ?; simpl; auto).
    + destruct (endsWith sheetName "REQUEST") eqn:Hreq.
      * grows_with ltac:(apply grows_call_store; intros ?; simpl; auto).
      * apply preserves_ret. apply journal_grows_by_refl.
Qed.

(** X10. Whatever the store answers, [ensureSheetAndHeaders] makes at most
    three calls, each of them the list of the sheets, the creation of the
    sheet it was asked for, the read of the first row of that sheet (a report
    table only) or the write of one header row at its cell [A1] (the headers
    given, or the report headers for a report table); it leaves the in-memory
    reports as they are. *)
Theorem ensureSheetAndHeaders_touches_only_the_header (rt : Runtime) (sheetName : string)
    (headers : list string) (w : world) :
  exists added,
    appends (ensureSheetAndHeaders rt sheetName headers) w added
    /\ Forall (ensure_event sheetName headers) added
    /\ List.length added <= 3
    /\ mockSubmissions (snd (ensureSheetAndHeaders rt sheetName headers w)) = mockSubmissions w.
Proof.
  destruct (ensure_footprint rt sheetName headers w) as (added & Hj & Hall).
  exists added. split; [exact Hj|]. split; [exact Hall|].
  destruct (fail_fast_ensureSheetAndHeaders rt sheetName headers w)
    as (added' & Hj' & Hmock & _ & _ & _).
  split; [|exact Hmock].
  unfold appends in Hj'. rewrite Hj in Hj'. apply app_inv_head in Hj'. subst added'.
  clear Hall Hmock. revert Hj.
  unfold ensureSheetAndHeaders, try_catch, mbind, sheets_get, sheets_addSheet,
    sheets_values_update, sheets_values_get, call_store, ret, throw.
  repeat match goal with
         | |- context [match ?x with _ => _ end] =>
             match x with
             | context [match _ with _ => _ end] => fail 1
             | _ => destruct x
             end
         | |- context [if ?b then _ else _] => destruct b
         end;
    cbn [fst snd journal record];
    rewrite <- ?app_assoc; intros H; apply app_inv_head in H; subst added; simpl; lia.
Qed.

(** ** Failures of the store, action by action *)

Lemma ensure_run (rt : Runtime) (sheetName : string) (headers : list string) (w : world) :
  exists setup,
    journal (snd (ensureSheetAndHeaders rt sheetName headers w)) = journal w ++ setup
    /\ uuids_drawn (snd (ensureSheetAndHeaders rt sheetName headers w)) = uuids_drawn w
    /\ (exists failed rest, setup = Called SpreadsheetsGet failed :: rest)
    /\ Forall (ensure_event sheetName headers) setup
    /\ stops_at_failure setup = true
    /\ (has_failure setup = true
        -> is_thrown (fst (ensureSheetAndHeaders rt sheetName headers w)) = true).
Proof.
  destruct (ensure_footprint rt sheetName headers w) as (setup & Hj & Hall).
  destruct (fail_fast_ensureSheetAndHeaders rt sheetName headers w)
    as (setup' & Hj' & _ & _ & Hstop & Hfail).
  unfold appends in Hj'. rewrite Hj in Hj'. apply app_inv_head in Hj'. subst setup'.
  exists setup. split; [exact Hj|].
  split; [|split; [|split; [exact Hall | split; [exact Hstop | exact Hfail]]]].
  - clear. unfold ensureSheetAndHeaders, try_catch, mbind, sheets_get, sheets_addSheet,
      sheets_values_update, sheets_values_get, call_store, ret, throw.
    repeat match goal with
           | |- context [match ?x with _ => _ end] =>
               match x with
               | context [match _ with _ => _ end] => fail 1
               | _ => destruct x
               end
           | |- context [if ?b then _ else _] => destruct b
           end; reflexivity.
  - clear Hall Hstop Hfail. revert Hj.
    unfold ensureSheetAndHeaders, try_catch, mbind, sheets_get, sheets_addSheet,
      sheets_values_update, sheets_values_get, call_store, ret, throw.
    repeat match goal with
           | |- context [match ?x with _ => _ end] =>
               match x with
               | context [match _ with _ => _ end] => fail 1
               | _ => destruct x
               end
           | |- context [if ?b then _ else _] => destruct b
           end;
      cbn [fst snd journal record];
      rewrite <- ?app_assoc; intros H; apply app_inv_head in H; subst setup;
      eexists; eexists; reflexivity.
Qed.

Lemma string_app_inv_head (a b c : string) : (a ++ b = a ++ c)%string -> b = c.
Proof.
  induction a as [|x a IH]; cbn [String.append]; intros H; [exact H|].
  inversion H. auto.
Qed.

Lemma not_the_rows_read (sheetName : string) (headers : list string) (failed : bool) :
  ~ ensure_event sheetName headers (Called (ValuesGet (sheetName ++ "!A2:Z")) failed).
Proof.
  cbn [ensure_event]. intros [H _]. apply string_app_inv_head in H. discriminate H.
Qed.

Lemma read_company_rows_turn (rt : Runtime) (keep : row -> bool) (allRows : list row)
    (company : Company) (w : world) :
  exists added got,
    fst (read_company_rows rt keep allRows company w) = Returned (allRows ++ got)
    /\ journal (snd (read_company_rows rt keep allRows company w)) = journal w ++ added
    /\ uuids_drawn (snd (read_company_rows rt keep allRows company w)) = uuids_drawn w
    /\ table_turn rt keep company (journal w) added got.
Proof.
  set (sheetName := (company_name company ++ " REQUEST")%string).
  destruct (ensure_run rt sheetName SUBMISSION_HEADERS w)
    as (setup & Hj & Hu & Hfirst & Hall & Hstop & Hfail).
  unfold read_company_rows, try_catch, mbind. fold sheetName.
  assert (Hweak : Forall (fun e => ensure_event sheetName SUBMISSION_HEADERS e
                                   \/ exists failed,
                                        e = Called (ValuesGet (sheetName ++ "!A2:Z")) failed)
                         setup).
  { eapply Forall_impl; [|exact Hall]. intros e He. left. exact He. }
  assert (Hlast : forall s' failed,
             setup <> s' ++ [Called (ValuesGet (sheetName ++ "!A2:Z")) failed]).
  { intros s' failed Heq. rewrite Heq in Hall. apply Forall_app in Hall.
    destruct Hall as [_ Hall]. inversion Hall as [|? ? He _]; subst.
    exact (not_the_rows_read _ _ _ He). }
  destruct (ensureSheetAndHeaders rt sheetName SUBMISSION_HEADERS w) as [[[]|e] w1];
    cbn [fst snd is_thrown] in *.
  - assert (Hnone : has_failure setup = false).
    { destruct (has_failure setup); [discriminate (Hfail eq_refl) | reflexivity]. }
    unfold sheets_values_get, call_store, ret.
    set (reply := values_get (store rt) (journal w1) (sheetName ++ "!A2:Z")).
    exists (setup ++ [Called (ValuesGet (sheetName ++ "!A2:Z")) (is_thrown reply)]),
           (kept_rows keep reply).
    split; [|split; [|split]].
    + destruct reply as [[rows|]|e]; cbn [fst kept_rows]; rewrite ?app_nil_r; reflexivity.
    + destruct reply as [[rows|]|e]; cbn [snd journal record is_thrown];
        rewrite Hj, <- app_assoc; reflexivity.
    + destruct reply as [[rows|]|e]; cbn [snd uuids_drawn record]; exact Hu.
    + unfold table_turn. fold sheetName.
      split; [|split; [|split; [|split]]].
      * destruct Hfirst as (failed & rest & ->). eexists; eexists; reflexivity.
      * apply Forall_app. split; [exact Hweak|].
        constructor; [right; eexists; reflexivity | constructor].
      * apply stops_at_failure_app; [exact Hnone|].
        cbn [stops_at_failure]. destruct (is_failed_call _); reflexivity.
      * rewrite has_failure_app, Hnone. unfold has_failure. cbn [existsb is_failed_call orb].
        rewrite orb_false_r. destruct reply as [[rows|]|e]; cbn [is_thrown kept_rows];
          [discriminate | reflexivity | reflexivity].
      * destruct reply as [o|e] eqn:Ereply; cbn [is_thrown].
        -- left. exists setup. split; [reflexivity|].
           rewrite <- Hj. fold reply. rewrite Ereply. reflexivity.
        -- right. split; [|reflexivity].
           intros s' Heq. apply app_inj_tail in Heq. destruct Heq as [_ Heq]. discriminate Heq.
  - exists setup, []. rewrite app_nil_r.
    split; [reflexivity|]. split; [exact Hj|]. split; [exact Hu|].
    unfold table_turn. fold sheetName.
    split; [exact Hfirst|]. split; [exact Hweak|]. split; [exact Hstop|].
    split; [reflexivity|].
    right. split; [|reflexivity]. intros s'. apply Hlast.
Qed.

Lemma parse_nothing (fresh : nat -> string) : parseSubmissionsFromRows fresh [] = Returned [].
Proof. reflexivity. Qed.

Lemma for_companies_turns (rt : Runtime) (keep : row -> bool) (w : world) :
  exists added1 added2 rows1 rows2 w2,
    for_companies rt keep [DMC; CURVE] [] w = (Returned (rows1 ++ rows2), w2)
    /\ journal w2 = journal w ++ added1 ++ added2
    /\ uuids_drawn w2 = uuids_drawn w
    /\ table_turn rt keep DMC (journal w) added1 rows1
    /\ table_turn rt keep CURVE (journal w ++ added1) added2 rows2.
Proof.
  destruct (read_company_rows_turn rt keep [] DMC w) as (added1 & rows1 & Hr1 & Hj1 & Hu1 & Ht1).
  cbn [app] in Hr1.
  destruct (read_company_rows rt keep [] DMC w) as [o1 w1] eqn:E1.
  cbn [fst snd] in Hr1, Hj1, Hu1. subst o1.
  destruct (read_company_rows_turn rt keep rows1 CURVE w1)
    as (added2 & rows2 & Hr2 & Hj2 & Hu2 & Ht2).
  destruct (read_company_rows rt keep rows1 CURVE w1) as [o2 w2] eqn:E2.
  cbn [fst snd] in Hr2, Hj2, Hu2. subst o2.
  exists added1, added2, rows1, rows2, w2.
  split; [|split; [|split; [|split]]].
  - cbn [for_companies]. unfold mbind. rewrite E1, E2. reflexivity.
  - rewrite Hj2, Hj1, <- app_assoc. reflexivity.
  - congruence.
  - exact Ht1.
  - rewrite <- Hj1. exact Ht2.
Qed.

Lemma history_skips (rt : Runtime) (keep : row -> bool) (select : list row -> list row)
    (msg : string) :
  select [] = [] ->
  skips_unreadable_tables rt keep select (Error msg)
    (try_catch (allRows <-- for_companies rt keep [DMC; CURVE] [] ;;
                parse_rows rt (select allRows))
               (fun _ => throw (Error msg))).
Proof.
  intros Hsel w.
  destruct (for_companies_turns rt keep w)
    as (added1 & added2 & rows1 & rows2 & w2 & Hrun & Hj & Hu & Ht1 & Ht2).
  exists added1, added2, rows1, rows2.
  assert (Hboth : has_failure added1 = true -> has_failure added2 = true ->
                  parseSubmissionsFromRows (fun k => uuid_stream rt (uuids_drawn w + k))
                                           (select (rows1 ++ rows2)) = Returned []).
  { intros H1 H2.
    destruct Ht1 as (_ & _ & _ & Hg1 & _). destruct Ht2 as (_ & _ & _ & Hg2 & _).
    rewrite (Hg1 H1), (Hg2 H2). cbn [app]. rewrite Hsel. reflexivity. }
  unfold appends, try_catch, mbind. rewrite Hrun. unfold parse_rows. rewrite Hu.
  destruct (parseSubmissionsFromRows (fun k => uuid_stream rt (uuids_drawn w + k))
                                     (select (rows1 ++ rows2))) as [subs|e];
    cbn [fst snd journal throw];
    (split; [exact Hj|]);
    (split; [exact Ht1|]); (split; [exact Ht2|]); (split; [reflexivity|]);
    intros H1 H2; specialize (Hboth H1 H2); congruence.
Qed.

(** C9, as stated, fails: with the store configured and its first call
    failing, [validateUser] and [getUserRoleByEmail] return normally, invalid
    and no role, and nothing is thrown to the caller. *)
Lemma login_actions_swallow_store_failures :
  getSheetsApi (runtime_on failing_store) = Some "sheet-id"
  /\ validateUser (runtime_on failing_store) "eng@site.com" "secret" user empty_world
     = (Returned (mkValidation false None), mkWorld [] [Called SpreadsheetsGet true] 0 0)
  /\ getUserRoleByEmail (runtime_on failing_store) "eng@site.com" empty_world
     = (Returned None, mkWorld [] [Called SpreadsheetsGet true] 0 0).
Proof.
  split; [reflexivity|]. split; vm_compute; reflexivity.
Qed.

(** C9, amended.  With the store configured, every action stops at the first
    call of the store that fails, never calling it again for what failed.
    The three reference-list reads, [submitDeductions] and
    [updateReportStatus] then throw one error with a message of their own
    (for the status update, the message of the failure).  [getUserRoleByEmail]
    and [validateUser] instead return their negative result, no role and
    invalid with no role.  The two history reads take the two company tables
    in turn: a turn stops at its first failed call and collects no row, the
    next turn is made all the same, and the read returns the reports of the
    rows collected; it throws only when the reconstruction of these rows
    throws, and returns the empty list when both turns met a failure. *)
Theorem store_failures_by_action (rt : Runtime) :
  getSheetsApi rt <> None ->
  reraises (getContractorList rt)
           (fun _ => Error "Failed to fetch contractor list from Contractors.")
  /\ (forall company,
         reraises (getContractList rt company)
                  (fun _ => Error ("Failed to fetch contract list from "
                                   ++ (company_name company ++ " DATA") ++ ".")))
  /\ (forall company,
         reraises (getWorkItemList rt company)
                  (fun _ => Error ("Failed to fetch work item list from "
                                   ++ (company_name company ++ " DATA") ++ ".")))
  /\ (forall payload,
         reraises (submitDeductions rt payload) (fun e => Error (friendlyMessage e)))
  /\ (forall id company newStatus adminEmail,
         reraises (updateReportStatus rt id company newStatus adminEmail)
                  (fun e => Error (message e)))
  /\ (forall email, swallows (getUserRoleByEmail rt email) None)
  /\ (forall email password expectedRole,
         swallows (validateUser rt email password expectedRole) (mkValidation false None))
  /\ (forall params,
         skips_unreadable_tables rt
           (fun r => is_string (cell r 2) (h_userEmail params))
           (fun rows => match date_range params with
                        | Some (a, b) => filter (in_date_range a b) rows
                        | None => rows
                        end)
           (Error "فشل في جلب سجل التقارير من Google Sheets.")
           (getSubmissionHistory rt params))
  /\ skips_unreadable_tables rt (fun _ => true) (fun rows => rows)
       (Error "فشل في جلب كل التقارير من Google Sheets.")
       (getAllSubmissions rt).
Proof.
  intros Hapi.
  repeat match goal with |- _ /\ _ => split end.
  - unfold getContractorList. destruct (getSheetsApi rt); [|contradiction].
    apply reraises_rethrow. unfold sheets_values_get. fail_fast_action.
  - intros company. unfold getContractList. destruct (getSheetsApi rt); [|contradiction].
    apply reraises_rethrow. unfold sheets_values_get. fail_fast_action.
  - intros company. unfold getWorkItemList. destruct (getSheetsApi rt); [|contradiction].
    apply reraises_rethrow. unfold sheets_values_get. fail_fast_action.
  - intros payload. apply reraises_submitDeductions. exact Hapi.
  - intros id company newStatus adminEmail.
    unfold updateReportStatus. destruct (getSheetsApi rt); [|contradiction].
    apply reraises_rethrow. unfold sheets_values_get, sheets_values_batchUpdate.
    fail_fast_action.
  - intros email. unfold getUserRoleByEmail.
    destruct (email =? "")%string.
    + intros w. exists []. unfold appends. simpl. rewrite app_nil_r.
      split; [reflexivity|]. split; [reflexivity | discriminate].
    + destruct (getSheetsApi rt); [|contradiction].
      apply swallows_catch. unfold sheets_values_get. fail_fast_action.
  - intros email password expectedRole. unfold validateUser.
    destruct (getSheetsApi rt); [|contradiction].
    apply swallows_catch. unfold sheets_values_get. fail_fast_action.
  - intros params. unfold getSubmissionHistory.
    destruct (getSheetsApi rt); [|contradiction].
    apply (history_skips rt _
             (fun allUserRows =>
                match date_range params with
                | Some (a, b) => filter (in_date_range a b) allUserRows
                | None => allUserRows
                end)).
    destruct (date_range params) as [[a b]|]; reflexivity.
  - unfold getAllSubmissions. destruct (getSheetsApi rt); [|contradiction].
    apply (history_skips rt _ (fun allRows => allRows)). reflexivity.
Qed.

(** On a store that refuses every call: the contractor list throws its own
    error, the login returns invalid, the list of all reports makes the first
    call of both turns and is empty.  On a store whose table of DMC cannot be
    read: the turn of DMC stops at the failed read, the turn of CURVE is made
    and the report of its row is returned. *)
Lemma store_failures_by_action_witness :
  let rt := runtime_on failing_store in
  let rt' := runtime_on (dmc_unreadable_store [june_row]) in
  getSheetsApi rt <> None
  /\ journal (snd (getContractorList rt empty_world)) = [Called SpreadsheetsGet true]
  /\ (exists e : JsError,
         fst (getContractorList rt empty_world)
         = Thrown (Error "Failed to fetch contractor list from Contractors."))
  /\ fst (validateUser rt "eng@site.com" "secret" user empty_world)
     = Returned (mkValidation false None)
  /\ journal (snd (getAllSubmissions rt empty_world))
     = [Called SpreadsheetsGet true; Called SpreadsheetsGet true]
  /\ fst (getAllSubmissions rt empty_world) = Returned []
  /\ journal (snd (getAllSubmissions rt' empty_world))
     = [ Called SpreadsheetsGet false;
         Called (ValuesGet "DMC REQUEST!1:1") false;
         Called (ValuesGet "DMC REQUEST!A2:Z") true;
         Called SpreadsheetsGet false;
         Called (ValuesGet "CURVE REQUEST!1:1") false;
         Called (ValuesGet "CURVE REQUEST!A2:Z") false ]
  /\ map timestamp (reports_of (fst (getAllSubmissions rt' empty_world)))
     = ["2024-06-01 10:00"].
Proof.
  intros rt rt'.
  assert (Hapi : getSheetsApi rt <> None) by discriminate.
  destruct (store_failures_by_action rt Hapi)
    as (Hlist & _ & _ & _ & _ & _ & Hvalidate & _ & Hall).
  split; [exact Hapi|]. split; [vm_compute; reflexivity|].
  split; [|split; [|split; [vm_compute; reflexivity|split; [|split]]]].
  - destruct (Hlist empty_world) as (added & Hj & _ & Hfail).
    unfold appends in Hj. vm_compute in Hj. subst added.
    destruct (Hfail eq_refl) as [e He]. exists e. exact He.
  - destruct (Hvalidate "eng@site.com" "secret" user empty_world) as (added & Hj & _ & Hfail).
    unfold appends in Hj. vm_compute in Hj. subst added.
    exact (Hfail eq_refl).
  - destruct (Hall empty_world)
      as (added1 & added2 & rows1 & rows2 & Hj & Ht1 & Ht2 & _ & Hboth).
    destruct Ht1 as ((f1 & rest1 & ->) & _). destruct Ht2 as ((f2 & rest2 & ->) & _).
    unfold appends in Hj. vm_compute in Hj.
    destruct rest1 as [|x rest1]; cbn [app] in Hj.
    + inversion Hj; subst. apply Hboth; reflexivity.
    + inversion Hj as [[Hf1 Hx Hrest]]. destruct rest1; discriminate Hrest.
  - vm_compute. reflexivity.
  - vm_compute. reflexivity.
Defined.

(** ** The calls of the actions that read *)

Lemma ensure_event_read_or_setup (sheetName : string) (headers : list string) (e : event) :
  ensure_event sheetName headers e -> read_or_setup e.
Proof.
  destruct e as [s|[| | | | |] failed]; simpl; auto.
  intros [-> [->|[_ ->]]];
    [exists sheetName, headers | exists sheetName, SUBMISSION_HEADERS]; split; reflexivity.
Qed.

Lemma grows_ensure (rt : Runtime) (sheetName : string) (headers : list string) :
  preserves (journal_grows_by read_or_setup) (ensureSheetAndHeaders rt sheetName headers).
Proof.
  intros w. eapply journal_grows_by_weaken; [|apply ensure_footprint].
  apply ensure_event_read_or_setup.
Qed.

Ltac reads_only :=
  grows_with ltac:(first [ apply grows_ensure
                         | apply grows_call_store; intros ?; exact I ]).

Lemma grows_for_companies (rt : Runtime) (keep : row -> bool) (companies : list Company) :
  forall allRows,
    preserves (journal_grows_by read_or_setup) (for_companies rt keep companies allRows).
Proof.
  induction companies as [|c cs IH]; intros allRows; cbn [for_companies].
  - apply preserves_ret. apply journal_grows_by_refl.
  - apply preserves_bind; [apply journal_grows_by_trans | | intros rows; apply IH].
    unfold read_company_rows, sheets_values_get. reads_only.
Qed.

(** X11. The seven actions that read never append rows to a table and never
    update the cells of stored rows: whatever the store answers, and whether
    it is configured or not, each of their calls is a read, the creation of a
    sheet, or the write of one header row at a cell [A1]. *)
Theorem reading_actions_never_write_rows (rt : Runtime) :
  preserves (journal_grows_by read_or_setup) (getContractorList rt)
  /\ (forall company, preserves (journal_grows_by read_or_setup) (getContractList rt company))
  /\ (forall company, preserves (journal_grows_by read_or_setup) (getWorkItemList rt company))
  /\ (forall email, preserves (journal_grows_by read_or_setup) (getUserRoleByEmail rt email))
  /\ (forall email password expectedRole,
         preserves (journal_grows_by read_or_setup)
                   (validateUser rt email password expectedRole))
  /\ (forall params, preserves (journal_grows_by read_or_setup) (getSubmissionHistory rt params))
  /\ preserves (journal_grows_by read_or_setup) (getAllSubmissions rt).
Proof.
  repeat split; intros.
  - unfold getContractorList, sheets_values_get. reads_only.
  - unfold getContractList, sheets_values_get. reads_only.
  - unfold getWorkItemList, sheets_values_get. reads_only.
  - unfold getUserRoleByEmail, sheets_values_get. reads_only.
  - unfold validateUser, sheets_values_get. reads_only.
  - unfold getSubmissionHistory. destruct (getSheetsApi rt).
    + preserves_with journal_grows_by_refl journal_grows_by_trans
        ltac:(first [ apply grows_for_companies | apply grows_parse_rows ]).
    + intros w. destruct (date_range params) as [[a b]|]; apply journal_grows_by_refl.
  - unfold getAllSubmissions. destruct (getSheetsApi rt).
    + preserves_with journal_grows_by_refl journal_grows_by_trans
        ltac:(first [ apply grows_for_companies | apply grows_parse_rows ]).
    + intros w. exists []. split; [symmetry; apply app_nil_r | constructor].
Qed.

(** ** The in-memory reports *)

Lemma mock_kept_refl (w : world) : mock_kept w w.
Proof. reflexivity. Qed.

Lemma mock_kept_trans (a b c : world) : mock_kept a b -> mock_kept b c -> mock_kept a c.
Proof. unfold mock_kept. intros H1 H2. rewrite H2. exact H1. Qed.

Lemma kept_fail_fast {A : Type} (m : M A) : fail_fast m -> preserves mock_kept m.
Proof. intros H w. destruct (H w) as (added & _ & Hmock & _). exact Hmock. Qed.

Ltac keeps_mock :=
  preserves_with mock_kept_refl mock_kept_trans
    ltac:(first [ apply kept_fail_fast; apply fail_fast_ensureSheetAndHeaders
                | apply kept_fail_fast; apply fail_fast_call_store
                | apply kept_fail_fast; apply fail_fast_now_in_cairo
                | apply kept_fail_fast; apply fail_fast_parse_rows ]).

Lemma kept_for_companies (rt : Runtime) (keep : row -> bool) (companies : list Company) :
  forall allRows, preserves mock_kept (for_companies rt keep companies allRows).
Proof.
  induction companies as [|c cs IH]; intros allRows; cbn [for_companies].
  - apply preserves_ret. apply mock_kept_refl.
  - apply preserves_bind; [apply mock_kept_trans | | intros rows; apply IH].
    unfold read_company_rows, sheets_values_get. keeps_mock.
Qed.

Lemma set_first_status_same (id : string) (newStatus : Decision) (l : list Submission) :
  forall l', set_first_status id newStatus l = Some l' -> Forall2 same_but_status l l'.
Proof.
  induction l as [|s l IH]; intros l' H; simpl in H; [discriminate|].
  destruct (reportId s =? id)%string.
  - inversion H; subst. constructor.
    + repeat split.
    + clear. induction l as [|x l IH]; constructor; [repeat split | exact IH].
  - destruct (set_first_status id newStatus l) as [l0|]; simpl in H; [|discriminate].
    inversion H; subst. constructor; [repeat split | apply IH; reflexivity].
Qed.

Lemma Forall2_same_but_status_refl (l : list Submission) : Forall2 same_but_status l l.
Proof. induction l as [|x l IH]; constructor; [repeat split | exact IH]. Qed.

(** X12. No action but the submission adds or removes a report of the
    in-memory list: the reads of the reference lists, the login checks and
    the history of a user leave the list as it is, the list of all reports
    only reorders it, and the status update leaves the same reports in the
    same order, changed at most in their status. *)
Theorem in_memory_reports_are_kept (rt : Runtime) :
  preserves mock_kept (getContractorList rt)
  /\ (forall company, preserves mock_kept (getContractList rt company))
  /\ (forall company, preserves mock_kept (getWorkItemList rt company))
  /\ (forall email, preserves mock_kept (getUserRoleByEmail rt email))
  /\ (forall email password expectedRole,
         preserves mock_kept (validateUser rt email password expectedRole))
  /\ (forall params, preserves mock_kept (getSubmissionHistory rt params))
  /\ (forall w, Permutation (mockSubmissions w) (mockSubmissions (snd (getAllSubmissions rt w))))
  /\ (forall id company newStatus adminEmail w,
         Forall2 same_but_status
                 (mockSubmissions w)
                 (mockSubmissions (snd (updateReportStatus rt id company newStatus adminEmail w)))).
Proof.
  repeat split; intros.
  - unfold getContractorList, sheets_values_get. keeps_mock.
  - unfold getContractList, sheets_values_get. keeps_mock.
  - unfold getWorkItemList, sheets_values_get. keeps_mock.
  - unfold getUserRoleByEmail, sheets_values_get. keeps_mock.
  - unfold validateUser, sheets_values_get. keeps_mock.
  - unfold getSubmissionHistory. destruct (getSheetsApi rt).
    + preserves_with mock_kept_refl mock_kept_trans
        ltac:(first [ apply kept_for_companies
                    | apply kept_fail_fast; apply fail_fast_parse_rows ]).
    + intros w. destruct (date_range params) as [[a b]|]; reflexivity.
  - unfold getAllSubmissions. destruct (getSheetsApi rt).
    + assert (H : preserves mock_kept
                    (try_catch (allRows <-- for_companies rt (fun _ => true) [DMC; CURVE] [] ;;
                                parse_rows rt allRows)
                               (fun _ => throw (Error "فشل في جلب كل التقارير من Google Sheets.")))).
      { preserves_with mock_kept_refl mock_kept_trans
          ltac:(first [ apply kept_for_companies
                      | apply kept_fail_fast; apply fail_fast_parse_rows ]). }
      rewrite (H w). apply Permutation_refl.
    + simpl. apply Permutation_sym. apply Array_sort_perm.
  - unfold updateReportStatus. destruct (getSheetsApi rt).
    + assert (H : forall m : M ActionResult, preserves mock_kept m ->
                    Forall2 same_but_status (mockSubmissions w) (mockSubmissions (snd (m w)))).
      { intros m Hm. rewrite (Hm w). apply Forall2_same_but_status_refl. }
      apply H. unfold sheets_values_get, sheets_values_batchUpdate. keeps_mock.
    + destruct (set_first_status id newStatus (mockSubmissions w)) as [l|] eqn:E; simpl.
      * apply set_first_status_same in E. exact E.
      * apply Forall2_same_but_status_refl.
Qed.

(** ** Without the configuration of the store *)

Lemma not_a_call_refl (w : world) : journal_grows_by not_a_call w w.
Proof. apply journal_grows_by_refl. Qed.

(** X13. Without the configuration of the store no action calls it: what
    a run of any of the nine actions adds to the journal is not a call (for
    the submission, its push on the in-memory list). *)
Theorem unconfigured_actions_never_call_the_store (rt : Runtime) :
  getSheetsApi rt = None ->
  preserves (journal_grows_by not_a_call) (getContractorList rt)
  /\ (forall company, preserves (journal_grows_by not_a_call) (getContractList rt company))
  /\ (forall company, preserves (journal_grows_by not_a_call) (getWorkItemList rt company))
  /\ (forall payload, preserves (journal_grows_by not_a_call) (submitDeductions rt payload))
  /\ (forall email, preserves (journal_grows_by not_a_call) (getUserRoleByEmail rt email))
  /\ (forall email password expectedRole,
         preserves (journal_grows_by not_a_call) (validateUser rt email password expectedRole))
  /\ (forall params, preserves (journal_grows_by not_a_call) (getSubmissionHistory rt params))
  /\ preserves (journal_grows_by not_a_call) (getAllSubmissions rt)
  /\ (forall id company newStatus adminEmail,
         preserves (journal_grows_by not_a_call)
                   (updateReportStatus rt id company newStatus adminEmail)).
Proof.
  intros Hapi. repeat split; intros; intros w.
  - unfold getContractorList. rewrite Hapi. apply not_a_call_refl.
  - unfold getContractList. rewrite Hapi. apply not_a_call_refl.
  - unfold getWorkItemList. rewrite Hapi. apply not_a_call_refl.
  - rewrite submitDeductions_unfold. unfold send_rows. rewrite Hapi.
    exists [Pushed (pushed_entry rt payload w)]. split; [reflexivity|].
    repeat constructor.
  - unfold getUserRoleByEmail. rewrite Hapi.
    repeat match goal with |- context [if ?b then _ else _] => destruct b end;
      apply not_a_call_refl.
  - unfold validateUser. rewrite Hapi.
    repeat match goal with |- context [if ?b then _ else _] => destruct b end;
      apply not_a_call_refl.
  - unfold getSubmissionHistory. rewrite Hapi.
    destruct (date_range params) as [[a b]|]; apply not_a_call_refl.
  - unfold getAllSubmissions. rewrite Hapi.
    exists []. split; [symmetry; apply app_nil_r | constructor].
  - unfold updateReportStatus. rewrite Hapi.
    destruct (set_first_status id newStatus (mockSubmissions w));
      exists []; (split; [symmetry; apply app_nil_r | constructor]).
Qed.

Lemma unconfigured_actions_never_call_the_store_witness :
  getSheetsApi offline_runtime = None
  /\ preserves (journal_grows_by not_a_call) (getContractorList offline_runtime)
  /\ preserves (journal_grows_by not_a_call) (getAllSubmissions offline_runtime).
Proof.
  split; [reflexivity|].
  pose proof (unconfigured_actions_never_call_the_store offline_runtime eq_refl) as H.
  split; [apply H | apply H].
Defined.

(** ** The reference lists *)

Lemma same_value_zero_refl (v : value) : same_value_zero v v = true.
Proof.
  destruct v as [|s|x]; simpl;
    [reflexivity | apply String.eqb_refl | apply same_number_refl].
Qed.

Lemma same_value_zero_str (s : string) (v : value) :
  same_value_zero (VStr s) v = true <-> v = VStr s.
Proof.
  destruct v as [|t|x]; simpl; split; try discriminate.
  - intros H. apply String.eqb_eq in H. congruence.
  - intros H. inversion H. apply String.eqb_refl.
Qed.

Lemma unique_incl (l : list value) (v : value) : In v (unique l) -> In v l.
Proof.
  revert v. induction l as [|x l IH]; intros v; simpl; [auto|].
  intros [->|H]; [left; reflexivity|].
  apply filter_In in H. right. apply IH, H.
Qed.

Lemma unique_NoDup (l : list value) : NoDup (unique l).
Proof.
  induction l as [|x l IH]; simpl; constructor.
  - intros H. apply filter_In in H. destruct H as [_ H].
    rewrite same_value_zero_refl in H. discriminate.
  - apply NoDup_filter. exact IH.
Qed.

Lemma unique_In_str (s : string) (l : list value) :
  In (VStr s) (unique l) <-> In (VStr s) l.
Proof.
  split; [apply unique_incl|].
  induction l as [|x l IH]; simpl; [auto|].
  intros [->|H]; [left; reflexivity|].
  destruct (same_value_zero x (VStr s)) eqn:E.
  - left. destruct x as [|t|y]; simpl in E; try discriminate.
    apply String.eqb_eq in E. congruence.
  - right. apply filter_In. split; [apply IH, H | rewrite E; reflexivity].
Qed.

(** What the three reads return for the cells of the column. *)
Lemma first_column_spec (values : option (list row)) :
  NoDup (first_column values)
  /\ Forall (fun v => truthy v = true) (first_column values)
  /\ forall s, In (VStr s) (first_column values)
               <-> s <> "" /\ exists rows r, values = Some rows /\ In r rows
                                             /\ cell r 0 = VStr s.
Proof.
  unfold first_column. destruct values as [[|r0 rows]|].
  - repeat split; try constructor; try contradiction.
    intros (_ & rows & r & H & Hin & _). inversion H; subst. contradiction.
  - set (l := r0 :: rows). split; [apply unique_NoDup|]. split.
    + apply Forall_forall. intros v Hv. apply unique_incl in Hv.
      apply filter_In in Hv. apply Hv.
    + intros s. rewrite unique_In_str, filter_In, in_map_iff. simpl.
      rewrite negb_true_iff. split.
      * intros [(r & Hr & Hin) Hs]. split.
        -- intros ->. discriminate.
        -- exists l, r. auto.
      * intros (Hs & rows' & r & H & Hin & Hc). inversion H; subst rows'. split.
        -- exists r. auto.
        -- apply String.eqb_neq. exact Hs.
  - repeat split; try constructor; try contradiction.
    intros (_ & rows & r & H & _). discriminate.
Qed.

Ltac distinct_names :=
  split; [repeat constructor; simpl; intuition discriminate | repeat constructor].

Lemma list_read_returns (rt : Runtime) (sheetName range msg : string)
    (headers : list string) (w : world) (l : list value) :
  fst (try_catch (ensureSheetAndHeaders rt sheetName headers ;;;
                  values <-- sheets_values_get rt range ;;
                  ret (first_column values))
                 (fun _ => throw (Error msg)) w) = Returned l ->
  exists values, l = first_column values.
Proof.
  unfold try_catch, mbind, ret, throw.
  destruct (ensureSheetAndHeaders rt sheetName headers w) as [[[]|e] w1]; cbn [fst];
    [|intros H; discriminate].
  destruct (sheets_values_get rt range w1) as [[values|e] w2]; cbn [fst];
    [|intros H; discriminate].
  intros H. inversion H. eauto.
Qed.

(** X14. Whatever the store holds, and also without it, a reference list
    that is returned has no empty entry and no entry twice. *)
Theorem reference_lists_unique_and_non_empty (rt : Runtime) (w : world) :
  (forall l, fst (getContractorList rt w) = Returned l ->
             NoDup l /\ Forall (fun v => truthy v = true) l)
  /\ (forall company l, fst (getContractList rt company w) = Returned l ->
                        NoDup l /\ Forall (fun v => truthy v = true) l)
  /\ (forall company l, fst (getWorkItemList rt company w) = Returned l ->
                        NoDup l /\ Forall (fun v => truthy v = true) l).
Proof.
  split; [|split]; intros;
    match goal with
    | H : fst (?action _) = Returned _ |- _ => revert H
    end;
    [unfold getContractorList | unfold getContractList | unfold getWorkItemList];
    (destruct (getSheetsApi rt);
     [ intros H; apply list_read_returns in H; destruct H as [values ->];
       split; apply first_column_spec
     | intros H; inversion H; subst l; distinct_names ]).
Qed.

Lemma list_read_run (rt : Runtime) (sheetName range msg : string)
    (headers : list string) (w w1 : world) (values : option (list row)) :
  (ensureSheetAndHeaders rt sheetName headers ;;; sheets_values_get rt range) w
  = (Returned values, w1) ->
  try_catch (ensureSheetAndHeaders rt sheetName headers ;;;
             values <-- sheets_values_get rt range ;;
             ret (first_column values))
            (fun _ => throw (Error msg)) w
  = (Returned (first_column values), w1).
Proof.
  unfold try_catch, mbind, ret.
  destruct (ensureSheetAndHeaders rt sheetName headers w) as [[[]|e] w0];
    [|intros H; discriminate].
  destruct (sheets_values_get rt range w0) as [[v|e] w2]; intros H; inversion H; subst.
  reflexivity.
Qed.

(** X15. With the store configured, the sheet set up and the column read,
    each of the three reference lists is returned in the state that the read
    leaves, and a text is in the list exactly when it is not empty and is the
    first cell of a row that was read. *)
Theorem reference_lists_hold_the_first_column (rt : Runtime) (sheetId : string) (w : world) :
  getSheetsApi rt = Some sheetId ->
  (forall values w1,
      (ensureSheetAndHeaders rt CONTRACTORS_SHEET_NAME CONTRACTOR_LIST_HEADERS ;;;
       sheets_values_get rt (CONTRACTORS_SHEET_NAME ++ "!A2:A")%string) w
      = (Returned values, w1) ->
      exists l,
        getContractorList rt w = (Returned l, w1)
        /\ forall s, In (VStr s) l
                     <-> s <> "" /\ exists rows r, values = Some rows /\ In r rows
                                                   /\ cell r 0 = VStr s)
  /\ (forall company values w1,
         (ensureSheetAndHeaders rt (company_name company ++ " DATA")%string DATA_HEADERS ;;;
          sheets_values_get rt ((company_name company ++ " DATA") ++ "!A2:A")%string) w
         = (Returned values, w1) ->
         exists l,
           getContractList rt company w = (Returned l, w1)
           /\ forall s, In (VStr s) l
                        <-> s <> "" /\ exists rows r, values = Some rows /\ In r rows
                                                      /\ cell r 0 = VStr s)
  /\ (forall company values w1,
         (ensureSheetAndHeaders rt (company_name company ++ " DATA")%string DATA_HEADERS ;;;
          sheets_values_get rt ((company_name company ++ " DATA") ++ "!B2:B")%string) w
         = (Returned values, w1) ->
         exists l,
           getWorkItemList rt company w = (Returned l, w1)
           /\ forall s, In (VStr s) l
                        <-> s <> "" /\ exists rows r, values = Some rows /\ In r rows
                                                      /\ cell r 0 = VStr s).
Proof.
  intros Hapi. split; [|split]; intros; exists (first_column values);
    (split; [|apply first_column_spec]).
  - unfold getContractorList. rewrite Hapi. apply list_read_run. assumption.
  - unfold getContractList. rewrite Hapi. cbv zeta. apply list_read_run. assumption.
  - unfold getWorkItemList. rewrite Hapi. cbv zeta. apply list_read_run. assumption.
Qed.

Lemma reference_lists_hold_the_first_column_witness :
  let rt := runtime_on (table_store [] contractor_column) in
  getSheetsApi rt = Some "sheet-id"
  /\ exists l,
       fst (getContractorList rt empty_world) = Returned l
       /\ (In (VStr "هندسة المستقبل") l <-> "هندسة المستقبل" <> ""
             /\ exists rows r, Some contractor_column = Some rows /\ In r rows
                               /\ cell r 0 = VStr "هندسة المستقبل").
Proof.
  split; [reflexivity|].
  destruct (reference_lists_hold_the_first_column
              (runtime_on (table_store [] contractor_column)) "sheet-id" empty_world eq_refl)
    as [H _].
  destruct (H (Some contractor_column)
              (snd ((ensureSheetAndHeaders (runtime_on (table_store [] contractor_column))
                       CONTRACTORS_SHEET_NAME CONTRACTOR_LIST_HEADERS ;;;
                     sheets_values_get (runtime_on (table_store [] contractor_column))
                       (CONTRACTORS_SHEET_NAME ++ "!A2:A")%string) empty_world))
              eq_refl) as (l & Hl & Hin).
  exists l. split; [rewrite Hl; reflexivity | apply Hin].
Defined.

(** ** The cases of the set-up of a sheet *)

Lemma existsb_title (sheetName : string) (titles : list string) :
  existsb (String.eqb sheetName) titles = true <-> In sheetName titles.
Proof.
  rewrite existsb_exists. split.
  - intros (t & Hin & Heq). apply String.eqb_eq in Heq. subst. exact Hin.
  - intros Hin. exists sheetName. split; [exact Hin | apply String.eqb_refl].
Qed.

Lemma headers_complete_test (currentHeaders : row) :
  ((List.length currentHeaders <? List.length SUBMISSION_HEADERS)%nat
   || negb (forallb (fun h => existsb (same_value_zero (VStr h)) currentHeaders)
                    SUBMISSION_HEADERS)) = false
  <-> headers_complete currentHeaders.
Proof.
  unfold headers_complete.
  rewrite orb_false_iff, negb_false_iff, Nat.ltb_ge, forallb_forall.
  split; intros [Hlen Hall]; (split; [exact Hlen|]); intros h Hh.
  - specialize (Hall h Hh). apply existsb_exists in Hall.
    destruct Hall as (v & Hin & Hv). apply same_value_zero_str in Hv. subst. exact Hin.
  - apply existsb_exists. exists (VStr h). split; [apply Hall, Hh|].
    apply same_value_zero_refl.
Qed.

(** X16. The cases of [ensureSheetAndHeaders] once the list of the sheets is
    read.  A sheet that is missing is created and, when both calls go through,
    given the header row passed.  A sheet that exists and is not a report
    table is left as it is, with no other call.  For a report table that
    exists the first row is read: when it has at least as many cells as there
    are report headers and every report header is among them, in any order,
    nothing is written; otherwise the report headers, whatever headers were
    passed, are written at [A1], and a failure of that write is thrown again
    as the set-up error of the sheet. *)
Theorem ensureSheetAndHeaders_by_case (rt : Runtime) (sheetName : string)
    (headers : list string) (w : world) (titles : list string) :
  spreadsheets_get (store rt) (journal w) = Returned titles ->
  let w1 := record (Called SpreadsheetsGet false) w in
  let header_cell := (sheetName ++ "!A1")%string in
  (~ In sheetName titles ->
   let w2 := record (Called (AddSheet sheetName) false) w1 in
   spreadsheets_batchUpdate (store rt) (journal w1) sheetName = Returned tt ->
   values_update (store rt) (journal w2) header_cell [header_row headers] = Returned tt ->
   ensureSheetAndHeaders rt sheetName headers w
   = (Returned tt, record (Called (ValuesUpdate header_cell [header_row headers]) false) w2))
  /\ (In sheetName titles -> endsWith sheetName "REQUEST" = false ->
      ensureSheetAndHeaders rt sheetName headers w = (Returned tt, w1))
  /\ (In sheetName titles -> endsWith sheetName "REQUEST" = true ->
      forall values,
        values_get (store rt) (journal w1) (sheetName ++ "!1:1")%string = Returned values ->
        values <> Some [] ->
        let currentHeaders := match values with
                              | Some (first :: _) => first
                              | _ => []
                              end in
        let w2 := record (Called (ValuesGet (sheetName ++ "!1:1")%string) false) w1 in
        let reply := values_update (store rt) (journal w2) header_cell
                                   [header_row SUBMISSION_HEADERS] in
        (headers_complete currentHeaders ->
         ensureSheetAndHeaders rt sheetName headers w = (Returned tt, w2))
        /\ (~ headers_complete currentHeaders ->
            ensureSheetAndHeaders rt sheetName headers w
            = (match reply with
               | Returned _ => Returned tt
               | Thrown _ =>
                   Thrown (Error ("Failed to initialize sheet: " ++ sheetName ++ "."))
               end,
               record (Called (ValuesUpdate header_cell [header_row SUBMISSION_HEADERS])
                              (is_thrown reply)) w2))).
Proof.
  intros Hget w1 header_cell.
  assert (Hstart : ensureSheetAndHeaders rt sheetName headers w
                   = try_catch
                       (if negb (existsb (String.eqb sheetName) titles) then
                          sheets_addSheet rt sheetName ;;;
                          sheets_values_update rt header_cell [header_row headers] ;;;
                          ret tt
                        else if endsWith sheetName "REQUEST" then
                          values <-- sheets_values_get rt (sheetName ++ "!1:1")%string ;;
                          currentHeaders <--
                            match values with
                            | None => ret []
                            | Some (first :: _) => ret first
                            | Some [] =>
                                throw (TypeError
                                         "Cannot read properties of undefined (reading 'length')")
                            end ;;
                          if (List.length currentHeaders <? List.length SUBMISSION_HEADERS)%nat
                             || negb (forallb (fun h => existsb (same_value_zero (VStr h))
                                                                currentHeaders)
                                              SUBMISSION_HEADERS)
                          then sheets_values_update rt header_cell
                                                    [header_row SUBMISSION_HEADERS]
                          else ret tt
                        else ret tt)
                       (fun _ => throw (Error ("Failed to initialize sheet: "
                                               ++ sheetName ++ ".")))
                       w1).
  { unfold ensureSheetAndHeaders, try_catch, mbind, sheets_get, call_store.
    rewrite Hget. reflexivity. }
  rewrite Hstart. clear Hstart. split; [|split].
  - intros Hnew w2 Hadd Hupd.
    destruct (existsb (String.eqb sheetName) titles) eqn:E;
      [apply existsb_title in E; contradiction|].
    cbn [negb]. unfold try_catch, mbind, sheets_addSheet, sheets_values_update, call_store, ret.
    fold w1. rewrite Hadd. cbn [is_thrown]. fold w2. rewrite Hupd. reflexivity.
  - intros Hold Hreq. apply existsb_title in Hold. rewrite Hold, Hreq. reflexivity.
  - intros Hold Hreq values Hvalues Hne currentHeaders w2 reply.
    apply existsb_title in Hold. rewrite Hold, Hreq. cbn [negb].
    assert (Hread : forall (k : row -> M unit),
               try_catch
                 (values <-- sheets_values_get rt (sheetName ++ "!1:1")%string ;;
                  currentHeaders <--
                    match values with
                    | None => ret []
                    | Some (first :: _) => ret first
                    | Some [] =>
                        throw (TypeError
                                 "Cannot read properties of undefined (reading 'length')")
                    end ;;
                  k currentHeaders)
                 (fun _ => throw (Error ("Failed to initialize sheet: " ++ sheetName ++ ".")))
                 w1
               = try_catch (k currentHeaders)
                   (fun _ => throw (Error ("Failed to initialize sheet: " ++ sheetName ++ ".")))
                   w2).
    { intros k. unfold try_catch, mbind, sheets_values_get, call_store.
      rewrite Hvalues. cbn [is_thrown]. fold w2. subst currentHeaders.
      destruct values as [[|first rest]|]; [contradiction Hne; reflexivity | |]; reflexivity. }
    rewrite (Hread (fun currentHeaders =>
                      if (List.length currentHeaders <? List.length SUBMISSION_HEADERS)%nat
                         || negb (forallb (fun h => existsb (same_value_zero (VStr h))
                                                            currentHeaders)
                                          SUBMISSION_HEADERS)
                      then sheets_values_update rt header_cell [header_row SUBMISSION_HEADERS]
                      else ret tt)).
    split; intros Hc.
    + apply headers_complete_test in Hc. rewrite Hc. reflexivity.
    + destruct ((List.length currentHeaders <? List.length SUBMISSION_HEADERS)%nat
                || negb (forallb (fun h => existsb (same_value_zero (VStr h)) currentHeaders)
                                 SUBMISSION_HEADERS)) eqn:E.
      * unfold try_catch, sheets_values_update, call_store. fold reply.
        destruct reply as [[]|e]; reflexivity.
      * apply headers_complete_test in E. contradiction.
Qed.

(** On the sample store the sheet of the contractors is missing and is
    created with its header, the user table is only listed, and the report
    table, whose headers are complete, is read and not written. *)
Lemma ensureSheetAndHeaders_by_case_witness :
  let rt := runtime_on (table_store [] []) in
  let titles := [USERS_SHEET_NAME; "DMC REQUEST"; "CURVE REQUEST"] in
  spreadsheets_get (store rt) (journal empty_world) = Returned titles
  /\ ensureSheetAndHeaders rt CONTRACTORS_SHEET_NAME CONTRACTOR_LIST_HEADERS empty_world
     = (Returned tt,
        mkWorld []
          [ Called SpreadsheetsGet false;
            Called (AddSheet "Contractors") false;
            Called (ValuesUpdate "Contractors!A1" [header_row CONTRACTOR_LIST_HEADERS]) false ]
          0 0)
  /\ ensureSheetAndHeaders rt USERS_SHEET_NAME USER_HEADERS empty_world
     = (Returned tt, mkWorld [] [Called SpreadsheetsGet false] 0 0)
  /\ ensureSheetAndHeaders rt "DMC REQUEST" SUBMISSION_HEADERS empty_world
     = (Returned tt,
        mkWorld [] [Called SpreadsheetsGet false; Called (ValuesGet "DMC REQUEST!1:1") false]
                0 0).
Proof.
  intros rt titles.
  assert (Hget : spreadsheets_get (store rt) (journal empty_world) = Returned titles)
    by reflexivity.
  split; [exact Hget|].
  destruct (ensureSheetAndHeaders_by_case rt CONTRACTORS_SHEET_NAME CONTRACTOR_LIST_HEADERS
              empty_world titles Hget) as (Hnew & _ & _).
  destruct (ensureSheetAndHeaders_by_case rt USERS_SHEET_NAME USER_HEADERS
              empty_world titles Hget) as (_ & Hplain & _).
  destruct (ensureSheetAndHeaders_by_case rt "DMC REQUEST" SUBMISSION_HEADERS
              empty_world titles Hget) as (_ & _ & Hreport).
  split; [|split].
  - apply Hnew; [|reflexivity|reflexivity].
    intros [H|[H|[H|[]]]]; discriminate.
  - apply Hplain; [left; reflexivity | reflexivity].
  - destruct (Hreport (or_intror (or_introl eq_refl)) eq_refl
                      (Some [map VStr SUBMISSION_HEADERS]) eq_refl) as [Hcomplete _].
    + discriminate.
    + apply Hcomplete. split; [simpl; lia|].
      intros h Hh. apply in_map. exact Hh.
Defined.

(** ** What the submission sends *)

(** The only error that the set-up of a sheet throws. *)
Lemma ensure_thrown (rt : Runtime) (sheetName : string) (headers : list string)
    (w w' : world) (e : JsError) :
  ensureSheetAndHeaders rt sheetName headers w = (Thrown e, w') ->
  e = Error ("Failed to initialize sheet: " ++ sheetName ++ ".").
Proof.
  unfold ensureSheetAndHeaders, try_catch.
  match goal with |- context [match ?m w with _ => _ end] => destruct (m w) as [[[]|e0] w0] end;
    unfold throw; intros H; inversion H; reflexivity.
Qed.

Lemma send_rows_after_setup (rt : Runtime) (payload : SubmitDeductionsPayload)
    (sheetId : string) (w1 : world) :
  getSheetsApi rt = Some sheetId ->
  let sheet := (company_name (p_company payload) ++ " REQUEST")%string in
  let setup := ensureSheetAndHeaders rt sheet SUBMISSION_HEADERS w1 in
  let w2 := snd setup in
  let rows := rowsToAppend (fst (cairo_at rt (clock_reads w2)))
                           (snd (cairo_at rt (clock_reads w2))) payload in
  let reply := values_append (store rt) (journal w2) (sheet ++ "!A1")%string rows in
  send_rows rt payload w1
  = match fst setup with
    | Thrown e => (Thrown (Error (friendlyMessage e)), w2)
    | Returned _ =>
        if (0 <? List.length rows)%nat
        then (match reply with
              | Returned _ => Returned (mkResult true "تم إرسال التقرير بنجاح للمراجعة.")
              | Thrown e => Thrown (Error (friendlyMessage e))
              end,
              record (Called (ValuesAppend (sheet ++ "!A1")%string rows) (is_thrown reply))
                     (tick w2))
        else (Returned (mkResult true "تم إرسال التقرير بنجاح للمراجعة."), tick w2)
    end.
Proof.
  intros Hapi sheet setup w2 rows reply. unfold send_rows. rewrite Hapi.
  unfold try_catch, mbind. fold sheet. fold setup.
  subst w2. destruct setup as [[[]|e] w2]; cbn [fst snd] in *; [|reflexivity].
  unfold now_in_cairo. cbv beta iota.
  destruct (cairo_at rt (clock_reads w2)) as [date time] eqn:Enow. cbn [fst snd] in *.
  fold rows. destruct (0 <? List.length rows)%nat.
  - unfold sheets_values_append, call_store.
    change (journal (tick w2)) with (journal w2). fold reply.
    destruct reply as [[]|e]; reflexivity.
  - reflexivity.
Qed.

(** X17. With the store configured, a failure while the report table is
    set up is reported with the general message, whatever the error of the
    store was; a failure of the append itself is reported with the message of
    its error, which differs from the general one exactly for the codes 403
    (permission refused) and 404 (file not found). *)
Theorem submit_failure_message (rt : Runtime) (payload : SubmitDeductionsPayload)
    (sheetId : string) (w : world) :
  getSheetsApi rt = Some sheetId ->
  let sheet := (company_name (p_company payload) ++ " REQUEST")%string in
  let setup := ensureSheetAndHeaders rt sheet SUBMISSION_HEADERS (after_push rt payload w) in
  let w2 := snd setup in
  let rows := rowsToAppend (fst (cairo_at rt (clock_reads w2)))
                           (snd (cairo_at rt (clock_reads w2))) payload in
  (is_thrown (fst setup) = true ->
   fst (submitDeductions rt payload w)
   = Thrown (Error "فشل إرسال البيانات إلى Google Sheets."))
  /\ (forall e,
         is_thrown (fst setup) = false -> rows <> [] ->
         values_append (store rt) (journal w2) (sheet ++ "!A1")%string rows = Thrown e ->
         fst (submitDeductions rt payload w) = Thrown (Error (friendlyMessage e)))
  /\ (forall e,
         friendlyMessage e <> "فشل إرسال البيانات إلى Google Sheets."
         <-> code e = Some 403%Z \/ code e = Some 404%Z).
Proof.
  intros Hapi sheet setup w2 rows.
  rewrite submitDeductions_unfold.
  rewrite (send_rows_after_setup rt payload sheetId _ Hapi).
  fold sheet. fold setup. fold w2. fold rows.
  split; [|split].
  - intros Hthrown. destruct setup as [[[]|e] w3] eqn:E; cbn [fst] in *; [discriminate|].
    apply ensure_thrown in E. subst e. reflexivity.
  - intros e Hok Hrows Happend. destruct (fst setup) as [[]|e0]; [|discriminate].
    destruct rows as [|r rest]; [contradiction|]. cbn [List.length Nat.ltb Nat.leb].
    rewrite Happend. reflexivity.
  - intros e. unfold friendlyMessage.
    destruct (code e) as [[|p|p]|].
    + split; [intros H; contradiction H; reflexivity | intros [H|H]; discriminate].
    + destruct (Pos.eq_dec p 403) as [->|H403].
      * split; [auto | intros _; discriminate].
      * destruct (Pos.eq_dec p 404) as [->|H404].
        -- split; [auto | intros _; discriminate].
        -- assert (Hm : match p with
                         | 403%positive =>
                             ("تم رفض الإذن. يرجى التأكد من أن بريد حساب الخدمة لديه صلاحية "
                              ++ dquote ++ "Editor" ++ dquote ++ " على ملف Google Sheet.")%string
                         | 404%positive =>
                             "لم يتم العثور على الملف. يرجى التحقق مرة أخرى من GOOGLE_SHEET_ID في ملف .env.local الخاص بك."
                         | _ => "فشل إرسال البيانات إلى Google Sheets."
                         end = "فشل إرسال البيانات إلى Google Sheets.").
           { do 9 (destruct p as [p|p|]; try reflexivity); try congruence. }
           rewrite Hm. split; [intros H; contradiction H; reflexivity|].
           intros [H|H]; inversion H; congruence.
    + split; [intros H; contradiction H; reflexivity | intros [H|H]; discriminate].
    + split; [intros H; contradiction H; reflexivity | intros [H|H]; discriminate].
Qed.

(** A store that refuses every call with the code 403 fails the set-up: the
    general message.  A store that refuses only the append: the message of
    the refused permission. *)
Lemma submit_failure_message_witness :
  getSheetsApi (runtime_on failing_store) = Some "sheet-id"
  /\ code permission_denied = Some 403%Z
  /\ fst (submitDeductions (runtime_on failing_store) (payload_of "مقاولات الخليج") empty_world)
     = Thrown (Error "فشل إرسال البيانات إلى Google Sheets.")
  /\ fst (submitDeductions (runtime_on append_refusing_store) (payload_of "مقاولات الخليج")
                           empty_world)
     = Thrown (Error (friendlyMessage permission_denied))
  /\ friendlyMessage permission_denied <> "فشل إرسال البيانات إلى Google Sheets.".
Proof.
  destruct (submit_failure_message (runtime_on failing_store) (payload_of "مقاولات الخليج")
              "sheet-id" empty_world eq_refl) as (Hsetup & _ & _).
  destruct (submit_failure_message (runtime_on append_refusing_store)
              (payload_of "مقاولات الخليج") "sheet-id" empty_world eq_refl)
    as (_ & Happend & Hcode).
  split; [reflexivity|]. split; [reflexivity|]. split; [|split].
  - apply Hsetup. reflexivity.
  - apply (Happend permission_denied); [reflexivity | discriminate | reflexivity].
  - apply Hcode. left. reflexivity.
Defined.

(** X18. With the store configured, a submission pushes its report on the
    in-memory list, sets up the report table of its company and then, when
    the set-up went through and the payload has a line item, appends its rows
    in one call at the cell [A1] of that table; it makes no other call, and
    the rows are as many as the line items. *)
Theorem submission_appends_its_rows_once (rt : Runtime) (payload : SubmitDeductionsPayload)
    (sheetId : string) (w : world) :
  getSheetsApi rt = Some sheetId ->
  let sheet := (company_name (p_company payload) ++ " REQUEST")%string in
  let setup := ensureSheetAndHeaders rt sheet SUBMISSION_HEADERS (after_push rt payload w) in
  let w2 := snd setup in
  let rows := rowsToAppend (fst (cairo_at rt (clock_reads w2)))
                           (snd (cairo_at rt (clock_reads w2))) payload in
  let reply := values_append (store rt) (journal w2) (sheet ++ "!A1")%string rows in
  exists calls,
    journal w2 = journal w ++ Pushed (pushed_entry rt payload w) :: calls
    /\ Forall (ensure_event sheet SUBMISSION_HEADERS) calls
    /\ journal (snd (submitDeductions rt payload w))
       = journal w2
         ++ (if is_thrown (fst setup) || (count_items (p_contractors payload) =? 0)%nat
             then []
             else [Called (ValuesAppend (sheet ++ "!A1")%string rows) (is_thrown reply)])
    /\ List.length rows = count_items (p_contractors payload).
Proof.
  intros Hapi sheet setup w2 rows reply.
  destruct (ensure_footprint rt sheet SUBMISSION_HEADERS (after_push rt payload w))
    as (calls & Hj & Hall).
  exists calls. split; [|split; [exact Hall|split; [|apply rowsToAppend_length]]].
  - subst w2 setup. rewrite Hj. cbn [journal after_push]. rewrite <- app_assoc. reflexivity.
  - rewrite submitDeductions_unfold.
    rewrite (send_rows_after_setup rt payload sheetId _ Hapi).
    fold sheet. fold setup. fold w2. fold rows. fold reply.
    rewrite <- (rowsToAppend_length (fst (cairo_at rt (clock_reads w2)))
                                    (snd (cairo_at rt (clock_reads w2))) payload).
    fold rows.
    destruct (fst setup) as [[]|e]; cbn [is_thrown orb].
    + destruct rows as [|r rest]; cbn [List.length Nat.ltb Nat.leb Nat.eqb snd journal tick].
      * symmetry. apply app_nil_r.
      * reflexivity.
    + cbn [snd]. symmetry. apply app_nil_r.
Qed.

(** On the sample store the submission of the sample payload lists the
    sheets, reads the header row of the report table, and appends its two
    rows. *)
Lemma submission_appends_its_rows_once_witness :
  let rt := runtime_on (table_store [] []) in
  let payload := payload_of "مقاولات الخليج" in
  getSheetsApi rt = Some "sheet-id"
  /\ journal (snd (submitDeductions rt payload empty_world))
     = [ Pushed (pushed_entry rt payload empty_world);
         Called SpreadsheetsGet false;
         Called (ValuesGet "DMC REQUEST!1:1") false;
         Called (ValuesAppend "DMC REQUEST!A1" (rowsToAppend "2024-06-01" "10:00" payload))
                false ]
  /\ List.length (rowsToAppend "2024-06-01" "10:00" payload) = 2.
Proof.
  intros rt payload.
  destruct (submission_appends_its_rows_once rt payload "sheet-id" empty_world eq_refl)
    as (calls & _ & _ & Hj & Hlen).
  split; [reflexivity|]. split; [exact Hj | exact Hlen].
Defined.

(** ** The role of a user *)

Lemma find_role_text_rows (rt : Runtime) (email : string) (rows : list row) :
  Forall (fun r => text_row r = true) rows ->
  find_role rt email rows
  = Returned (option_map (stored_role rt) (find (email_matches rt email) rows)).
Proof.
  induction 1 as [|r rows Hr _ IH]; cbn [find_role find]; [reflexivity|].
  rewrite (text_or_text_row r 0 "" Hr). cbn [bind]. unfold email_matches at 1.
  fold (lower rt (trim (cell_text (cell r 0) ""))). fold (lower rt (trim email)).
  destruct (lower rt (trim (cell_text (cell r 0) "")) =? lower rt (trim email))%string.
  - rewrite (text_or_text_row r 2 "user" Hr). reflexivity.
  - exact IH.
Qed.

Lemma find_first {A : Type} (f : A -> bool) (l : list A) (x : A) :
  find f l = Some x
  <-> exists before after,
        l = before ++ x :: after /\ f x = true /\ Forall (fun y => f y = false) before.
Proof.
  induction l as [|y l IH]; simpl.
  - split; [discriminate|]. intros (before & after & H & _). destruct before; discriminate.
  - destruct (f y) eqn:E.
    + split.
      * intros H. inversion H; subst. exists [], l. repeat split; [exact E | constructor].
      * intros (before & after & H & Hx & Hb). destruct before as [|z before].
        -- inversion H; reflexivity.
        -- inversion H; subst. inversion Hb; subst. congruence.
    + rewrite IH. split.
      * intros (before & after & -> & Hx & Hb). exists (y :: before), after.
        repeat split; [exact Hx | constructor; assumption].
      * intros (before & after & H & Hx & Hb). destruct before as [|z before].
        -- inversion H; subst. congruence.
        -- inversion H; subst. inversion Hb; subst. eauto.
Qed.

(** X19. With the store configured and the user table read as rows of
    text, the role of a non-empty email is the role stored in the first row of
    that email, the emails compared trimmed and in lower case: the
    administrator when the role cell, trimmed and in lower case, is [admin], a
    plain user for anything else, an empty or missing cell included.  Later
    rows of the email are not looked at, and an email with no row has no
    role. *)
Theorem role_of_the_first_row_of_the_email (rt : Runtime) (email sheetId : string)
    (values : option (list row)) (w w1 : world) :
  email <> "" ->
  getSheetsApi rt = Some sheetId ->
  (ensureSheetAndHeaders rt USERS_SHEET_NAME USER_HEADERS ;;;
   sheets_values_get rt (USERS_SHEET_NAME ++ "!A2:C")%string) w
  = (Returned values, w1) ->
  let rows := match values with
              | Some rows => rows
              | None => []
              end in
  Forall (fun r => text_row r = true) rows ->
  getUserRoleByEmail rt email w
  = (Returned (option_map (stored_role rt) (find (email_matches rt email) rows)), w1)
  /\ forall r,
       find (email_matches rt email) rows = Some r
       <-> exists before after,
             rows = before ++ r :: after
             /\ email_matches rt email r = true
             /\ Forall (fun r' => email_matches rt email r' = false) before.
Proof.
  intros Hemail Hapi Hread rows Htext. split; [|intros r; apply find_first].
  unfold getUserRoleByEmail. apply String.eqb_neq in Hemail. rewrite Hemail, Hapi.
  unfold try_catch. rewrite <- mbind_assoc.
  rewrite (mbind_returned _ _ _ _ _ Hread).
  subst rows. destruct values as [[|r rest]|]; [reflexivity| |reflexivity].
  unfold lift. rewrite (find_role_text_rows _ _ _ Htext). reflexivity.
Qed.

(** The email has two rows, a plain user first and an administrator second:
    the role is the one of the first row.  An email stored with the capital
    letter U+00C9 is found when it is asked for with the small letter
    U+00E9. *)
Lemma role_of_the_first_row_of_the_email_witness :
  let rt := runtime_on (table_store two_role_users []) in
  let rt' := runtime_on (table_store accented_users []) in
  getSheetsApi rt = Some "sheet-id"
  /\ Forall (fun r => text_row r = true) two_role_users
  /\ map (stored_role rt) two_role_users = [user; admin]
  /\ map (email_matches rt "ENG@site.com ") two_role_users = [true; true]
  /\ fst (getUserRoleByEmail rt "ENG@site.com " empty_world) = Returned (Some user)
  /\ map (email_matches rt' "élodie@x.com") accented_users = [true]
  /\ fst (getUserRoleByEmail rt' "élodie@x.com" empty_world) = Returned (Some user).
Proof.
  intros rt rt'.
  assert (Htext : Forall (fun r => text_row r = true) two_role_users)
    by (repeat constructor).
  assert (Htext' : Forall (fun r => text_row r = true) accented_users)
    by (repeat constructor).
  assert (Hemail : "ENG@site.com " <> "") by discriminate.
  assert (Hemail' : "élodie@x.com" <> "") by discriminate.
  destruct (role_of_the_first_row_of_the_email rt "ENG@site.com " "sheet-id"
              (Some two_role_users) empty_world
              (snd ((ensureSheetAndHeaders rt USERS_SHEET_NAME USER_HEADERS ;;;
                     sheets_values_get rt (USERS_SHEET_NAME ++ "!A2:C")%string) empty_world))
              Hemail eq_refl eq_refl Htext) as [Hrole _].
  destruct (role_of_the_first_row_of_the_email rt' "élodie@x.com" "sheet-id"
              (Some accented_users) empty_world
              (snd ((ensureSheetAndHeaders rt' USERS_SHEET_NAME USER_HEADERS ;;;
                     sheets_values_get rt' (USERS_SHEET_NAME ++ "!A2:C")%string) empty_world))
              Hemail' eq_refl eq_refl Htext') as [Hrole' _].
  split; [reflexivity|]. split; [exact Htext|].
  split; [vm_compute; reflexivity|]. split; [vm_compute; reflexivity|].
  split; [rewrite Hrole; vm_compute; reflexivity|].
  split; [vm_compute; reflexivity|].
  rewrite Hrole'. vm_compute. reflexivity.
Defined.

Lemma row_matches_email (rt : Runtime) (email password_provided : string) (expectedRole : UserRole)
    (r : row) :
  row_matches rt email password_provided expectedRole r = true ->
  email_matches rt email r = true /\ stored_role rt r = expectedRole.
Proof.
  unfold row_matches, email_matches, stored_role.
  rewrite !andb_true_iff. intros [[He _] Hr]. split; [exact He|].
  apply String.eqb_eq in Hr. rewrite Hr. destruct expectedRole; reflexivity.
Qed.

(** X20. On a user table of rows of text in which the rows of the email are
    all the same row, a login that is granted grants the role that the role
    look-up finds for the email. *)
Theorem granted_role_is_the_looked_up_role (rt : Runtime) (email password_provided : string)
    (expectedRole : UserRole) (rows : list row) :
  Forall (fun r => text_row r = true) rows ->
  (forall r1 r2, In r1 rows -> In r2 rows ->
                 email_matches rt email r1 = true -> email_matches rt email r2 = true -> r1 = r2) ->
  find_valid rt email password_provided expectedRole rows
  = Returned (mkValidation true (Some expectedRole)) ->
  find_role rt email rows = Returned (Some expectedRole).
Proof.
  intros Htext Hone Hvalid.
  rewrite (find_valid_text_rows _ _ _ _ _ Htext) in Hvalid.
  destruct (existsb (row_matches rt email password_provided expectedRole) rows) eqn:E;
    [|discriminate].
  apply existsb_exists in E. destruct E as (r & Hin & Hr).
  apply row_matches_email in Hr. destruct Hr as [He Hrole].
  rewrite (find_role_text_rows _ _ _ Htext).
  destruct (find (email_matches rt email) rows) as [r'|] eqn:F.
  - apply find_some in F. destruct F as [Hin' He'].
    rewrite (Hone r' r Hin' Hin He' He). simpl. rewrite Hrole. reflexivity.
  - exfalso. apply (find_none _ _ F) in Hin. congruence.
Qed.

Lemma granted_role_is_the_looked_up_role_witness :
  let rt := runtime_on (table_store capital_admin_users []) in
  Forall (fun r => text_row r = true) capital_admin_users
  /\ find_valid rt " ENG@Site.com" "secret " admin capital_admin_users
     = Returned (mkValidation true (Some admin))
  /\ find_role rt " ENG@Site.com" capital_admin_users = Returned (Some admin).
Proof.
  intros rt.
  assert (Htext : Forall (fun r => text_row r = true) capital_admin_users)
    by (repeat constructor).
  assert (Hvalid : find_valid rt " ENG@Site.com" "secret " admin capital_admin_users
                   = Returned (mkValidation true (Some admin)))
    by (vm_compute; reflexivity).
  split; [exact Htext|]. split; [exact Hvalid|].
  apply (granted_role_is_the_looked_up_role rt " ENG@Site.com" "secret " admin
           capital_admin_users Htext); [|exact Hvalid].
  intros r1 r2 [<-|[]] [<-|[]] _ _. reflexivity.
Defined.

(** ** The login checks always answer *)

Lemma find_valid_result (rt : Runtime) (email password_provided : string) (expectedRole : UserRole)
    (rows : list row) (v : Validation) :
  find_valid rt email password_provided expectedRole rows = Returned v ->
  v = mkValidation true (Some expectedRole) \/ v = mkValidation false None.
Proof.
  induction rows as [|r rows IH]; cbn [find_valid].
  - intros H. inversion H. right. reflexivity.
  - destruct (row_validates rt email password_provided expectedRole r) as [[|]|e];
      cbn [bind]; intros H.
    + inversion H. left. reflexivity.
    + apply IH. exact H.
    + discriminate.
Qed.

Lemma login_checks_answer (rt : Runtime) (w : world) :
  (forall email, exists found, fst (getUserRoleByEmail rt email w) = Returned found)
  /\ getUserRoleByEmail rt "" w = (Returned None, w)
  /\ forall email password_provided expectedRole,
       exists v,
         fst (validateUser rt email password_provided expectedRole w) = Returned v
         /\ (v = mkValidation true (Some expectedRole) \/ v = mkValidation false None).
Proof.
  split; [|split].
  - intros email. unfold getUserRoleByEmail.
    destruct (email =? "")%string; [eexists; reflexivity|].
    destruct (getSheetsApi rt).
    + unfold try_catch.
      match goal with |- context [match ?m w with _ => _ end] => destruct (m w) as [[a|e] w0] end;
        eexists; reflexivity.
    + repeat match goal with |- context [if ?b then _ else _] => destruct b end;
        eexists; reflexivity.
  - reflexivity.
  - intros email password_provided expectedRole. unfold validateUser.
    destruct (getSheetsApi rt).
    + unfold try_catch, mbind.
      destruct (ensureSheetAndHeaders rt USERS_SHEET_NAME USER_HEADERS w) as [[[]|e] w0];
        [|eexists; split; [reflexivity | right; reflexivity]].
      destruct (sheets_values_get rt (USERS_SHEET_NAME ++ "!A2:C")%string w0)
        as [[[[|r rest]|]|e] w1];
        try (eexists; split; [reflexivity | right; reflexivity]).
      unfold lift.
      destruct (find_valid rt email password_provided expectedRole (r :: rest)) as [v|e] eqn:E.
      * exists v. split; [reflexivity|]. eapply find_valid_result. exact E.
      * eexists; split; [reflexivity | right; reflexivity].
    + destruct expectedRole;
        destruct (email =? "admin@test.com")%string, (email =? "user@test.com")%string,
                 (password_provided =? "123")%string;
        cbn [role_eqb andb]; eexists; (split; [reflexivity | auto]).
Qed.

(** X21. The two login checks never throw, whatever the store answers and
    whatever its cells hold.  A validation that is granted carries the
    requested role, one that is refused carries no role; the role look-up of
    the empty email answers no role and leaves the state as it is. *)
Theorem login_checks_always_answer (rt : Runtime) (w : world) :
  (forall email, exists found, fst (getUserRoleByEmail rt email w) = Returned found)
  /\ getUserRoleByEmail rt "" w = (Returned None, w)
  /\ forall email password_provided expectedRole,
       exists v,
         fst (validateUser rt email password_provided expectedRole w) = Returned v
         /\ (v = mkValidation true (Some expectedRole) \/ v = mkValidation false None).
Proof. apply login_checks_answer. Qed.

(** ** The demo accounts *)

(** X22. Without the configuration of the store, a login is granted for
    the two demo accounts only, with the email and the password exactly as
    they are written, and the state is left as it is; the role look-up then
    finds the role that was granted. *)
Theorem demo_accounts (rt : Runtime) (email password_provided : string)
    (expectedRole : UserRole) (w : world) :
  getSheetsApi rt = None ->
  validateUser rt email password_provided expectedRole w
  = (Returned (if ((email =? "admin@test.com") && (password_provided =? "123")
                   && role_eqb expectedRole admin)
                  || ((email =? "user@test.com") && (password_provided =? "123")
                      && role_eqb expectedRole user)
               then mkValidation true (Some expectedRole)
               else mkValidation false None), w)
  /\ (fst (validateUser rt email password_provided expectedRole w)
      = Returned (mkValidation true (Some expectedRole)) ->
      getUserRoleByEmail rt email w = (Returned (Some expectedRole), w)).
Proof.
  intros Hapi. unfold validateUser, getUserRoleByEmail. rewrite Hapi.
  destruct (String.eqb_spec email "admin@test.com") as [Ea|Ea];
    destruct (String.eqb_spec email "user@test.com") as [Eu|Eu];
    [exfalso; rewrite Ea in Eu; discriminate Eu | | |];
    destruct (password_provided =? "123")%string; destruct expectedRole;
    cbn [andb orb role_eqb fst];
    (split; [reflexivity|]); intros H; try discriminate H; subst email; reflexivity.
Qed.

Lemma demo_accounts_witness :
  getSheetsApi offline_runtime = None
  /\ validateUser offline_runtime "admin@test.com" "123" admin empty_world
     = (Returned (mkValidation true (Some admin)), empty_world)
  /\ getUserRoleByEmail offline_runtime "admin@test.com" empty_world
     = (Returned (Some admin), empty_world)
  /\ validateUser offline_runtime "Admin@test.com" "123" admin empty_world
     = (Returned (mkValidation false None), empty_world).
Proof.
  destruct (demo_accounts offline_runtime "admin@test.com" "123" admin empty_world eq_refl)
    as [Hgrant Hrole].
  destruct (demo_accounts offline_runtime "Admin@test.com" "123" admin empty_world eq_refl)
    as [Hrefuse _].
  split; [reflexivity|]. split; [exact Hgrant|]. split; [|exact Hrefuse].
  apply Hrole. reflexivity.
Defined.

(** ** The status update of an in-memory report *)

Lemma set_first_status_none (id : string) (newStatus : Decision) (l : list Submission) :
  (forall s, In s l -> reportId s <> id) -> set_first_status id newStatus l = None.
Proof.
  induction l as [|s l IH]; intros H; simpl; [reflexivity|].
  destruct (String.eqb_spec (reportId s) id) as [E|_].
  - exfalso. apply (H s); [left; reflexivity | exact E].
  - rewrite IH; [reflexivity|]. intros s' Hs'. apply H. right. exact Hs'.
Qed.

Lemma set_first_status_first (id : string) (newStatus : Decision)
    (before after : list Submission) (s : Submission) :
  reportId s = id -> (forall s', In s' before -> reportId s' <> id) ->
  set_first_status id newStatus (before ++ s :: after)
  = Some (before ++ with_status (decision_label newStatus) s :: after).
Proof.
  intros Hs. subst id. induction before as [|b before IH]; intros H; simpl.
  - rewrite String.eqb_refl. reflexivity.
  - destruct (String.eqb_spec (reportId b) (reportId s)) as [E|_].
    + exfalso. apply (H b); [left; reflexivity | exact E].
    + rewrite IH; [reflexivity|]. intros s' Hs'. apply H. right. exact Hs'.
Qed.

(** X23. Without the configuration of the store, the status update sets the
    status of the first in-memory report with the report key, and of no other
    report, even one with the same key; with no such report it changes
    nothing and answers that it failed. *)
Theorem local_status_update_sets_the_first_report (rt : Runtime) (id : string)
    (company : Company) (newStatus : Decision) (adminEmail : string) (w : world) :
  getSheetsApi rt = None ->
  ((forall s, In s (mockSubmissions w) -> reportId s <> id) ->
   updateReportStatus rt id company newStatus adminEmail w
   = (Returned (mkResult false "Google Sheets API is not configured."), w))
  /\ (forall before s after,
         mockSubmissions w = before ++ s :: after ->
         reportId s = id -> (forall s', In s' before -> reportId s' <> id) ->
         updateReportStatus rt id company newStatus adminEmail w
         = (Returned (mkResult true "تم تحديث الحالة محلياً بنجاح."),
            set_mock (before ++ with_status (decision_label newStatus) s :: after) w)).
Proof.
  intros Hapi. unfold updateReportStatus. rewrite Hapi. split.
  - intros H. rewrite (set_first_status_none _ _ _ H). reflexivity.
  - intros before s after Hw Hs Hb. rewrite Hw.
    rewrite (set_first_status_first _ _ _ _ _ Hs Hb). reflexivity.
Qed.

Lemma local_status_update_sets_the_first_report_witness :
  let w := mkWorld local_reports [] 0 0 in
  getSheetsApi offline_runtime = None
  /\ map reportId local_reports = ["r-1"; "r-2"; "r-1"]
  /\ map status
         (mockSubmissions
            (snd (updateReportStatus offline_runtime "r-1" DMC Approved "admin@site.com" w)))
     = [VStr "موافقة"; VStr PENDING; VStr PENDING]
  /\ updateReportStatus offline_runtime "r-9" DMC Approved "admin@site.com" w
     = (Returned (mkResult false "Google Sheets API is not configured."), w).
Proof.
  intros w.
  destruct (local_status_update_sets_the_first_report offline_runtime "r-1" DMC Approved
              "admin@site.com" w eq_refl) as [_ Hfirst].
  destruct (local_status_update_sets_the_first_report offline_runtime "r-9" DMC Approved
              "admin@site.com" w eq_refl) as [Hnone _].
  split; [reflexivity|]. split; [reflexivity|]. split.
  - rewrite (Hfirst [] (nth 0 local_reports no_report) (tl local_reports));
      [reflexivity | reflexivity | reflexivity | intros s' []].
  - apply Hnone. intros s [<-|[<-|[<-|[]]]]; discriminate.
Defined.

(** ** The history of a user *)

Lemma read_company_rows_keeps (rt : Runtime) (keep : row -> bool) (allRows : list row)
    (company : Company) (w : world) :
  Forall (fun r => keep r = true) allRows ->
  exists rows w',
    read_company_rows rt keep allRows company w = (Returned rows, w')
    /\ Forall (fun r => keep r = true) rows.
Proof.
  intros Hall. unfold read_company_rows, try_catch, mbind.
  destruct (ensureSheetAndHeaders rt (company_name company ++ " REQUEST")%string
                                  SUBMISSION_HEADERS w) as [[[]|e] w0];
    [|eexists; eexists; split; [reflexivity | exact Hall]].
  destruct (sheets_values_get rt ((company_name company ++ " REQUEST") ++ "!A2:Z")%string w0)
    as [[[rows|]|e] w1];
    eexists; eexists; (split; [reflexivity|]); try exact Hall.
  apply Forall_app. split; [exact Hall|].
  apply Forall_forall. intros r Hr. apply filter_In in Hr. apply Hr.
Qed.

Lemma for_companies_keeps (rt : Runtime) (keep : row -> bool) (companies : list Company) :
  forall allRows w,
    Forall (fun r => keep r = true) allRows ->
    exists rows w',
      for_companies rt keep companies allRows w = (Returned rows, w')
      /\ Forall (fun r => keep r = true) rows.
Proof.
  induction companies as [|c cs IH]; intros allRows w Hall; cbn [for_companies].
  - exists allRows, w. split; [reflexivity | exact Hall].
  - destruct (read_company_rows_keeps rt keep allRows c w Hall) as (rows & w1 & Hr & Hk).
    unfold mbind. rewrite Hr. apply IH. exact Hk.
Qed.

(** X24. With the store configured, every report of the history of a user
    has the email of that user, and with both dates of a range given, its
    timestamp starts with a date of the form [YYYY-MM-DD] that, as a string,
    is not before the start date and not after the end date. *)
Theorem history_holds_the_reports_of_the_user (rt : Runtime) (params : GetHistoryParams)
    (sheetId : string) (w : world) (subs : list Submission) :
  getSheetsApi rt = Some sheetId ->
  fst (getSubmissionHistory rt params w) = Returned subs ->
  Forall (fun s =>
            userEmail s = VStr (h_userEmail params)
            /\ forall a b,
                 date_range params = Some (a, b) ->
                 exists d t,
                   timestamp s = (d ++ " " ++ t)%string
                   /\ is_iso_date d = true
                   /\ str_lt d a = false
                   /\ str_lt b d = false)
         subs.
Proof.
  intros Hapi. unfold getSubmissionHistory. rewrite Hapi.
  unfold try_catch, mbind.
  destruct (for_companies_keeps rt (fun r => is_string (cell r 2) (h_userEmail params))
              [DMC; CURVE] [] w (Forall_nil _)) as (allUserRows & w1 & Hrun & Hkeep).
  rewrite Hrun.
  set (filteredRows := match date_range params with
                       | Some (a, b) => filter (in_date_range a b) allUserRows
                       | None => allUserRows
                       end).
  unfold parse_rows.
  destruct (parseSubmissionsFromRows (fun k => uuid_stream rt (uuids_drawn w1 + k))
                                     filteredRows) as [subs'|e] eqn:Hparse;
    cbn [fst]; intros H; [|discriminate].
  inversion H; subst subs'. clear H.
  apply Forall_forall. intros s Hs.
  destruct (parse_report_group _ _ _ _ Hparse Hs) as [n Hb].
  apply build_submission_returned in Hb.
  destruct Hb as (first & rest & m & Hg & _ & _ & _ & He & _).
  assert (Hfirst : In first (rows_of_key (timestamp s) filteredRows))
    by (rewrite Hg; left; reflexivity).
  apply filter_In in Hfirst. destruct Hfirst as [Hin Hkey].
  apply String.eqb_eq in Hkey.
  assert (Hall : In first allUserRows).
  { subst filteredRows. destruct (date_range params) as [[a b]|]; [|exact Hin].
    apply filter_In in Hin. apply Hin. }
  split.
  - rewrite He. rewrite Forall_forall in Hkeep. specialize (Hkeep first Hall).
    simpl in Hkeep. destruct (cell first 2) as [|email|x]; simpl in Hkeep; try discriminate.
    apply String.eqb_eq in Hkeep. congruence.
  - intros a b Hrange. subst filteredRows. rewrite Hrange in Hin.
    apply filter_In in Hin. destruct Hin as [_ Hdate].
    unfold in_date_range in Hdate.
    destruct (cell first 0) as [|rowDate|x] eqn:E0; try discriminate.
    rewrite !andb_true_iff, !negb_true_iff in Hdate. destruct Hdate as [[Hiso Ha] Hb].
    exists rowDate, (ToString (cell first 1)).
    rewrite <- Hkey. unfold timestampKey. rewrite E0. auto.
Qed.

(** The report tables hold a row of June and a row of May of the user: the
    history of June holds the report of June. *)
Lemma history_holds_the_reports_of_the_user_witness :
  let rt := runtime_on (table_store [] [june_row; may_row_1]) in
  getSheetsApi rt = Some "sheet-id"
  /\ fst (getSubmissionHistory rt june_request empty_world) = Returned june_history
  /\ map timestamp june_history = ["2024-06-01 10:00"]
  /\ Forall (fun s =>
               userEmail s = VStr (h_userEmail june_request)
               /\ forall a b,
                    date_range june_request = Some (a, b) ->
                    exists d t,
                      timestamp s = (d ++ " " ++ t)%string
                      /\ is_iso_date d = true
                      /\ str_lt d a = false
                      /\ str_lt b d = false)
            june_history.
Proof.
  intros rt.
  assert (H : fst (getSubmissionHistory rt june_request empty_world) = Returned june_history)
    by (vm_compute; reflexivity).
  split; [reflexivity|]. split; [exact H|]. split; [reflexivity|].
  exact (history_holds_the_reports_of_the_user rt june_request "sheet-id" empty_world
           june_history eq_refl H).
Defined.







(** ** The list of all reports *)

Lemma filter_all {A : Type} (l : list A) : filter (fun _ => true) l = l.
Proof. induction l as [|x l IH]; simpl; [reflexivity | rewrite IH; reflexivity]. Qed.

Lemma Forall2_In_l {A B : Type} (P : A -> B -> Prop) (l : list A) (l' : list B) (x : A) :
  Forall2 P l l' -> In x l -> exists y, In y l' /\ P x y.
Proof.
  induction 1 as [|a b l l' Hab _ IH]; intros Hin; [contradiction|].
  destruct Hin as [->|Hin].
  - exists b. split; [left; reflexivity | exact Hab].
  - destruct (IH Hin) as (y & Hy & Hxy). exists y. split; [right; exact Hy | exact Hxy].
Qed.

Lemma read_company_rows_read (rt : Runtime) (allRows rows : list row) (company : Company)
    (w w1 : world) :
  (ensureSheetAndHeaders rt (company_name company ++ " REQUEST")%string SUBMISSION_HEADERS ;;;
   sheets_values_get rt ((company_name company ++ " REQUEST") ++ "!A2:Z")%string) w
  = (Returned (Some rows), w1) ->
  read_company_rows rt (fun _ => true) allRows company w = (Returned (allRows ++ rows), w1).
Proof.
  intros H. unfold read_company_rows, try_catch. rewrite <- mbind_assoc.
  rewrite (mbind_returned _ _ _ _ _ H). rewrite filter_all. reflexivity.
Qed.

(** X26. With the store configured and the two report tables read, the list
    of all reports, when it is returned, is built from the rows of both
    tables: every row has a report with its date and time, and the reports
    hold as many line items as the two tables have rows. *)
Theorem all_reports_hold_the_rows_of_both_tables (rt : Runtime) (sheetId : string)
    (dmc curve : list row) (w w1 w2 : world) (subs : list Submission) :
  getSheetsApi rt = Some sheetId ->
  (ensureSheetAndHeaders rt "DMC REQUEST" SUBMISSION_HEADERS ;;;
   sheets_values_get rt "DMC REQUEST!A2:Z") w = (Returned (Some dmc), w1) ->
  (ensureSheetAndHeaders rt "CURVE REQUEST" SUBMISSION_HEADERS ;;;
   sheets_values_get rt "CURVE REQUEST!A2:Z") w1 = (Returned (Some curve), w2) ->
  fst (getAllSubmissions rt w) = Returned subs ->
  line_items subs = List.length dmc + List.length curve
  /\ Forall (fun r => exists s, In s subs /\ timestamp s = timestampKey r) (dmc ++ curve).
Proof.
  intros Hapi Hdmc Hcurve. unfold getAllSubmissions. rewrite Hapi.
  unfold try_catch, mbind. cbn [for_companies]. unfold mbind.
  rewrite (read_company_rows_read rt [] dmc DMC w w1 Hdmc).
  rewrite (read_company_rows_read rt ([] ++ dmc) curve CURVE w1 w2 Hcurve).
  unfold ret, parse_rows. cbn [app].
  destruct (parseSubmissionsFromRows (fun k => uuid_stream rt (uuids_drawn w2 + k))
                                     (dmc ++ curve)) as [subs'|e] eqn:Hparse;
    cbn [fst]; intros H; inversion H; subst subs'. clear H.
  split.
  - rewrite (reconstruction_count _ _ _ Hparse), length_app. reflexivity.
  - apply Forall_forall. intros r Hr.
    apply parseSubmissionsFromRows_returned in Hparse.
    destruct Hparse as (groups & unsorted & _ & _ & _ & Hrows & Hall & ->).
    destruct (Forall2_In_l _ _ _ _ Hall (Hrows r Hr)) as (s & Hs & n & Hb).
    exists s. split.
    + apply (Permutation_in _ (Permutation_sym (Array_sort_perm _ _))). exact Hs.
    + apply build_submission_returned in Hb.
      destruct Hb as (first & rest & m & _ & _ & Ht & _). exact Ht.
Qed.

(** Two report tables of two rows each: one report of four line items. *)
Lemma all_reports_hold_the_rows_of_both_tables_witness :
  let rt := runtime_on (table_store [] [june_row; june_row_other]) in
  getSheetsApi rt = Some "sheet-id"
  /\ fst (getAllSubmissions rt empty_world) = Returned both_tables_reports
  /\ line_items both_tables_reports = 4
  /\ Forall (fun r => exists s, In s both_tables_reports /\ timestamp s = timestampKey r)
            ([june_row; june_row_other] ++ [june_row; june_row_other]).
Proof.
  intros rt.
  assert (H : fst (getAllSubmissions rt empty_world) = Returned both_tables_reports)
    by (vm_compute; reflexivity).
  split; [reflexivity|]. split; [exact H|].
  exact (all_reports_hold_the_rows_of_both_tables rt "sheet-id"
           [june_row; june_row_other] [june_row; june_row_other] empty_world
           (snd ((ensureSheetAndHeaders rt "DMC REQUEST" SUBMISSION_HEADERS ;;;
                  sheets_values_get rt "DMC REQUEST!A2:Z") empty_world))
           (snd ((ensureSheetAndHeaders rt "CURVE REQUEST" SUBMISSION_HEADERS ;;;
                  sheets_values_get rt "CURVE REQUEST!A2:Z")
                   (snd ((ensureSheetAndHeaders rt "DMC REQUEST" SUBMISSION_HEADERS ;;;
                          sheets_values_get rt "DMC REQUEST!A2:Z") empty_world))))
           both_tables_reports eq_refl eq_refl eq_refl H).
Defined.

(** ** A valid form *)

Lemma positive_number (x : float) :
  (0 <? x)%float = true -> is_zero x = false /\ is_nan x = false.
Proof.
  unfold is_zero, is_nan. rewrite ltb_spec, !FloatAxioms.eqb_spec, Prim2SF_zero.
  destruct (Prim2SF x) as [s|s| |s m e]; unfold SFltb, SFeqb, SFcompare;
    try discriminate.
  - destruct s; [discriminate | auto].
  - destruct s; [discriminate|]. intros _.
    rewrite Z.compare_refl, Pos.compare_cont_refl. auto.
Qed.

Lemma Number_or_0_positive (v : value) :
  (0 <? Number v)%float = true -> Number_or_0 v = Number v.
Proof.
  intros H. apply positive_number in H. destruct H as [Hz Hn].
  unfold Number_or_0. rewrite Hz, Hn. reflexivity.
Qed.

Lemma Number_or_0_not_negative (v : value) :
  (0 <=? Number v)%float = true -> (0 <=? Number_or_0 v)%float = true.
Proof.
  intros H. unfold Number_or_0.
  destruct (is_zero (Number v) || is_nan (Number v)); [reflexivity | exact H].
Qed.

Lemma or_else_truthy (v d : value) : truthy v = true -> or_else v d = v.
Proof. unfold or_else. intros ->. reflexivity. Qed.

Lemma valid_contractors_count (cs : list Contractor) :
  forallb contractor_is_valid cs = true -> List.length cs <= count_items cs.
Proof.
  unfold count_items. induction cs as [|c cs IH]; simpl; [lia|].
  rewrite andb_true_iff. intros [Hc Hcs]. specialize (IH Hcs).
  unfold contractor_is_valid in Hc. rewrite !andb_true_iff in Hc.
  destruct Hc as [[_ Hlen] _]. apply Nat.ltb_lt in Hlen. lia.
Qed.

Lemma isFormValid_contractors (company : Company) (contractors : list Contractor) :
  isFormValid (Some company) contractors = true ->
  contractors <> [] /\ forallb contractor_is_valid contractors = true.
Proof.
  unfold isFormValid. destruct contractors as [|c cs]; [discriminate|].
  cbn [List.length Nat.eqb]. intros H. split; [discriminate | exact H].
Qed.

(** X27. A form that [isFormValid] accepts has a contractor, its submission
    builds at least as many rows as it has contractors, and every row is the
    row of a line item of a contractor of the form: it has the name of the
    contractor and the contract name, the work item and the description of the
    line item, none of them empty, the numeric value of the quantity of the
    line item, which is positive, and the unit price of the line item as a
    number, which is not negative. *)
Theorem valid_form_fills_the_required_cells (company : Company)
    (contractors : list Contractor) (email date time : string) :
  isFormValid (Some company) contractors = true ->
  let rows := rowsToAppend date time (mkPayload company contractors email) in
  contractors <> []
  /\ List.length contractors <= List.length rows
  /\ Forall (fun r =>
               exists c d,
                 In c contractors /\ In d (deductions c)
                 /\ cell r 4 = contractorName c /\ truthy (contractorName c) = true
                 /\ cell r 5 = contractName d /\ truthy (contractName d) = true
                 /\ cell r 6 = itemName d /\ truthy (itemName d) = true
                 /\ cell r 7 = workDescription d /\ truthy (workDescription d) = true
                 /\ cell r 9 = VNum (Number (quantity d))
                 /\ (0 <? Number (quantity d))%float = true
                 /\ cell r 10 = VNum (Number_or_0 (unitPrice d))
                 /\ (0 <=? Number_or_0 (unitPrice d))%float = true)
            rows.
Proof.
  intros Hvalid rows. apply isFormValid_contractors in Hvalid.
  destruct Hvalid as [Hne Hvalid].
  split; [exact Hne|]. split.
  - subst rows. rewrite rowsToAppend_length. cbn [p_contractors].
    apply valid_contractors_count. exact Hvalid.
  - apply Forall_forall. intros r Hr. apply rowsToAppend_In in Hr.
    destruct Hr as (c & d & Hc & Hd & ->). cbn [p_contractors] in Hc.
    rewrite forallb_forall in Hvalid.
    specialize (Hvalid c Hc). unfold contractor_is_valid in Hvalid.
    rewrite !andb_true_iff, forallb_forall in Hvalid.
    destruct Hvalid as [[Hname _] Hall]. specialize (Hall d Hd).
    unfold deduction_is_valid in Hall. rewrite !andb_true_iff in Hall.
    destruct Hall as [[[[[[Hcn Hin] Hwd] _] Hq] _] Hu].
    exists c, d. unfold row_of_deduction, cell. cbn [nth].
    rewrite !or_else_truthy by assumption.
    rewrite (Number_or_0_positive _ Hq).
    repeat split; try assumption.
    apply Number_or_0_not_negative. exact Hu.
Qed.

(** The sample form, one contractor with the line items 2 x 3 and 4 x 5: two
    rows, with the quantities 2 and 4 and the unit prices 3 and 5. *)
Lemma valid_form_fills_the_required_cells_witness :
  isFormValid (Some DMC) sample_form = true
  /\ map (fun r => (cell r 9, cell r 10))
         (rowsToAppend "2024-06-01" "10:00" (mkPayload DMC sample_form "eng@site.com"))
     = [(VNum 2, VNum 3); (VNum 4, VNum 5)]
  /\ List.length sample_form
     <= List.length (rowsToAppend "2024-06-01" "10:00" (mkPayload DMC sample_form "eng@site.com")).
Proof.
  split; [vm_compute; reflexivity|]. split; [vm_compute; reflexivity|].
  apply (valid_form_fills_the_required_cells DMC sample_form "eng@site.com"
           "2024-06-01" "10:00").
  vm_compute. reflexivity.
Defined.

(** ** The login form *)

(** X28. [handleLogin] asks for an email before it calls the server.  With
    an email, it signs the user in exactly when [validateUser] grants the
    login, with the email typed and the role of the form used, and moves to
    the page of that role; otherwise it leaves the session as it is and shows
    that the login failed.  It never shows a system error for what the server
    answers. *)
Theorem login_form_signs_in_only_when_granted (rt : Runtime) (email : string)
    (requested : UserRole) (password : string) (c : Client) (w : world) :
  let after := handleLogin rt email requested password c w in
  (email = ""
   /\ after = (show [Toast true "خطأ" "الرجاء إدخال البريد الإلكتروني أولاً."] c, w))
  \/ (email <> ""
      /\ fst (validateUser rt email password requested w)
         = Returned (mkValidation true (Some requested))
      /\ session (fst after) = mkAuth (Some email) (Some requested) true
      /\ shown (fst after)
         = shown c ++ [Toast false "تم تسجيل الدخول بنجاح" ("مرحباً بك، " ++ email);
                       RouterPush (match requested with
                                   | admin => "/admin"
                                   | user => "/deductions"
                                   end)]
      /\ snd after = snd (validateUser rt email password requested w))
  \/ (email <> ""
      /\ fst (validateUser rt email password requested w)
         = Returned (mkValidation false None)
      /\ session (fst after) = session c
      /\ shown (fst after)
         = shown c ++ [Toast true "فشل تسجيل الدخول"
                             "البريد الإلكتروني أو كلمة المرور غير صحيحة."]
      /\ snd after = snd (validateUser rt email password requested w)).
Proof.
  intros after. subst after. unfold handleLogin.
  destruct (String.eqb_spec email "") as [->|Hemail]; [left; auto|]. right.
  destruct (login_checks_answer rt w) as (_ & _ & Hv).
  destruct (Hv email password requested) as (v & Hrun & [->| ->]);
    destruct (validateUser rt email password requested w) as [o w'];
    cbn [fst] in Hrun; subst o; cbn [isValid role fst snd].
  - left. repeat split; assumption.
  - right. repeat split; assumption.
Qed.

(** ** The session store *)

(** X29. From the signed-out session and after any sequence of logins and
    logouts, the session holds the email and the role of the last action when
    that was a login, and is signed out otherwise; so it is authenticated
    exactly when it holds an email, and then it holds a role. *)
Theorem session_holds_the_last_login (actions : list AuthAction) :
  let s := fold_left auth_step actions signed_out in
  match last actions Logout with
  | Login email granted => s = mkAuth (Some email) (Some granted) true
  | Logout => s = signed_out
  end
  /\ (isAuthenticated s = true <-> auth_email s <> None)
  /\ (isAuthenticated s = true -> auth_role s <> None).
Proof.
  intros s. subst s.
  assert (Hlast : match last actions Logout with
                  | Login email granted =>
                      fold_left auth_step actions signed_out
                      = mkAuth (Some email) (Some granted) true
                  | Logout => fold_left auth_step actions signed_out = signed_out
                  end).
  { induction actions as [|a actions IH] using rev_ind; [reflexivity|].
    rewrite fold_left_app, last_last. destruct a; reflexivity. }
  split; [exact Hlast|].
  destruct (last actions Logout); rewrite Hlast; cbn [isAuthenticated auth_email auth_role signed_out].
  - split; [split; [intros _; discriminate | reflexivity] | intros _; discriminate].
  - split; [split; [discriminate | intros H; contradiction H; reflexivity] | discriminate].
Qed.
